(** * Printer control panels: AMS routing, tray addressing, filament-operation
      state and the confirmation gate.

    Shallow embedding of
      - [frontend/src/components/control/JogPad.tsx]
        (components [JogPad] and [AMSSectionDual] with its helpers),
      - the [ExtruderControls] and [BedControls] components.

    Conventions of the embedding.
      - A JavaScript [number] that the code only uses as an integer (unit ids,
        tray ids, stage codes, jog distances, percentages) is a [Z].
      - [null] / [undefined] is [None]; [a ?? d] is [default d a].
      - A React state cell or ref is a record field. An event handler reads
        the state of the render it was created in and returns the actions it
        performs, in order: calls of state setters and [mutate] calls. The
        actions of one handler run are applied together.
      - [useEffect(f, deps)] runs [f] after the first render and after every
        render in which [deps] differs from the value it last ran with; the
        last value is kept in the state.
      - A text is a [string]: a sequence of code units below 256. *)

From Stdlib Require Import ZArith DecimalString DecimalPos DecimalZ Ascii
  Sorted.
From stdpp Require Import gmap strings list fin_maps.

Local Open Scope Z_scope.

(** ** Numbers as text *)

(** [String(n)] and [`${n}`] for an integer-valued number. *)
Definition numberToString (n : Z) : string :=
  NilZero.string_of_int (Z.to_int n).

(** The line feed written [\n] in the source's template literals. *)
Definition LF : ascii := "010"%char.

(** ** Telemetry: the status snapshot *)

(** [AMSTray] of the API client. The source field [id] is [tray_id] here. *)
Record AMSTray := {
  tray_id : Z;
  tray_type : option string;
  tray_color : option string;
  remain : Z;
  tray_uuid : option string
}.

(** [AMSUnit] of the API client. The source field [id] is [unit_id] here. *)
Record AMSUnit := {
  unit_id : Z;
  humidity : option Z;
  temp : option Z;
  tray : list AMSTray
}.

(** [PrinterStatus], restricted to the fields the AMS section reads. *)
Record PrinterStatus := {
  connected : bool;
  state : string;
  stg_cur : option Z;
  tray_now : option Z;
  ams : option (list AMSUnit);
  ams_extruder_map : option (gmap string Z)
}.

(** ** Tray addressing *)

(** [isAmsHT]. *)
Definition isAmsHT (amsId : Z) : bool := amsId >=? 128.

(** [const globalTrayId = selectedUnit.id * 4 + tray.id]. *)
Definition globalTrayId (amsId slot : Z) : Z := amsId * 4 + slot.

(** [const slotsInUnit = unit.id >= 128 ? 2 : 4]. *)
Definition slotsInUnit (u : AMSUnit) : Z :=
  if unit_id u >=? 128 then 2 else 4.

(** The [for (const unit of amsUnits)] loop that [getExtruderIdForTray] and
    [getLoadedTrayInfo] both run: the first unit whose block
    [[baseSlotId, baseSlotId + slotsInUnit)] holds [trayId], with the local
    slot index [trayId - baseSlotId]. *)
Fixpoint findOwningUnit (amsUnits : list AMSUnit) (trayId : Z)
  : option (AMSUnit * Z) :=
  match amsUnits with
  | [] => None
  | u :: rest =>
      let baseSlotId := unit_id u * 4 in
      if (trayId >=? baseSlotId) && (trayId <? baseSlotId + slotsInUnit u)
      then Some (u, trayId - baseSlotId)
      else findOwningUnit rest trayId
  end.

(** ** Unit-to-extruder routing *)

Section Router.

Variable nozzleCount : Z.
Variable status : option PrinterStatus.

(** [const isDualNozzle = nozzleCount > 1]. *)
Definition isDualNozzle : bool := nozzleCount >? 1.

(** [status?.ams ?? []]. *)
Definition amsUnits : list AMSUnit :=
  default [] (status ≫= ams).

(** [status?.ams_extruder_map ?? {}]. *)
Definition amsExtruderMap : gmap string Z :=
  default ∅ (status ≫= ams_extruder_map).

(** [amsExtruderMap[String(unit.id)]]. *)
Definition extruderOf (u : AMSUnit) : option Z :=
  amsExtruderMap !! numberToString (unit_id u).

(** [Object.keys(amsExtruderMap).length > 0]. *)
Definition mapReported : bool := bool_decide (0 < size amsExtruderMap)%nat.

(** [arr.filter((_, i) => i % 2 === r)]: the elements at the indices of
    parity [r], in order; [i] is the index of the head. *)
Fixpoint filterIndexParity (r : nat) (i : nat) (l : list AMSUnit)
  : list AMSUnit :=
  match l with
  | [] => []
  | u :: rest =>
      if Nat.eqb (i mod 2) r
      then u :: filterIndexParity r (S i) rest
      else filterIndexParity r (S i) rest
  end.

(** [leftUnits]. *)
Definition leftUnits : list AMSUnit :=
  if negb isDualNozzle then amsUnits
  else if mapReported
  then filter (λ u, extruderOf u = Some 1) amsUnits
  else filterIndexParity 1 0 amsUnits.

(** [rightUnits]. *)
Definition rightUnits : list AMSUnit :=
  if negb isDualNozzle then []
  else if mapReported
  then filter (λ u, extruderOf u = Some 0) amsUnits
  else filterIndexParity 0 0 amsUnits.

(** [getExtruderIdForTray]. *)
Definition getExtruderIdForTray (trayId : Z) : option Z :=
  if negb isDualNozzle then None
  else match findOwningUnit amsUnits trayId with
       | Some (u, _) => extruderOf u
       | None => None
       end.

End Router.

(** ** Remote commands *)

(** The calls of the API client the panels issue, with their arguments in
    the order of the client's signatures. *)
Inductive ApiCall :=
| homeAxes (printerId : Z) (axes : string) (token : option string)
| moveAxis (printerId : Z) (axis : string) (distance feedRate : Z)
    (token : option string)
| sendGcode (printerId : Z) (gcode : string) (token : option string)
| selectExtruder (printerId extruder : Z)
| amsLoadFilament (printerId trayId : Z) (extruderId : option Z)
| amsUnloadFilament (printerId : Z)
| refreshAmsTray (printerId amsId trayId : Z).

(** A call with a confirmation token attached. *)
Definition withToken (t : string) (c : ApiCall) : ApiCall :=
  match c with
  | homeAxes p a _ => homeAxes p a (Some t)
  | moveAxis p a d f _ => moveAxis p a d f (Some t)
  | sendGcode p g _ => sendGcode p g (Some t)
  | other => other
  end.

(** Modelled from the spec: the response of a gated command, which the API
    client (not among the sources) classifies with [isConfirmationRequired]:
    a [ConfirmationRequired] result carries a token and a warning, any other
    shape is an immediate result. A handler's
    [if (isConfirmationRequired(result))] is a match on this type. *)
Inductive ApiResult :=
| Completed
| ConfirmationRequired (token warning : string).

(** The remote calls among the actions of a handler, given how the
    component's [mutationFn]s turn a [mutate] into a call. *)
Definition issuedWith {A : Type} (callOf : A → option ApiCall)
  (acts : list A) : list ApiCall := omap callOf acts.

(** ** The AMS section: state cells, refs and rendering *)

Inductive Side := LeftPanel | RightPanel.

(** The [useState] cells and [useRef] refs of [AMSSectionDual], the status it
    was last rendered with, the [isPending] flags of its two mutations, and
    for each effect the dependency values it last ran with ([None] before the
    first render). *)
Record AMSSection := {
  status : option PrinterStatus;
  leftAmsIndex : nat;
  rightAmsIndex : nat;
  selectedTray : option Z;
  loadTriggered : bool;
  userFilamentChange : option bool;
  prevStageRef : Z;
  initialSyncDone : bool;
  loadPending : bool;
  unloadPending : bool;
  syncDeps : option (option Z);
  stageDeps : option (bool * Z)
}.

(** The values of the first render: [useState(0)], [useState(null)],
    [useState(false)], [useRef(-1)], [useRef(false)]. *)
Definition initialSection : AMSSection :=
  {| status := None; leftAmsIndex := 0; rightAmsIndex := 0;
     selectedTray := None; loadTriggered := false;
     userFilamentChange := None; prevStageRef := -1;
     initialSyncDone := false; loadPending := false; unloadPending := false;
     syncDeps := None; stageDeps := None |}.

(** What a handler or an effect does: a state setter or a remote call. *)
Inductive Action :=
| setLeftAmsIndex (i : nat)
| setRightAmsIndex (i : nat)
| setSelectedTray (v : option Z)
| setLoadTriggered (v : bool)
| setUserFilamentChange (v : option bool)
| mutate (c : ApiCall).

(** The state after one action. [mutate] of the load or unload mutation
    raises its [isPending] flag. *)
Definition applyAction (st : AMSSection) (a : Action) : AMSSection :=
  let '(Build_AMSSection s li ri sel lt ufc prev done lp up sd gd) := st in
  match a with
  | setLeftAmsIndex i => Build_AMSSection s i ri sel lt ufc prev done lp up sd gd
  | setRightAmsIndex i => Build_AMSSection s li i sel lt ufc prev done lp up sd gd
  | setSelectedTray v => Build_AMSSection s li ri v lt ufc prev done lp up sd gd
  | setLoadTriggered v => Build_AMSSection s li ri sel v ufc prev done lp up sd gd
  | setUserFilamentChange v =>
      Build_AMSSection s li ri sel lt v prev done lp up sd gd
  | mutate (amsLoadFilament _ _ _) =>
      Build_AMSSection s li ri sel lt ufc prev done true up sd gd
  | mutate (amsUnloadFilament _) =>
      Build_AMSSection s li ri sel lt ufc prev done lp true sd gd
  | mutate _ => st
  end.

(** All the actions of one handler run are applied in one update. *)
Definition applyActions (st : AMSSection) (acts : list Action) : AMSSection :=
  foldl applyAction st acts.

(** Writes to the refs, to the mutation flags and to the bookkeeping. *)
Definition withStatus (s : option PrinterStatus) (st : AMSSection) :=
  let '(Build_AMSSection _ li ri sel lt ufc prev done lp up sd gd) := st in
  Build_AMSSection s li ri sel lt ufc prev done lp up sd gd.

Definition withPrevStage (v : Z) (st : AMSSection) :=
  let '(Build_AMSSection s li ri sel lt ufc _ done lp up sd gd) := st in
  Build_AMSSection s li ri sel lt ufc v done lp up sd gd.

Definition withInitialSyncDone (v : bool) (st : AMSSection) :=
  let '(Build_AMSSection s li ri sel lt ufc prev _ lp up sd gd) := st in
  Build_AMSSection s li ri sel lt ufc prev v lp up sd gd.

Definition withLoadPending (v : bool) (st : AMSSection) :=
  let '(Build_AMSSection s li ri sel lt ufc prev done _ up sd gd) := st in
  Build_AMSSection s li ri sel lt ufc prev done v up sd gd.

Definition withUnloadPending (v : bool) (st : AMSSection) :=
  let '(Build_AMSSection s li ri sel lt ufc prev done lp _ sd gd) := st in
  Build_AMSSection s li ri sel lt ufc prev done lp v sd gd.

Definition withSyncDeps (v : option (option Z)) (st : AMSSection) :=
  let '(Build_AMSSection s li ri sel lt ufc prev done lp up _ gd) := st in
  Build_AMSSection s li ri sel lt ufc prev done lp up v gd.

Definition withStageDeps (v : option (bool * Z)) (st : AMSSection) :=
  let '(Build_AMSSection s li ri sel lt ufc prev done lp up sd _) := st in
  Build_AMSSection s li ri sel lt ufc prev done lp up sd v.

(** Filament change stages from MQTT [stg_cur]. *)
Definition STAGE_HEATING_NOZZLE : Z := 7.
Definition STAGE_FILAMENT_UNLOADING : Z := 22.
Definition STAGE_FILAMENT_LOADING : Z := 24.
Definition STAGE_CHANGING_FILAMENT : Z := 4.

(** [[STAGE_HEATING_NOZZLE, STAGE_FILAMENT_UNLOADING, STAGE_FILAMENT_LOADING,
    STAGE_CHANGING_FILAMENT].includes(stage)]. *)
Definition isFilamentChangeStage (stage : Z) : bool :=
  bool_decide (stage ∈ [STAGE_HEATING_NOZZLE; STAGE_FILAMENT_UNLOADING;
                        STAGE_FILAMENT_LOADING; STAGE_CHANGING_FILAMENT]).

Section AMSSectionDual.

Variable printerId : Z.
Variable nozzleCount : Z.

(** *** Values derived on every render *)

(** [status?.connected ?? false]. *)
Definition isConnected (st : AMSSection) : bool :=
  default false (connected <$> status st).

(** [status?.state === 'RUNNING']. *)
Definition isPrinting (st : AMSSection) : bool :=
  default false ((λ s, bool_decide (state s = "RUNNING")) <$> status st).

(** [loadMutation.isPending || unloadMutation.isPending]. *)
Definition isLoading (st : AMSSection) : bool :=
  loadPending st || unloadPending st.

(** [status?.stg_cur ?? -1]. *)
Definition stageOf (s : option PrinterStatus) : Z :=
  default (-1) (s ≫= stg_cur).

Definition currentStage (st : AMSSection) : Z := stageOf (status st).

Definition isMqttFilamentChangeActive (st : AMSSection) : bool :=
  isFilamentChangeStage (currentStage st).

(** [isMqttFilamentChangeActive || userFilamentChange !== null]. *)
Definition showFilamentChangeCard (st : AMSSection) : bool :=
  isMqttFilamentChangeActive st || bool_decide (userFilamentChange st ≠ None).

(** [isFilamentLoading]: the operation kind the card displays. *)
Definition isFilamentLoading (st : AMSSection) : bool :=
  match userFilamentChange st with
  | Some isLoading => isLoading
  | None => (currentStage st =? STAGE_FILAMENT_LOADING)
            || (currentStage st =? STAGE_HEATING_NOZZLE)
  end.

(** The [disabled] attributes of the Unload and Load buttons. *)
Definition unloadDisabled (st : AMSSection) : bool :=
  negb (isConnected st) || isPrinting st || isLoading st
  || negb (loadTriggered st).

Definition loadDisabled (st : AMSSection) : bool :=
  negb (isConnected st) || isPrinting st
  || bool_decide (selectedTray st = None) || isLoading st || loadTriggered st.

(** The units of one panel and the unit its selected tab shows:
    [units[selectedAmsIndex]]. *)
Definition panelUnits (side : Side) (st : AMSSection) : list AMSUnit :=
  match side with
  | LeftPanel => leftUnits nozzleCount (status st)
  | RightPanel => rightUnits nozzleCount (status st)
  end.

Definition selectedUnit (side : Side) (st : AMSSection) : option AMSUnit :=
  match side with
  | LeftPanel => panelUnits LeftPanel st !! leftAmsIndex st
  | RightPanel => panelUnits RightPanel st !! rightAmsIndex st
  end.

(** *** Handlers *)

(** [handleTraySelect]. *)
Definition handleTraySelect (trayId : option Z) (st : AMSSection)
  : list Action :=
  (if bool_decide (trayId ≠ selectedTray st)
   then [setLoadTriggered false] else [])
  ++ [setSelectedTray trayId].

(** [!tray.tray_type || tray.tray_type === '' || tray.tray_type === 'NONE']. *)
Definition isEmpty (t : AMSTray) : bool :=
  match tray_type t with
  | None => true
  | Some ty => bool_decide (ty = "") || bool_decide (ty = "NONE")
  end.

(** The [onClick] of the slot of tray [t] in the panel showing unit [u]. *)
Definition slotOnClick (u : AMSUnit) (t : AMSTray) (st : AMSSection)
  : list Action :=
  let globalTrayId := globalTrayId (unit_id u) (tray_id t) in
  let isSelected := bool_decide (selectedTray st = Some globalTrayId) in
  if negb (isEmpty t) && negb (isPrinting st)
  then handleTraySelect (if isSelected then None else Some globalTrayId) st
  else [].

(** [handleLoad]. *)
Definition handleLoad (st : AMSSection) : list Action :=
  match selectedTray st with
  | Some trayId =>
      let extruderId := getExtruderIdForTray nozzleCount (status st) trayId in
      [setUserFilamentChange (Some true);
       mutate (amsLoadFilament printerId trayId extruderId)]
  | None => []
  end.

(** [handleUnload]. *)
Definition handleUnload (st : AMSSection) : list Action :=
  [setUserFilamentChange (Some false); mutate (amsUnloadFilament printerId)].

(** [handleSlotRefresh]. *)
Definition handleSlotRefresh (amsId slotId : Z) : list Action :=
  [mutate (refreshAmsTray printerId amsId slotId)].

(** [onSuccess] of [loadMutation] and of [unloadMutation]. *)
Definition loadOnSuccess : list Action := [setLoadTriggered true].
Definition unloadOnSuccess : list Action := [setLoadTriggered false].

(** *** Effects *)

(** The body of the initial-sync effect: the ref is written at once, the
    setters are returned. *)
Definition initialSyncEffect (st : AMSSection) : AMSSection * list Action :=
  if initialSyncDone st then (st, [])
  else match status st ≫= tray_now with
       | Some trayNow =>
           let st := withInitialSyncDone true st in
           if negb (trayNow =? 255) && negb (trayNow =? 254)
           then (st, [setSelectedTray (Some trayNow); setLoadTriggered true])
           else (st, [])
       | None => (st, [])
       end.

(** The body of the stage effect. *)
Definition stageEffect (st : AMSSection) : AMSSection * list Action :=
  let wasInFilamentChange := isFilamentChangeStage (prevStageRef st) in
  let acts :=
    if isMqttFilamentChangeActive st then [setUserFilamentChange None]
    else if wasInFilamentChange && (currentStage st =? -1)
         then [setUserFilamentChange None]
         else [] in
  (withPrevStage (currentStage st) st, acts).

(** [useEffect(initialSyncEffect, [status?.tray_now])]. *)
Definition runSyncEffect (st : AMSSection) : AMSSection * list Action :=
  let deps := status st ≫= tray_now in
  if bool_decide (syncDeps st = Some deps) then (st, [])
  else initialSyncEffect (withSyncDeps (Some deps) st).

(** [useEffect(stageEffect, [isMqttFilamentChangeActive, currentStage])]. *)
Definition runStageEffect (st : AMSSection) : AMSSection * list Action :=
  let deps := (isMqttFilamentChangeActive st, currentStage st) in
  if bool_decide (stageDeps st = Some deps) then (st, [])
  else stageEffect (withStageDeps (Some deps) st).

(** A render with a new status followed by its effects, in source order. The
    setters the effects called are applied together; the render they cause
    leaves the dependencies as they are, so no effect runs again. *)
Definition receiveStatus (s : option PrinterStatus) (st : AMSSection)
  : AMSSection * list Action :=
  let st0 := withStatus s st in
  let '(st1, a1) := runSyncEffect st0 in
  let '(st2, a2) := runStageEffect st1 in
  (applyActions st2 (a1 ++ a2), a1 ++ a2).

(** *** Events *)

(** [ClickRefresh side index] is a click on the label of a slot, which
    carries the reload icon. The settling of the refresh mutation only writes
    to the console and its [isPending] is not read, so it is no event. The
    buttons that open the humidity and the materials dialog write only the
    two dialog cells, which are left out of [AMSSection]. *)
Inductive Event :=
| Snapshot (s : option PrinterStatus)
| SelectAms (side : Side) (index : nat)
| ClickSlot (side : Side) (index : nat)
| ClickLoad
| ClickUnload
| LoadSettled (ok : bool)
| UnloadSettled (ok : bool)
| ClickRefresh (side : Side) (index : nat).

(** One event. A click on a disabled button or on a slot that is not
    rendered does nothing; a mutation settles only while it is pending. The
    label of a slot has no [disabled] attribute. *)
Definition step (e : Event) (st : AMSSection) : AMSSection * list Action :=
  let handled acts := (applyActions st acts, acts) in
  match e with
  | Snapshot s => receiveStatus s st
  | SelectAms LeftPanel i => handled [setLeftAmsIndex i]
  | SelectAms RightPanel i => handled [setRightAmsIndex i]
  | ClickSlot side i =>
      match selectedUnit side st with
      | Some u =>
          match tray u !! i with
          | Some t => handled (slotOnClick u t st)
          | None => (st, [])
          end
      | None => (st, [])
      end
  | ClickLoad => if loadDisabled st then (st, []) else handled (handleLoad st)
  | ClickUnload =>
      if unloadDisabled st then (st, []) else handled (handleUnload st)
  | LoadSettled ok =>
      if loadPending st
      then let acts := if ok then loadOnSuccess else [] in
           (applyActions (withLoadPending false st) acts, acts)
      else (st, [])
  | UnloadSettled ok =>
      if unloadPending st
      then let acts := if ok then unloadOnSuccess else [] in
           (applyActions (withUnloadPending false st) acts, acts)
      else (st, [])
  | ClickRefresh side i =>
      match selectedUnit side st with
      | Some u =>
          match tray u !! i with
          | Some t => handled (handleSlotRefresh (unit_id u) (tray_id t))
          | None => (st, [])
          end
      | None => (st, [])
      end
  end.

(** A sequence of events from a state: the final state and all actions. *)
Fixpoint run (es : list Event) (st : AMSSection) : AMSSection * list Action :=
  match es with
  | [] => (st, [])
  | e :: rest =>
      let '(st1, a1) := step e st in
      let '(st2, a2) := run rest st1 in
      (st2, a1 ++ a2)
  end.

(** *** Wire colouring *)

Record LoadedTrayInfo := {
  leftActiveSlot : option Z;
  rightActiveSlot : option Z;
  leftFilamentColor : option string;
  rightFilamentColor : option string
}.

Definition noLoadedTray : LoadedTrayInfo :=
  {| leftActiveSlot := None; rightActiveSlot := None;
     leftFilamentColor := None; rightFilamentColor := None |}.

(** [getLoadedTrayInfo], with [trayNow = status?.tray_now ?? 255]. *)
Definition getLoadedTrayInfo (st : AMSSection) : LoadedTrayInfo :=
  let trayNow := default 255 (status st ≫= tray_now) in
  if (trayNow =? 255) || (trayNow =? 254) then noLoadedTray
  else match findOwningUnit (amsUnits (status st)) trayNow with
       | None => noLoadedTray
       | Some (u, slotIndex) =>
           let color := (tray u !! Z.to_nat slotIndex) ≫= tray_color in
           let shows (side : Side) :=
             default false
               ((λ c, unit_id c =? unit_id u) <$> selectedUnit side st) in
           if bool_decide (extruderOf (status st) u = Some 1)
           then let isDisplayed := shows LeftPanel in
                {| leftActiveSlot := if isDisplayed then Some slotIndex else None;
                   rightActiveSlot := None;
                   leftFilamentColor := if isDisplayed then color else None;
                   rightFilamentColor := None |}
           else let isDisplayed := shows RightPanel in
                {| leftActiveSlot := None;
                   rightActiveSlot := if isDisplayed then Some slotIndex else None;
                   leftFilamentColor := None;
                   rightFilamentColor := if isDisplayed then color else None |}
       end.

End AMSSectionDual.

(** ** Colours and slot backgrounds *)

(** [s.replace(c, '')] for a one-character pattern: the first occurrence
    is removed. *)
Fixpoint removeFirst (c : ascii) (s : string) : string :=
  match s with
  | EmptyString => EmptyString
  | String a rest => if Ascii.eqb a c then rest else String a (removeFirst c rest)
  end.

(** [s.substring(from, to)] for [from <= to]. *)
Definition jsSubstring (from to : nat) (s : string) : string :=
  String.substring from (to - from) s.

(** The value of a hexadecimal digit. *)
Definition hexDigitValue (c : ascii) : option Z :=
  let n := Z.of_N (N_of_ascii c) in
  if (48 <=? n) && (n <=? 57) then Some (n - 48)
  else if (65 <=? n) && (n <=? 70) then Some (n - 55)
  else if (97 <=? n) && (n <=? 102) then Some (n - 87)
  else None.

(** White space and line terminators that [parseInt] skips, among the code
    units below 256: tab, line feed, vertical tab, form feed, carriage
    return, space and the no-break space U+00A0. *)
Definition isStrWhiteSpace (c : ascii) : bool :=
  let n := Z.of_N (N_of_ascii c) in
  ((9 <=? n) && (n <=? 13)) || (n =? 32) || (n =? 160).

Fixpoint trimStart (s : string) : string :=
  match s with
  | String c rest => if isStrWhiteSpace c then trimStart rest else s
  | EmptyString => s
  end.

(** The value of the longest prefix of hexadecimal digits; [acc] is the
    value of the digits read so far, [None] when there is none yet. *)
Fixpoint hexPrefix (acc : option Z) (s : string) : option Z :=
  match s with
  | String c rest =>
      match hexDigitValue c with
      | Some d => hexPrefix (Some (16 * default 0 acc + d)) rest
      | None => acc
      end
  | EmptyString => acc
  end.

(** [parseInt(s, 16)]; [None] is [NaN]. *)
Definition parseInt16 (s : string) : option Z :=
  let s1 := trimStart s in
  let '(sign, s2) :=
    match s1 with
    | String "-" rest => (-1, rest)
    | String "+" rest => (1, rest)
    | _ => (1, s1)
    end in
  let s3 :=
    match s2 with
    | String "0" (String "x" rest) => rest
    | String "0" (String "X" rest) => rest
    | _ => s2
    end in
  Z.mul sign <$> hexPrefix None s3.

(** [n || d] on numbers: [NaN] and [0] are falsy. *)
Definition numberOr (n : option Z) (d : Z) : Z :=
  match n with
  | Some v => if v =? 0 then d else v
  | None => d
  end.

(** [`rgb(${r}, ${g}, ${b})`]. *)
Definition rgb (r g b : Z) : string :=
  "rgb(" +:+ numberToString r +:+ ", " +:+ numberToString g +:+ ", "
  +:+ numberToString b +:+ ")".

(** [hexToRgb]. *)
Definition hexToRgb (hex : option string) : string :=
  match hex with
  | None | Some EmptyString => "rgb(128, 128, 128)"
  | Some hex =>
      let cleanHex := jsSubstring 0 6 (removeFirst "#" hex) in
      let r := numberOr (parseInt16 (jsSubstring 0 2 cleanHex)) 128 in
      let g := numberOr (parseInt16 (jsSubstring 2 4 cleanHex)) 128 in
      let b := numberOr (parseInt16 (jsSubstring 4 6 cleanHex)) 128 in
      rgb r g b
  end.

(** What is drawn behind the content of a slot. *)
Inductive SlotLayer :=
| FillLevel (heightPercent : Z) (backgroundColor : string)
| FullColor (backgroundColor : string)
| Striped.

(** A string or [null] used as a condition. *)
Definition truthy (s : option string) : bool :=
  match s with
  | None | Some EmptyString => false
  | Some _ => true
  end.

(** The three conditional layers of a slot of [AMSPanelContent], in the
    order of the markup. *)
Definition slotLayers (t : AMSTray) : list SlotLayer :=
  (if negb (isEmpty t) && truthy (tray_uuid t) && (remain t >=? 0)
   then [FillLevel (Z.min 100 (Z.max 0 (remain t))) (hexToRgb (tray_color t))]
   else [])
  ++ (if negb (isEmpty t) && (negb (truthy (tray_uuid t)) || (remain t <? 0))
      then [FullColor (hexToRgb (tray_color t))]
      else [])
  ++ (if isEmpty t then [Striped] else []).

Definition isFillLevel (l : SlotLayer) : bool :=
  match l with FillLevel _ _ => true | _ => false end.

Definition isFullColor (l : SlotLayer) : bool :=
  match l with FullColor _ => true | _ => false end.

(** The lines of a text: the pieces between line feeds. *)
Fixpoint lines (s : string) : list string :=
  match s with
  | EmptyString => [EmptyString]
  | String c rest =>
      if Ascii.eqb c LF then EmptyString :: lines rest
      else match lines rest with
           | l :: ls => String c l :: ls
           | [] => [String c EmptyString]
           end
  end.

(** ** Mutations of the query library *)

(** [useMutation] of the query library, which is not among the sources, as
    its documentation has it: every [mutate] starts a call of [mutationFn],
    whether or not an earlier call is still in flight; the [onSuccess] given
    to [useMutation] runs for every call that succeeds, with the variables of
    that call; [isPending] is the state of the call made last. A mutation is
    kept as the variables of its calls that have not settled, newest first,
    and its [isPending]. *)
Module Mutation.

Record t (V : Type) := {
  inFlight : list V;
  isPending : bool
}.

Arguments inFlight {V} _.
Arguments isPending {V} _.

Definition idle {V : Type} : t V :=
  {| inFlight := []; isPending := false |}.

(** [mutate(variables)]. *)
Definition mutate {V : Type} (variables : V) (m : t V) : t V :=
  {| inFlight := variables :: inFlight m; isPending := true |}.

(** The [k]-th call in flight settles: its variables and the mutation
    afterwards. While [isPending] holds the call made last is the head, so
    the flag falls exactly when the head settles. *)
Definition settle {V : Type} (k : nat) (m : t V) : option (V * t V) :=
  match inFlight m !! k with
  | Some variables =>
      Some (variables,
            {| inFlight := delete k (inFlight m);
               isPending := isPending m && negb (Nat.eqb k 0) |})
  | None => None
  end.

End Mutation.

(** ** The jog pad: home and XY moves behind the confirmation gate *)

Module JogPad.

(** The variables of the two mutations: [homeMutation.mutate({axes, token})]
    and [moveMutation.mutate({axis, distance, token})]. *)
Inductive Vars :=
| homeVars (axes : string) (token : option string)
| moveVars (axis : string) (distance : Z) (token : option string).

(** The [confirmModal] cell. [onConfirm] is a closure that makes one
    [mutate] call; it is kept as the variables of that call. *)
Record ConfirmModal := {
  action : string;
  token : string;
  warning : string;
  onConfirm : Vars
}.

(** The cell and the two mutations. *)
Record State := {
  confirmModal : option ConfirmModal;
  homeMutation : Mutation.t Vars;
  moveMutation : Mutation.t Vars
}.

Inductive Action :=
| setConfirmModal (v : option ConfirmModal)
| mutate (v : Vars).

(** [HomeSettled k result] and [MoveSettled k result]: the [k]-th call in
    flight of the mutation, newest first, settles with a result or with an
    error ([None]). *)
Inductive Event :=
| ClickHome
| ClickMove (axis : string) (distance : Z)
| HomeSettled (call : nat) (result : option ApiResult)
| MoveSettled (call : nat) (result : option ApiResult)
| Confirm
| Cancel.

Section Component.

Variable printerId : Z.
Variable status : option PrinterStatus.
Variable disabled : bool.

(** The [mutationFn] of the mutation the variables belong to. *)
Definition mutationFn (v : Vars) : ApiCall :=
  match v with
  | homeVars axes token => homeAxes printerId axes token
  | moveVars axis distance token => moveAxis printerId axis distance 3000 token
  end.

Definition issued : list Action → list ApiCall :=
  issuedWith (λ a, match a with mutate v => Some (mutationFn v) | _ => None end).

Definition applyAction (st : State) (a : Action) : State :=
  match a with
  | setConfirmModal v =>
      {| confirmModal := v; homeMutation := homeMutation st;
         moveMutation := moveMutation st |}
  | mutate (homeVars _ _ as v) =>
      {| confirmModal := confirmModal st;
         homeMutation := Mutation.mutate v (homeMutation st);
         moveMutation := moveMutation st |}
  | mutate (moveVars _ _ _ as v) =>
      {| confirmModal := confirmModal st; homeMutation := homeMutation st;
         moveMutation := Mutation.mutate v (moveMutation st) |}
  end.

Definition applyActions (st : State) (acts : list Action) : State :=
  foldl applyAction st acts.

(** [(status?.connected ?? false) && !disabled]. *)
Definition isConnected : bool :=
  default false (connected <$> status) && negb disabled.

(** [homeMutation.isPending || moveMutation.isPending]. *)
Definition isLoading (st : State) : bool :=
  Mutation.isPending (homeMutation st) || Mutation.isPending (moveMutation st).

Definition isDisabled (st : State) : bool :=
  negb isConnected || isLoading st.

(** [handleHome], [handleMove], [handleConfirm] and the modal's
    [onCancel]. *)
Definition handleHome (st : State) : list Action :=
  if isDisabled st then [] else [mutate (homeVars "XY" None)].

Definition handleMove (axis : string) (distance : Z) (st : State)
  : list Action :=
  if isDisabled st then [] else [mutate (moveVars axis distance None)].

Definition handleConfirm (st : State) : list Action :=
  match confirmModal st with
  | Some m => [mutate (onConfirm m); setConfirmModal None]
  | None => []
  end.

Definition onCancel : list Action := [setConfirmModal None].

(** [onSuccess] of [homeMutation]. *)
Definition homeOnSuccess (result : ApiResult) : list Action :=
  match result with
  | ConfirmationRequired t w =>
      [setConfirmModal
         (Some {| action := "home"; token := t; warning := w;
                  onConfirm := homeVars "XY" (Some t) |})]
  | Completed => []
  end.

(** [onSuccess] of [moveMutation], with the variables of the call that
    succeeded. *)
Definition moveOnSuccess (result : ApiResult) (variables : Vars)
  : list Action :=
  match result, variables with
  | ConfirmationRequired t w, moveVars axis distance _ =>
      [setConfirmModal
         (Some {| action := "move"; token := t; warning := w;
                  onConfirm := moveVars axis distance (Some t) |})]
  | _, _ => []
  end.

(** One event. A response settles a call that is in flight and runs
    [onSuccess] with the variables of that call; the modal's buttons exist
    only while it is shown. *)
Definition step (e : Event) (st : State) : State * list Action :=
  let handled acts := (applyActions st acts, acts) in
  match e with
  | ClickHome => handled (handleHome st)
  | ClickMove axis distance => handled (handleMove axis distance st)
  | HomeSettled k result =>
      match Mutation.settle k (homeMutation st) with
      | Some (_, settled) =>
          let st' := {| confirmModal := confirmModal st;
                        homeMutation := settled;
                        moveMutation := moveMutation st |} in
          let acts := default [] (homeOnSuccess <$> result) in
          (applyActions st' acts, acts)
      | None => (st, [])
      end
  | MoveSettled k result =>
      match Mutation.settle k (moveMutation st) with
      | Some (variables, settled) =>
          let st' := {| confirmModal := confirmModal st;
                        homeMutation := homeMutation st;
                        moveMutation := settled |} in
          let acts := default [] ((λ r, moveOnSuccess r variables) <$> result) in
          (applyActions st' acts, acts)
      | None => (st, [])
      end
  | Confirm => handled (handleConfirm st)
  | Cancel =>
      match confirmModal st with
      | Some _ => handled onCancel
      | None => (st, [])
      end
  end.

(** The call a response answers and the token it hands out for it: one
    pair when the event settles a call in flight with a request for
    confirmation. *)
Definition answer (e : Event) (st : State) : list (string * ApiCall) :=
  let offers (result : option ApiResult) (variables : option Vars) :=
    match result, variables with
    | Some (ConfirmationRequired t _), Some v => [(t, mutationFn v)]
    | _, _ => []
    end in
  match e with
  | HomeSettled k result =>
      offers result (Mutation.inFlight (homeMutation st) !! k)
  | MoveSettled k result =>
      offers result (Mutation.inFlight (moveMutation st) !! k)
  | _ => []
  end.

End Component.

(** A sequence of events each handled in the render of its own props
    [status] and [disabled], which change as the printer reports: the final
    state and all actions, and the answers of its responses. *)
Fixpoint runWith (es : list (option PrinterStatus * bool * Event)) (st : State)
  : State * list Action :=
  match es with
  | [] => (st, [])
  | (status, disabled, e) :: rest =>
      let '(st1, a1) := step status disabled e st in
      let '(st2, a2) := runWith rest st1 in
      (st2, a1 ++ a2)
  end.

Fixpoint answersWith (printerId : Z)
    (es : list (option PrinterStatus * bool * Event)) (st : State)
  : list (string * ApiCall) :=
  match es with
  | [] => []
  | (status, disabled, e) :: rest =>
      answer printerId e st
      ++ answersWith printerId rest (fst (step status disabled e st))
  end.

End JogPad.

(** ** Controls that confirm with a stored distance *)

Module Gate.

(** [ExtruderControls] and [BedControls] keep the same cell: the token, the
    warning and the distance of the command awaiting confirmation. *)
Record DistanceConfirm := {
  token : string;
  warning : string;
  distance : Z
}.

(** The variables [{distance, token}] of their mutation. *)
Record DistanceVars := {
  var_distance : Z;
  var_token : option string
}.

(** Their state: the cell and the mutation. *)
Record DistanceState := {
  confirmModal : option DistanceConfirm;
  mutation : Mutation.t DistanceVars
}.

Inductive DistanceAction :=
| setConfirmModal (v : option DistanceConfirm)
| mutate (v : DistanceVars).

(** [Settled k result]: the [k]-th call in flight, newest first, settles
    with a result or with an error ([None]). *)
Inductive DistanceEvent :=
| Click (distance : Z)
| Settled (call : nat) (result : option ApiResult)
| Confirm
| Cancel.

Definition applyDistanceAction (st : DistanceState) (a : DistanceAction)
  : DistanceState :=
  match a with
  | setConfirmModal v => {| confirmModal := v; mutation := mutation st |}
  | mutate v =>
      {| confirmModal := confirmModal st;
         mutation := Mutation.mutate v (mutation st) |}
  end.

(** Both components share the text of these functions. *)
Definition onSuccess (result : ApiResult) (variables : DistanceVars)
  : list DistanceAction :=
  match result with
  | ConfirmationRequired t w =>
      [setConfirmModal
         (Some {| token := t; warning := w;
                  distance := var_distance variables |})]
  | Completed => []
  end.

Definition handleConfirm (st : DistanceState) : list DistanceAction :=
  match confirmModal st with
  | Some m =>
      [mutate {| var_distance := distance m; var_token := Some (token m) |};
       setConfirmModal None]
  | None => []
  end.

Definition onCancel : list DistanceAction := [setConfirmModal None].

(** One event of such a control, given the [disabled] attribute of its
    buttons and its click handler. A response settles a call that is in
    flight and runs [onSuccess] with the variables of that call. *)
Definition distanceStep (isDisabled : DistanceState → bool)
    (handleClick : Z → list DistanceAction)
    (e : DistanceEvent) (st : DistanceState)
  : DistanceState * list DistanceAction :=
  let handled acts := (foldl applyDistanceAction st acts, acts) in
  match e with
  | Click d => if isDisabled st then (st, []) else handled (handleClick d)
  | Settled k result =>
      match Mutation.settle k (mutation st) with
      | Some (variables, settled) =>
          let st' := {| confirmModal := confirmModal st;
                        mutation := settled |} in
          let acts := default [] ((λ r, onSuccess r variables) <$> result) in
          (foldl applyDistanceAction st' acts, acts)
      | None => (st, [])
      end
  | Confirm => handled (handleConfirm st)
  | Cancel =>
      match confirmModal st with
      | Some _ => handled onCancel
      | None => (st, [])
      end
  end.

(** The distance a response answers and the token it hands out for it. *)
Definition answer (e : DistanceEvent) (st : DistanceState)
  : list (string * Z) :=
  match e with
  | Settled k (Some (ConfirmationRequired t _)) =>
      match Mutation.inFlight (mutation st) !! k with
      | Some variables => [(t, var_distance variables)]
      | None => []
      end
  | _ => []
  end.

(** A sequence of events each handled in the render of its own props, given
    as the [disabled] attribute they make. *)
Fixpoint distanceRunWith (handleClick : Z → list DistanceAction)
    (es : list ((DistanceState → bool) * DistanceEvent)) (st : DistanceState)
  : DistanceState * list DistanceAction :=
  match es with
  | [] => (st, [])
  | (isDisabled, e) :: rest =>
      let '(st1, a1) := distanceStep isDisabled handleClick e st in
      let '(st2, a2) := distanceRunWith handleClick rest st1 in
      (st2, a1 ++ a2)
  end.

Fixpoint answersWith (handleClick : Z → list DistanceAction)
    (es : list ((DistanceState → bool) * DistanceEvent)) (st : DistanceState)
  : list (string * Z) :=
  match es with
  | [] => []
  | (isDisabled, e) :: rest =>
      answer e st
      ++ answersWith handleClick rest
           (fst (distanceStep isDisabled handleClick e st))
  end.

End Gate.

Module ExtruderControls.

Import Gate.

Section Component.

Variable printerId : Z.
Variable status : option PrinterStatus.
Variable disabled : bool.

(** [`G91\nG1 E${distance} F300\nG90`]. *)
Definition gcode (distance : Z) : string :=
  "G91" +:+ String LF ("G1 E" +:+ numberToString distance +:+ " F300"
  +:+ String LF "G90").

(** The [mutationFn] of [extrudeMutation]. *)
Definition mutationFn (v : DistanceVars) : ApiCall :=
  sendGcode printerId (gcode (var_distance v)) (var_token v).

Definition issued : list DistanceAction → list ApiCall :=
  issuedWith (λ a, match a with mutate v => Some (mutationFn v) | _ => None end).

Definition isConnected : bool :=
  default false (connected <$> status) && negb disabled.

(** [status?.state === 'RUNNING' || status?.state === 'PAUSE']. *)
Definition isPrinting : bool :=
  default false
    ((λ s, bool_decide (state s = "RUNNING") || bool_decide (state s = "PAUSE"))
       <$> status).

(** [!isConnected || isPrinting || extrudeMutation.isPending]. *)
Definition isDisabled (st : DistanceState) : bool :=
  negb isConnected || isPrinting || Mutation.isPending (mutation st).

(** [handleExtrude]. *)
Definition handleExtrude (distance : Z) : list DistanceAction :=
  [mutate {| var_distance := distance; var_token := None |}].

Definition step : DistanceEvent → DistanceState
  → DistanceState * list DistanceAction :=
  distanceStep isDisabled handleExtrude.

End Component.

(** Events with the props [status] and [disabled] of their renders. *)
Definition withProps (es : list (option PrinterStatus * bool * DistanceEvent))
  : list ((DistanceState → bool) * DistanceEvent) :=
  (λ '(status, disabled, e), (isDisabled status disabled, e)) <$> es.

Definition runWith (es : list (option PrinterStatus * bool * DistanceEvent))
  : DistanceState → DistanceState * list DistanceAction :=
  distanceRunWith handleExtrude (withProps es).

Definition answersWith (es : list (option PrinterStatus * bool * DistanceEvent))
  : DistanceState → list (string * Z) :=
  Gate.answersWith handleExtrude (withProps es).

End ExtruderControls.

Module BedControls.

Import Gate.

Section Component.

Variable printerId : Z.
Variable status : option PrinterStatus.
Variable disabled : bool.

(** The [mutationFn] of [moveMutation]. *)
Definition mutationFn (v : DistanceVars) : ApiCall :=
  moveAxis printerId "Z" (var_distance v) 1000 (var_token v).

Definition issued : list DistanceAction → list ApiCall :=
  issuedWith (λ a, match a with mutate v => Some (mutationFn v) | _ => None end).

Definition isConnected : bool :=
  default false (connected <$> status) && negb disabled.

(** [!isConnected || moveMutation.isPending]. *)
Definition isDisabled (st : DistanceState) : bool :=
  negb isConnected || Mutation.isPending (mutation st).

(** [handleMove]. *)
Definition handleMove (distance : Z) : list DistanceAction :=
  [mutate {| var_distance := distance; var_token := None |}].

Definition step : DistanceEvent → DistanceState
  → DistanceState * list DistanceAction :=
  distanceStep isDisabled handleMove.

End Component.

(** Events with the props [status] and [disabled] of their renders. *)
Definition withProps (es : list (option PrinterStatus * bool * DistanceEvent))
  : list ((DistanceState → bool) * DistanceEvent) :=
  (λ '(status, disabled, e), (isDisabled status disabled, e)) <$> es.

Definition runWith (es : list (option PrinterStatus * bool * DistanceEvent))
  : DistanceState → DistanceState * list DistanceAction :=
  distanceRunWith handleMove (withProps es).

Definition answersWith (es : list (option PrinterStatus * bool * DistanceEvent))
  : DistanceState → list (string * Z) :=
  Gate.answersWith handleMove (withProps es).

End BedControls.

(** ** Vocabulary of the properties *)

(** The selection events among the actions of a handler or effect. *)
Definition selectionEvents (acts : list Action) : list (option Z) :=
  omap (λ a, match a with setSelectedTray v => Some v | _ => None end) acts.

(** The writes to the load-triggered flag among the actions. *)
Definition loadTriggeredWrites (acts : list Action) : list bool :=
  omap (λ a, match a with setLoadTriggered v => Some v | _ => None end) acts.

(** Between events the ref holds the stage of the last render, and the
    stage effect has run for that render or there has been no render yet. *)
Definition stageEffectSettled (st : AMSSection) : Prop :=
  prevStageRef st = currentStage st
  ∧ (stageDeps st = None ∧ status st = None
     ∨ stageDeps st = Some (isMqttFilamentChangeActive st, currentStage st)).

(** A character occurs in a string. *)
Fixpoint occursIn (c : ascii) (s : string) : bool :=
  match s with
  | EmptyString => false
  | String a rest => Ascii.eqb a c || occursIn c rest
  end.

(** A colour none of whose three channels is read as a number by
    [hexToRgb]: each two-character piece of the cleaned text is [NaN] for
    [parseInt]. *)
Definition unparseableColor (hex : string) : Prop :=
  let cleanHex := jsSubstring 0 6 (removeFirst "#" hex) in
  parseInt16 (jsSubstring 0 2 cleanHex) = None
  ∧ parseInt16 (jsSubstring 2 4 cleanHex) = None
  ∧ parseInt16 (jsSubstring 4 6 cleanHex) = None.

(** Statuses and units used as concrete inputs. *)
Definition statusWith (stage tray : option Z) : option PrinterStatus :=
  Some {| connected := true; state := "IDLE"; stg_cur := stage;
          tray_now := tray; ams := None; ams_extruder_map := None |}.

Definition unitWith (id : Z) (trays : list AMSTray) : AMSUnit :=
  {| unit_id := id; humidity := None; temp := None; tray := trays |}.

Definition trayWith (id : Z) (ty : option string) (uuid : option string)
  (left : Z) : AMSTray :=
  {| tray_id := id; tray_type := ty; tray_color := Some "FF8000FF";
     remain := left; tray_uuid := uuid |}.

Definition routedStatus (units : list AMSUnit) (m : gmap string Z)
  : option PrinterStatus :=
  Some {| connected := true; state := "IDLE"; stg_cur := None;
          tray_now := None; ams := Some units; ams_extruder_map := Some m |}.

(** ** Slot labels *)

(** [String.fromCharCode(code)] for a code unit below 256. *)
Definition fromCharCode (code : Z) : ascii := ascii_of_N (Z.to_N code).

(** [getSlotLabel]. *)
Definition getSlotLabel (amsId trayIndex : Z) : string :=
  if amsId >=? 128
  then let htUnitNumber := amsId - 128 in
       let slotLetter := String (fromCharCode (65 + trayIndex)) EmptyString in
       if htUnitNumber =? 0
       then "HT-" +:+ slotLetter
       else "HT" +:+ numberToString (htUnitNumber + 1) +:+ "-" +:+ slotLetter
  else let prefix := String (fromCharCode (65 + amsId)) EmptyString in
       prefix +:+ numberToString (trayIndex + 1).

(** A decimal digit, and a text made of decimal digits only. *)
Definition isDigit (c : ascii) : bool :=
  let n := Z.of_N (N_of_ascii c) in (48 <=? n) && (n <=? 57).

Fixpoint allDigits (s : string) : bool :=
  match s with
  | EmptyString => true
  | String c rest => isDigit c && allDigits rest
  end.

(** ** The progress card: step lists *)

Module FilamentChangeCard.

Inductive StepStatus := completed | in_progress | pending.

Record StepInfo := {
  label : string;
  status : StepStatus;
  stepNumber : Z
}.

(** [getLoadingSteps]. *)
Definition getLoadingSteps (currentStage : Z) : list StepInfo :=
  let '(step1Status, step2Status, step3Status) :=
    if (currentStage =? -1) || (currentStage =? STAGE_HEATING_NOZZLE)
       || (currentStage =? STAGE_CHANGING_FILAMENT)
    then (in_progress, pending, pending)
    else if currentStage =? STAGE_FILAMENT_LOADING
         then (completed, in_progress, pending)
         else (pending, pending, pending) in
  [ {| label := "Heat the nozzle"; stepNumber := 1; status := step1Status |};
    {| label := "Push new filament into extruder"; stepNumber := 2;
       status := step2Status |};
    {| label := "Purge old filament"; stepNumber := 3;
       status := step3Status |} ].

(** [getUnloadingSteps]. *)
Definition getUnloadingSteps (currentStage : Z) : list StepInfo :=
  let '(step1Status, step2Status) :=
    if (currentStage =? -1) || (currentStage =? STAGE_HEATING_NOZZLE)
       || (currentStage =? STAGE_CHANGING_FILAMENT)
    then (in_progress, pending)
    else if currentStage =? STAGE_FILAMENT_UNLOADING
         then (completed, in_progress)
         else (pending, pending) in
  [ {| label := "Heat the nozzle"; stepNumber := 1; status := step1Status |};
    {| label := "Retract filament from extruder"; stepNumber := 2;
       status := step2Status |} ].

(** [const steps = isLoading ? getLoadingSteps() : getUnloadingSteps()]. *)
Definition steps (isLoading : bool) (currentStage : Z) : list StepInfo :=
  if isLoading then getLoadingSteps currentStage
  else getUnloadingSteps currentStage.

(** How far a step has come, for comparing the steps of a list. *)
Definition progress (s : StepStatus) : nat :=
  match s with completed => 2 | in_progress => 1 | pending => 0 end.

(** The steps of a list that are in progress. *)
Definition inProgress (l : list StepInfo) : list StepInfo :=
  List.filter
    (λ s, match status s with in_progress => true | _ => false end) l.

End FilamentChangeCard.

(** ** The humidity dialog *)

Module AMSHumidityModal.

Inductive DryingStatus := idle | drying.

(** [formatRemainingTime], with the optional [remainingTime] in minutes.
    [!remainingTime] holds for a missing value and for 0; [Math.floor] of
    the quotient is the floor division and [%] the remainder with the sign
    of the dividend. *)
Definition formatRemainingTime (dryingStatus : DryingStatus)
  (remainingTime : option Z) : string :=
  match dryingStatus with
  | idle => "Idle"
  | drying =>
      match remainingTime with
      | None => "Drying..."
      | Some remainingTime =>
          if remainingTime =? 0 then "Drying..."
          else let hours := remainingTime / 60 in
               let mins := Z.rem remainingTime 60 in
               if hours >? 0
               then numberToString hours +:+ "h " +:+ numberToString mins
                    +:+ "m"
               else numberToString mins +:+ "m"
      end
  end.

End AMSHumidityModal.

(** ** What the section passes to the wiring layer *)

Section WiringProps.

Variable nozzleCount : Z.

(** [leftUnits[leftAmsIndex] ? isAmsHT(leftUnits[leftAmsIndex].id) : false]
    and its right twin. *)
Definition panelIsHT (side : Side) (st : AMSSection) : bool :=
  default false ((λ u, isAmsHT (unit_id u))
                   <$> selectedUnit nozzleCount side st).

(** [leftSlotX] and [rightSlotX] of [WiringLayer]: the x position of the
    vertical line of each slot of a four-slot panel. *)
Definition slotX (side : Side) : list Z :=
  match side with
  | LeftPanel => [54; 118; 182; 246]
  | RightPanel => [354; 418; 482; 546]
  end.

End WiringProps.

(** ** Vocabulary of the further properties *)

(** The remote calls among the actions of the AMS section. *)
Definition issuedCalls (acts : list Action) : list ApiCall :=
  issuedWith (λ a, match a with mutate c => Some c | _ => None end) acts.

(** The token a call carries, and the call without it. *)
Definition tokenOf (c : ApiCall) : option string :=
  match c with
  | homeAxes _ _ t | moveAxis _ _ _ _ t | sendGcode _ _ t => t
  | _ => None
  end.

Definition withoutToken (c : ApiCall) : ApiCall :=
  match c with
  | homeAxes p a _ => homeAxes p a None
  | moveAxis p a d f _ => moveAxis p a d f None
  | sendGcode p g _ => sendGcode p g None
  | other => other
  end.

(** A load command, and the events that cannot clear the load-triggered
    flag: all but a click on a slot and a successful unload. *)
Definition isLoadCall (c : ApiCall) : bool :=
  match c with amsLoadFilament _ _ _ => true | _ => false end.

Definition leavesLoadTriggered (e : Event) : bool :=
  match e with
  | ClickSlot _ _ | UnloadSettled true => false
  | _ => true
  end.

(** The controls at rest: no warning shown, no call in flight. *)
Definition idleJog : JogPad.State :=
  {| JogPad.confirmModal := None; JogPad.homeMutation := Mutation.idle;
     JogPad.moveMutation := Mutation.idle |}.

Definition idleGate : Gate.DistanceState :=
  {| Gate.confirmModal := None; Gate.mutation := Mutation.idle |}.

(** A state of the jog pad with the warning taken down. *)
Definition jogWithoutModal (st : JogPad.State) : JogPad.State :=
  {| JogPad.confirmModal := None;
     JogPad.homeMutation := JogPad.homeMutation st;
     JogPad.moveMutation := JogPad.moveMutation st |}.

Definition gateWithoutModal (st : Gate.DistanceState) : Gate.DistanceState :=
  {| Gate.confirmModal := None; Gate.mutation := Gate.mutation st |}.

(** The variables a jog-pad approval would send are accounted for by the
    answers and the calls so far: their token was handed out in answer to a
    call of the same command that has been sent, the call without the token
    has been sent, and a homing is of the axes XY. *)
Definition jogApprovalKnown (printerId : Z) (offered : list (string * ApiCall))
  (calls : list ApiCall) (v : JogPad.Vars) : Prop :=
  (∀ t, tokenOf (JogPad.mutationFn printerId v) = Some t →
        ∃ c', (t, c') ∈ offered ∧ c' ∈ calls
              ∧ withoutToken c' = withoutToken (JogPad.mutationFn printerId v))
  ∧ withoutToken (JogPad.mutationFn printerId v) ∈ calls
  ∧ (∀ axes tok, v = JogPad.homeVars axes tok → axes = "XY").

(** A call in flight has been sent, with and without its token. *)
Definition jogCallKnown (printerId : Z) (calls : list ApiCall)
  (v : JogPad.Vars) : Prop :=
  JogPad.mutationFn printerId v ∈ calls
  ∧ withoutToken (JogPad.mutationFn printerId v) ∈ calls.

(** The stored confirmation and the calls in flight of the jog pad are all
    known in that sense; the calls of the home mutation are homings of XY
    and those of the move mutation are moves. *)
Definition jogStateKnown (printerId : Z) (offered : list (string * ApiCall))
  (calls : list ApiCall) (st : JogPad.State) : Prop :=
  (∀ m, JogPad.confirmModal st = Some m →
        jogApprovalKnown printerId offered calls (JogPad.onConfirm m))
  ∧ Forall (λ v, jogCallKnown printerId calls v
                 ∧ ∃ tok, v = JogPad.homeVars "XY" tok)
      (Mutation.inFlight (JogPad.homeMutation st))
  ∧ Forall (λ v, jogCallKnown printerId calls v
                 ∧ ∃ axis d tok, v = JogPad.moveVars axis d tok)
      (Mutation.inFlight (JogPad.moveMutation st)).

(** The same for a control that confirms with a stored distance, whose
    mutation turns variables into a call with [callOf]. *)
Definition gateStateKnown (callOf : Gate.DistanceVars → ApiCall)
  (offered : list (string * Z)) (calls : list ApiCall)
  (st : Gate.DistanceState) : Prop :=
  (∀ m, Gate.confirmModal st = Some m →
        (Gate.token m, Gate.distance m) ∈ offered
        ∧ callOf {| Gate.var_distance := Gate.distance m;
                    Gate.var_token := None |} ∈ calls)
  ∧ Forall (λ v, callOf {| Gate.var_distance := Gate.var_distance v;
                           Gate.var_token := None |} ∈ calls)
      (Mutation.inFlight (Gate.mutation st)).

(** The clicks that set the user's marker, and the events that are none of
    them. *)
Definition isUserOperation (e : Event) : bool :=
  match e with
  | ClickLoad | ClickUnload => true
  | _ => false
  end.

Definition noUserOperation (es : list Event) : bool :=
  forallb (λ e, negb (isUserOperation e)) es.

(** A snapshot, and an event that is no snapshot reporting a loaded tray:
    any event but a snapshot whose [tray_now] is not null. *)
Definition isSnapshot (e : Event) : bool :=
  match e with
  | Snapshot _ => true
  | _ => false
  end.

Definition reportsNoTray (e : Event) : bool :=
  match e with
  | Snapshot s => bool_decide (s ≫= tray_now = None)
  | _ => true
  end.

(** What [parseInt] makes of the three two-character channels of a
    colour. *)
Definition colorChannels (hex : string) : list (option Z) :=
  let cleanHex := jsSubstring 0 6 (removeFirst "#" hex) in
  [parseInt16 (jsSubstring 0 2 cleanHex);
   parseInt16 (jsSubstring 2 4 cleanHex);
   parseInt16 (jsSubstring 4 6 cleanHex)].

(** The status of a printer at work, for the controls that stay enabled
    then. *)
Definition runningStatus : option PrinterStatus :=
  Some {| connected := true; state := "RUNNING"; stg_cur := None;
          tray_now := None; ams := None; ams_extruder_map := None |}.

(** * Properties *)

(** ** The filament-operation state machine *)

Section StateMachine.

Variable printerId : Z.
Variable nozzleCount : Z.

Lemma event_cases (e : Event) :
  (∃ s, e = Snapshot s) ∨ (∀ s, e ≠ Snapshot s).
Proof. destruct e as [s | | | | | | |]; [left; eauto | right; done ..]. Qed.

(** Before the first status the stage is -1, which is no active stage. *)
Lemma stageOf_None : stageOf None = -1.
Proof. reflexivity. Qed.

Lemma idle_stage_not_active : isFilamentChangeStage (-1) = false.
Proof. reflexivity. Qed.

Local Opaque stageOf isFilamentChangeStage.

Ltac snapshot_cases :=
  repeat first [ progress simplify_eq/= | case_bool_decide | case_match ].

Ltac open_snapshot st :=
  destruct st;
  unfold receiveStatus, runSyncEffect, runStageEffect, initialSyncEffect,
    stageEffect, isMqttFilamentChangeActive, currentStage;
  cbn [fst snd withStatus withSyncDeps withStageDeps withPrevStage
       withInitialSyncDone applyActions applyAction foldl app status
       stageDeps syncDeps prevStageRef userFilamentChange initialSyncDone
       selectedTray loadTriggered].

(** What one snapshot does to each cell. The sync effect and the stage
    effect write disjoint cells, so each lemma sees one of them. *)

Lemma receiveStatus_status s st : status (fst (receiveStatus s st)) = s.
Proof. open_snapshot st. snapshot_cases; done. Qed.

Lemma receiveStatus_userFilamentChange s st :
  userFilamentChange (fst (receiveStatus s st)) =
  if bool_decide
       (stageDeps st = Some (isFilamentChangeStage (stageOf s), stageOf s))
  then userFilamentChange st
  else if isFilamentChangeStage (stageOf s)
          || isFilamentChangeStage (prevStageRef st) && (stageOf s =? -1)
       then None
       else userFilamentChange st.
Proof. open_snapshot st. snapshot_cases; done. Qed.

Lemma receiveStatus_prevStageRef s st :
  prevStageRef (fst (receiveStatus s st)) =
  if bool_decide
       (stageDeps st = Some (isFilamentChangeStage (stageOf s), stageOf s))
  then prevStageRef st
  else stageOf s.
Proof. open_snapshot st. snapshot_cases; done. Qed.

Lemma receiveStatus_stageDeps s st :
  stageDeps (fst (receiveStatus s st)) =
  Some (isFilamentChangeStage (stageOf s), stageOf s).
Proof. open_snapshot st. snapshot_cases; done. Qed.

(** Once the sync has been consumed, a snapshot writes neither the
    selection nor the load-triggered flag. *)
Lemma receiveStatus_after_sync s st :
  initialSyncDone st = true →
  selectionEvents (snd (receiveStatus s st)) = []
  ∧ loadTriggeredWrites (snd (receiveStatus s st)) = []
  ∧ selectedTray (fst (receiveStatus s st)) = selectedTray st
  ∧ loadTriggered (fst (receiveStatus s st)) = loadTriggered st
  ∧ initialSyncDone (fst (receiveStatus s st)) = true.
Proof. open_snapshot st. intros ->. snapshot_cases; done. Qed.

(** A snapshot whose loaded tray is null or a sentinel selects nothing. *)
Lemma receiveStatus_no_seed s st :
  (s ≫= tray_now = None ∨ s ≫= tray_now = Some 255
   ∨ s ≫= tray_now = Some 254) →
  selectionEvents (snd (receiveStatus s st)) = []
  ∧ loadTriggeredWrites (snd (receiveStatus s st)) = []
  ∧ selectedTray (fst (receiveStatus s st)) = selectedTray st
  ∧ loadTriggered (fst (receiveStatus s st)) = loadTriggered st.
Proof.
  open_snapshot st. intros [-> | [-> | ->]]; snapshot_cases; done.
Qed.

(** The first snapshot with a tray that is not a sentinel seeds both cells
    with one selection event. *)
Lemma receiveStatus_seed s t st :
  s ≫= tray_now = Some t → t ≠ 255 → t ≠ 254 →
  initialSyncDone st = false → syncDeps st ≠ Some (Some t) →
  selectionEvents (snd (receiveStatus s st)) = [Some t]
  ∧ loadTriggeredWrites (snd (receiveStatus s st)) = [true]
  ∧ selectedTray (fst (receiveStatus s st)) = Some t
  ∧ loadTriggered (fst (receiveStatus s st)) = true
  ∧ initialSyncDone (fst (receiveStatus s st)) = true.
Proof.
  open_snapshot st. intros -> H255 H254 -> Hdeps.
  rewrite bool_decide_eq_false_2 by done. cbn.
  destruct (Z.eqb_spec t 255); [done |].
  destruct (Z.eqb_spec t 254); [done |]. cbn.
  snapshot_cases; done.
Qed.

(** Any snapshot with a non-null tray consumes the sync. *)
Lemma receiveStatus_consumes s t st :
  s ≫= tray_now = Some t → syncDeps st ≠ Some (Some t) →
  initialSyncDone (fst (receiveStatus s st)) = true.
Proof.
  open_snapshot st. intros -> Hdeps.
  rewrite bool_decide_eq_false_2 by done. snapshot_cases; done.
Qed.

(** Clicks and settled mutations leave the refs, the status and the
    dependency bookkeeping alone. *)
Lemma step_refs e st :
  (∀ s, e ≠ Snapshot s) →
  status (fst (step printerId nozzleCount e st)) = status st
  ∧ prevStageRef (fst (step printerId nozzleCount e st)) = prevStageRef st
  ∧ stageDeps (fst (step printerId nozzleCount e st)) = stageDeps st
  ∧ syncDeps (fst (step printerId nozzleCount e st)) = syncDeps st
  ∧ initialSyncDone (fst (step printerId nozzleCount e st))
    = initialSyncDone st.
Proof.
  intros Hne. destruct e as [s | [] i | side i | | | ok | ok | side i];
    [by destruct (Hne s) | ..]; unfold step.
  - by destruct st.
  - by destruct st.
  - destruct (selectedUnit _ _ _) as [u |]; [| done].
    destruct (tray u !! i) as [t |]; [| done].
    unfold slotOnClick, handleTraySelect.
    destruct (negb (isEmpty t) && negb (isPrinting st)); [| done].
    destruct st; cbn. repeat case_bool_decide; done.
  - destruct (loadDisabled st); [done |]. unfold handleLoad.
    destruct st as [? ? ? [sel |] ? ? ? ? ? ? ? ?]; done.
  - destruct (unloadDisabled st); [done |]. by destruct st.
  - destruct (loadPending st) eqn:Hp; [| done]. destruct st, ok; done.
  - destruct (unloadPending st) eqn:Hp; [| done]. destruct st, ok; done.
  - destruct (selectedUnit _ _ _) as [u |]; [| done].
    destruct (tray u !! i) as [t |]; [| done]. by destruct st.
Qed.

(** The sync stays consumed whatever happens next. *)
Lemma step_initialSyncDone e st :
  initialSyncDone st = true →
  initialSyncDone (fst (step printerId nozzleCount e st)) = true.
Proof.
  intros Hdone. destruct (event_cases e) as [[s ->] | Hne].
  - by apply receiveStatus_after_sync.
  - destruct (step_refs e st Hne) as (_ & _ & _ & _ & ->). done.
Qed.

Lemma run_initialSyncDone es st :
  initialSyncDone st = true →
  initialSyncDone (fst (run printerId nozzleCount es st)) = true.
Proof.
  revert st. induction es as [| e es IH]; intros st Hdone; [done |].
  cbn [run]. destruct (step printerId nozzleCount e st) as [st1 a1] eqn:He.
  specialize (IH st1). destruct (run printerId nozzleCount es st1) as [st2 a2].
  cbn. apply IH. change st1 with (fst (st1, a1)). rewrite <- He.
  by apply step_initialSyncDone.
Qed.

(** After every event the stage effect is up to date with the status. *)
Lemma step_stageEffectSettled e st :
  stageEffectSettled st →
  stageEffectSettled (fst (step printerId nozzleCount e st)).
Proof.
  intros [Hprev Hdeps]. destruct (event_cases e) as [[s ->] | Hne].
  - unfold stageEffectSettled, isMqttFilamentChangeActive, currentStage.
    cbn [step].
    rewrite receiveStatus_stageDeps, receiveStatus_prevStageRef,
      receiveStatus_status.
    split; [| by right]. case_bool_decide as Hsame; [| done].
    destruct Hdeps as [[Hnone _] | Hsome]; [congruence |].
    rewrite Hprev. unfold isMqttFilamentChangeActive in Hsome. congruence.
  - destruct (step_refs e st Hne) as (Hs & Hp & Hd & _).
    unfold stageEffectSettled, isMqttFilamentChangeActive, currentStage in *.
    rewrite Hs, Hp, Hd. done.
Qed.

Lemma run_stageEffectSettled_from es st :
  stageEffectSettled st →
  stageEffectSettled (fst (run printerId nozzleCount es st)).
Proof.
  revert st. induction es as [| e es IH]; intros st Hinv; [done |].
  cbn [run]. pose proof (step_stageEffectSettled e st Hinv) as Hstep.
  destruct (step printerId nozzleCount e st) as [st1 a1].
  specialize (IH st1 Hstep).
  destruct (run printerId nozzleCount es st1) as [st2 a2]. done.
Qed.

Lemma run_stageEffectSettled es :
  stageEffectSettled (fst (run printerId nozzleCount es initialSection)).
Proof. apply run_stageEffectSettled_from. split; [done | by left]. Qed.

Lemma run_cons e es st :
  fst (run printerId nozzleCount (e :: es) st)
  = fst (run printerId nozzleCount es
           (fst (step printerId nozzleCount e st))).
Proof.
  cbn [run]. destruct (step printerId nozzleCount e st) as [st1 a1].
  cbn [fst snd]. by destruct (run printerId nozzleCount es st1).
Qed.

Lemma run_actions_cons e es st :
  snd (run printerId nozzleCount (e :: es) st)
  = snd (step printerId nozzleCount e st)
    ++ snd (run printerId nozzleCount es
              (fst (step printerId nozzleCount e st))).
Proof.
  cbn [run]. destruct (step printerId nozzleCount e st) as [st1 a1].
  cbn [fst snd]. by destruct (run printerId nozzleCount es st1).
Qed.

Lemma selectionEvents_app a b :
  selectionEvents (a ++ b) = selectionEvents a ++ selectionEvents b.
Proof. apply omap_app. Qed.

Lemma step_Snapshot s st :
  step printerId nozzleCount (Snapshot s) st = receiveStatus s st.
Proof. reflexivity. Qed.

Lemma showFilamentChangeCard_receiveStatus s st :
  showFilamentChangeCard (fst (receiveStatus s st))
  = isFilamentChangeStage (stageOf s)
    || bool_decide (userFilamentChange (fst (receiveStatus s st)) ≠ None).
Proof.
  unfold showFilamentChangeCard, isMqttFilamentChangeActive, currentStage.
  by rewrite receiveStatus_status.
Qed.

(** A snapshot taken in a settled state, when its stage differs from the
    one of the previous render, runs the stage effect. *)
Lemma settled_stage_changed s st :
  stageEffectSettled st → currentStage st ≠ stageOf s →
  stageDeps st ≠ Some (isFilamentChangeStage (stageOf s), stageOf s).
Proof.
  intros [_ [[Hnone _] | Hsome]] Hchanged.
  - rewrite Hnone. discriminate.
  - rewrite Hsome. intros [= _ Heq]. by apply Hchanged.
Qed.

(** A stage outside the active set, after a stage outside it, leaves the
    user's marker alone. *)
Lemma receiveStatus_absent_stage s st :
  isFilamentChangeStage (prevStageRef st) = false →
  isFilamentChangeStage (stageOf s) = false →
  userFilamentChange (fst (receiveStatus s st)) = userFilamentChange st.
Proof.
  intros Hprev Hcur. rewrite receiveStatus_userFilamentChange, Hprev, Hcur.
  cbn. by destruct (bool_decide (stageDeps st = _)).
Qed.

(** In a state between events, what a snapshot does to the user's marker
    depends on the stage of the previous render only: nothing when the stage
    is the same, else the effect runs. *)
Lemma settled_snapshot_marker s st :
  stageEffectSettled st →
  userFilamentChange (fst (receiveStatus s st))
  = if bool_decide (stageOf s = currentStage st) then userFilamentChange st
    else if isFilamentChangeStage (stageOf s)
            || isFilamentChangeStage (currentStage st) && (stageOf s =? -1)
         then None
         else userFilamentChange st.
Proof.
  intros [Hprev Hdeps]. rewrite receiveStatus_userFilamentChange, Hprev.
  destruct Hdeps as [[Hnone Hstatus] | Hsome].
  - rewrite Hnone, (bool_decide_eq_false_2 (None = Some _)) by done.
    case_bool_decide as Hsame; [| done].
    rewrite Hsame. unfold currentStage.
    by rewrite Hstatus, stageOf_None, idle_stage_not_active.
  - rewrite Hsome. unfold isMqttFilamentChangeActive.
    case_bool_decide as Hdep; case_bool_decide as Hsame; try done.
    + injection Hdep as _ Hcur. by destruct Hsame.
    + destruct Hdep. by rewrite Hsame.
Qed.

(** The edge from an active stage to -1 clears the marker and hides the
    card. *)
Lemma settled_edge_dismisses s st :
  stageEffectSettled st →
  isFilamentChangeStage (currentStage st) = true → stageOf s = -1 →
  userFilamentChange (fst (receiveStatus s st)) = None
  ∧ showFilamentChangeCard (fst (receiveStatus s st)) = false.
Proof.
  intros Hinv Hactive Hidle.
  assert (userFilamentChange (fst (receiveStatus s st)) = None) as Hcleared.
  { rewrite settled_snapshot_marker by done.
    rewrite Hactive, Hidle, idle_stage_not_active.
    case_bool_decide as Hsame; [| done].
    by rewrite <- Hsame, idle_stage_not_active in Hactive. }
  split; [done |].
  by rewrite showFilamentChangeCard_receiveStatus, Hcleared, Hidle,
    idle_stage_not_active.
Qed.

(** Only a click on Load or Unload sets the marker. *)
Lemma step_marker_stays_clear e st :
  isUserOperation e = false → userFilamentChange st = None →
  userFilamentChange (fst (step printerId nozzleCount e st)) = None.
Proof.
  intros He Hclear.
  destruct e as [s | [] i | side i | | | ok | ok | side i];
    try discriminate He; unfold step.
  - rewrite receiveStatus_userFilamentChange, Hclear.
    by repeat case_match.
  - by destruct st.
  - by destruct st.
  - destruct (selectedUnit _ _ _) as [u |]; [| done].
    destruct (tray u !! i) as [t |]; [| done].
    unfold slotOnClick, handleTraySelect.
    destruct (negb (isEmpty t) && negb (isPrinting st)); [| done].
    destruct st; cbn in *. repeat case_bool_decide; done.
  - destruct (loadPending st); [| done]. destruct st, ok; done.
  - destruct (unloadPending st); [| done]. destruct st, ok; done.
  - destruct (selectedUnit _ _ _) as [u |]; [| done].
    destruct (tray u !! i) as [t |]; [| done]. by destruct st.
Qed.

Lemma run_marker_stays_clear es st :
  noUserOperation es = true → userFilamentChange st = None →
  userFilamentChange (fst (run printerId nozzleCount es st)) = None.
Proof.
  revert st. induction es as [| e es IH]; intros st Hes Hclear; [done |].
  apply andb_prop in Hes as [He Hes]. apply negb_true_iff in He.
  rewrite run_cons. apply IH; [done |]. by apply step_marker_stays_clear.
Qed.

(** Snapshots that carry the stage of the last render leave the marker,
    whatever it is, and the stage as they are. *)
Lemma run_same_stage_keeps_marker ss st :
  stageEffectSettled st →
  Forall (λ s, stageOf s = currentStage st) ss →
  userFilamentChange (fst (run printerId nozzleCount (Snapshot <$> ss) st))
  = userFilamentChange st
  ∧ currentStage (fst (run printerId nozzleCount (Snapshot <$> ss) st))
    = currentStage st.
Proof.
  remember (currentStage st) as c eqn:Hc. intros Hinv Hss. revert st Hc Hinv.
  induction Hss as [| s ss Hs Hss IH]; intros st Hc Hinv; [done |].
  rewrite fmap_cons, run_cons, step_Snapshot.
  assert (currentStage (fst (receiveStatus s st)) = c) as Hcur
    by (unfold currentStage; by rewrite receiveStatus_status).
  assert (userFilamentChange (fst (receiveStatus s st))
          = userFilamentChange st) as Hkeep
    by (rewrite settled_snapshot_marker, bool_decide_eq_true_2 by congruence;
        done).
  rewrite <- Hkeep. apply IH; [done |].
  by apply (step_stageEffectSettled (Snapshot s)).
Qed.

(** Snapshots whose stages are all outside the active set, from a state
    whose stage is outside it, leave the marker as it is. *)
Lemma run_absent_stages_keep_marker ss st :
  stageEffectSettled st →
  isFilamentChangeStage (currentStage st) = false →
  Forall (λ s, isFilamentChangeStage (stageOf s) = false) ss →
  userFilamentChange (fst (run printerId nozzleCount (Snapshot <$> ss) st))
  = userFilamentChange st
  ∧ isFilamentChangeStage
      (currentStage (fst (run printerId nozzleCount (Snapshot <$> ss) st)))
    = false.
Proof.
  intros Hinv Hidle Hss. revert st Hinv Hidle.
  induction Hss as [| s ss Hs Hss IH]; intros st Hinv Hidle; [done |].
  rewrite fmap_cons, run_cons, step_Snapshot.
  assert (userFilamentChange (fst (receiveStatus s st))
          = userFilamentChange st) as Hkeep.
  { apply receiveStatus_absent_stage; [| done]. by destruct Hinv as [-> _]. }
  rewrite <- Hkeep. apply IH.
  - by apply (step_stageEffectSettled (Snapshot s)).
  - unfold currentStage. by rewrite receiveStatus_status.
Qed.

(** A snapshot records the loaded tray it was rendered with. *)
Lemma receiveStatus_syncDeps s st :
  syncDeps (fst (receiveStatus s st)) = Some (s ≫= tray_now).
Proof. open_snapshot st. snapshot_cases; done. Qed.

(** A snapshot without a loaded tray leaves the sync for later. *)
Lemma receiveStatus_null_tray s st :
  s ≫= tray_now = None → initialSyncDone st = false →
  initialSyncDone (fst (receiveStatus s st)) = false.
Proof. open_snapshot st. intros -> ->. snapshot_cases; done. Qed.

(** As long as no snapshot has reported a loaded tray, the sync is still to
    come and the effect has not run with a tray. *)
Lemma run_sync_pending es st :
  forallb reportsNoTray es = true →
  initialSyncDone st = false → (∀ t, syncDeps st ≠ Some (Some t)) →
  initialSyncDone (fst (run printerId nozzleCount es st)) = false
  ∧ ∀ t, syncDeps (fst (run printerId nozzleCount es st)) ≠ Some (Some t).
Proof.
  revert st. induction es as [| e es IH]; intros st Hes Hdone Hdeps; [done |].
  apply andb_prop in Hes as [He Hes]. rewrite run_cons. apply IH; [done | |].
  - destruct (event_cases e) as [[s ->] | Hne].
    + apply bool_decide_eq_true in He. by apply receiveStatus_null_tray.
    + by destruct (step_refs e st Hne) as (_ & _ & _ & _ & ->).
  - destruct (event_cases e) as [[s ->] | Hne].
    + apply bool_decide_eq_true in He. intros t.
      rewrite step_Snapshot, receiveStatus_syncDeps, He. discriminate.
    + by destruct (step_refs e st Hne) as (_ & _ & _ & -> & _).
Qed.

(** Snapshots without a loaded tray select nothing. *)
Lemma run_null_snapshots es st :
  forallb reportsNoTray es = true → forallb isSnapshot es = true →
  selectedTray (fst (run printerId nozzleCount es st)) = selectedTray st
  ∧ loadTriggered (fst (run printerId nozzleCount es st)) = loadTriggered st.
Proof.
  revert st. induction es as [| e es IH]; intros st Hes Hsnap; [done |].
  apply andb_prop in Hes as [He Hes]. apply andb_prop in Hsnap as [Hs Hsnap].
  destruct e as [s | | | | | | |]; try discriminate Hs.
  apply bool_decide_eq_true in He.
  rewrite run_cons, step_Snapshot.
  destruct (receiveStatus_no_seed s st) as (_ & _ & Hsel & Hlt); [by left |].
  destruct (IH (fst (receiveStatus s st)) Hes Hsnap) as [-> ->]. done.
Qed.

End StateMachine.

Transparent stageOf isFilamentChangeStage.

(** C1. The progress card is dismissed on an edge only. In any reachable
    state, a snapshot with the stage of the previous render leaves the user's
    marker alone; one with another stage clears it exactly when the new stage
    is active or the previous stage was active and the new one is -1. So the
    edge from an active stage to -1 hides the card, whoever opened it: with
    the stages -1, 24, -1 the card is shown while the device loads and hidden
    at the end, also when the user opened it before or during stage 24. A
    snapshot whose stage is outside the active set, seen when the previous
    stage was outside it too, leaves the marker as it is, so the card is
    shown afterwards exactly when the user had opened it, and so does any
    number of such snapshots in a row; in particular with the stages -1, -1
    and a user action in between, the card that the action opened is neither
    hidden nor changed by the second snapshot. *)
Theorem card_dismissed_on_stage_edge_only
  (printerId nozzleCount : Z) (es : list Event)
  (s1 s2 s3 s : option PrinterStatus) (ss : list (option PrinterStatus))
  (st : AMSSection) (e : Event) :
  let st0 := fst (run printerId nozzleCount es initialSection) in
  let after evs := fst (run printerId nozzleCount evs st0) in
  let st' := fst (step printerId nozzleCount (Snapshot s) st) in
  stageOf s1 = -1 → stageOf s2 = 24 → stageOf s3 = -1 →
  (∀ s', e ≠ Snapshot s') →
  userFilamentChange (after [Snapshot s])
  = (if bool_decide (stageOf s = currentStage st0)
     then userFilamentChange st0
     else if isFilamentChangeStage (stageOf s)
             || isFilamentChangeStage (currentStage st0) && (stageOf s =? -1)
          then None
          else userFilamentChange st0)
  ∧ (isFilamentChangeStage (currentStage st0) = true → stageOf s = -1 →
     userFilamentChange (after [Snapshot s]) = None
     ∧ showFilamentChangeCard (after [Snapshot s]) = false)
  ∧ (isFilamentChangeStage (prevStageRef st) = false →
     isFilamentChangeStage (stageOf s) = false →
     userFilamentChange st' = userFilamentChange st
     ∧ showFilamentChangeCard st'
       = bool_decide (userFilamentChange st ≠ None))
  ∧ (isFilamentChangeStage (currentStage st0) = false →
     Forall (λ s', isFilamentChangeStage (stageOf s') = false) ss →
     userFilamentChange (after (Snapshot <$> ss)) = userFilamentChange st0
     ∧ showFilamentChangeCard (after (Snapshot <$> ss))
       = bool_decide (userFilamentChange st0 ≠ None))
  ∧ (showFilamentChangeCard st0 = false →
     showFilamentChangeCard (after [Snapshot s1]) = false)
  ∧ showFilamentChangeCard (after [Snapshot s1; Snapshot s2]) = true
  ∧ showFilamentChangeCard (after [Snapshot s1; Snapshot s2; Snapshot s3])
    = false
  ∧ userFilamentChange (after [Snapshot s1; e; Snapshot s3])
    = userFilamentChange (after [Snapshot s1; e])
  ∧ showFilamentChangeCard (after [Snapshot s1; e; Snapshot s3])
    = showFilamentChangeCard (after [Snapshot s1; e])
  ∧ showFilamentChangeCard (after [Snapshot s1; e; Snapshot s2]) = true
  ∧ showFilamentChangeCard (after [Snapshot s1; e; Snapshot s2; Snapshot s3])
    = false
  ∧ showFilamentChangeCard (after [Snapshot s1; Snapshot s2; e; Snapshot s3])
    = false.
Proof.
  intros st0 after st' H1 H2 H3 He. subst after st'.
  pose proof (run_stageEffectSettled printerId nozzleCount es) as Hinv0.
  fold st0 in Hinv0.
  assert (isFilamentChangeStage 24 = true) as Hloading by reflexivity.
  assert (isFilamentChangeStage (-1) = false) as Hidle by reflexivity.
  (* the states along the sequences, each settled, with its stage *)
  assert (∀ s' st1, stageEffectSettled st1 →
            stageEffectSettled (fst (receiveStatus s' st1))
            ∧ currentStage (fst (receiveStatus s' st1)) = stageOf s')
    as Hsnap.
  { intros s' st1 Hinv. split.
    - by apply (step_stageEffectSettled printerId nozzleCount (Snapshot s')).
    - unfold currentStage. by rewrite receiveStatus_status. }
  assert (∀ st1, stageEffectSettled st1 →
            stageEffectSettled (fst (step printerId nozzleCount e st1))
            ∧ currentStage (fst (step printerId nozzleCount e st1))
              = currentStage st1) as Huser.
  { intros st1 Hinv. split; [by apply step_stageEffectSettled |].
    destruct (step_refs printerId nozzleCount e st1 He) as (Hs & _).
    unfold currentStage. by rewrite Hs. }
  assert (∀ s' st1, stageEffectSettled st1 → stageOf s' = 24 →
            showFilamentChangeCard (fst (receiveStatus s' st1)) = true)
    as Hshown.
  { intros s' st1 _ Hs'.
    by rewrite showFilamentChangeCard_receiveStatus, Hs', Hloading. }
  set (st1 := fst (receiveStatus s1 st0)).
  destruct (Hsnap s1 st0 Hinv0) as [Hinv1 Hc1]. fold st1 in Hinv1, Hc1.
  set (st2 := fst (receiveStatus s2 st1)).
  destruct (Hsnap s2 st1 Hinv1) as [Hinv2 Hc2]. fold st2 in Hinv2, Hc2.
  set (ste := fst (step printerId nozzleCount e st1)).
  destruct (Huser st1 Hinv1) as [Hinve Hce]. fold ste in Hinve, Hce.
  set (st2e := fst (step printerId nozzleCount e st2)).
  destruct (Huser st2 Hinv2) as [Hinv2e Hc2e]. fold st2e in Hinv2e, Hc2e.
  set (ste2 := fst (receiveStatus s2 ste)).
  destruct (Hsnap s2 ste Hinve) as [Hinve2 Hce2]. fold ste2 in Hinve2, Hce2.
  assert (userFilamentChange (fst (receiveStatus s3 ste))
          = userFilamentChange ste) as Hkeep.
  { rewrite settled_snapshot_marker by done.
    by rewrite bool_decide_eq_true_2 by congruence. }
  split_and!.
  - rewrite run_cons. cbn [run fst]. rewrite step_Snapshot.
    by apply settled_snapshot_marker.
  - intros Hactive Hs. rewrite run_cons. cbn [run fst]. rewrite step_Snapshot.
    by apply settled_edge_dismisses.
  - intros Hprev Hcur. rewrite step_Snapshot. split.
    + by apply receiveStatus_absent_stage.
    + rewrite showFilamentChangeCard_receiveStatus, Hcur.
      by rewrite receiveStatus_absent_stage.
  - intros Hidle0 Hss.
    destruct (run_absent_stages_keep_marker printerId nozzleCount ss st0
                Hinv0 Hidle0 Hss) as [Hkeep0 Hidle'].
    split; [done |].
    unfold showFilamentChangeCard, isMqttFilamentChangeActive.
    by rewrite Hidle', Hkeep0.
  - intros Hhidden. rewrite run_cons. cbn [run fst]. rewrite step_Snapshot.
    apply orb_false_elim in Hhidden as [Hidle0 Hnone0].
    rewrite showFilamentChangeCard_receiveStatus, H1, Hidle.
    rewrite receiveStatus_absent_stage; [done | | by rewrite H1].
    destruct Hinv0 as [-> _]. exact Hidle0.
  - rewrite !run_cons. cbn [run fst]. rewrite !step_Snapshot.
    by apply Hshown.
  - rewrite !run_cons. cbn [run fst]. rewrite !step_Snapshot.
    fold st1. fold st2.
    apply settled_edge_dismisses; [done | by rewrite Hc2, H2 | done].
  - rewrite !run_cons. cbn [run fst]. rewrite !step_Snapshot.
    fold st1. fold ste. exact Hkeep.
  - rewrite !run_cons. cbn [run fst]. rewrite !step_Snapshot.
    fold st1. fold ste.
    rewrite showFilamentChangeCard_receiveStatus, Hkeep, H3.
    unfold showFilamentChangeCard, isMqttFilamentChangeActive.
    by rewrite Hce, Hc1, H1.
  - rewrite !run_cons. cbn [run fst]. rewrite !step_Snapshot.
    by apply Hshown.
  - rewrite !run_cons. cbn [run fst]. rewrite !step_Snapshot.
    fold st1. fold ste. fold ste2.
    apply settled_edge_dismisses; [done | by rewrite Hce2, H2 | done].
  - rewrite !run_cons. cbn [run fst]. rewrite !step_Snapshot.
    fold st1. fold st2. fold st2e.
    apply settled_edge_dismisses; [done | by rewrite Hc2e, Hc2, H2 | done].
Qed.

Lemma card_dismissed_on_stage_edge_only_witness :
  let idle := statusWith (Some (-1)) (Some 37) in
  let loading := statusWith (Some 24) (Some 37) in
  let run es := fst (run 1 2 es initialSection) in
  showFilamentChangeCard (run [Snapshot idle; Snapshot loading]) = true
  ∧ showFilamentChangeCard
      (run [Snapshot idle; Snapshot loading; Snapshot idle]) = false
  ∧ userFilamentChange (run [Snapshot loading; ClickUnload]) = Some false
  ∧ showFilamentChangeCard
      (run [Snapshot loading; ClickUnload; Snapshot idle]) = false
  ∧ showFilamentChangeCard (run [Snapshot idle; ClickUnload]) = true
  ∧ showFilamentChangeCard
      (run [Snapshot idle; ClickUnload; Snapshot idle]) = true
  ∧ showFilamentChangeCard
      (run [Snapshot idle; ClickUnload; Snapshot loading; Snapshot idle])
    = false
  ∧ showFilamentChangeCard
      (run ([Snapshot idle; ClickUnload] ++ (Snapshot <$> [idle; idle; idle])))
    = true.
Proof.
  intros idle loading run0.
  destruct (card_dismissed_on_stage_edge_only 1 2 [] idle loading idle idle
              [] initialSection ClickUnload)
    as (_ & _ & _ & _ & _ & Hshown & Hhidden & _ & Hkept & _ & Hclosed & _);
    [reflexivity | reflexivity | reflexivity
    | intros s' Hs'; discriminate Hs' | ].
  destruct (card_dismissed_on_stage_edge_only 1 2
              [Snapshot loading; ClickUnload] idle loading idle idle
              [] initialSection ClickUnload)
    as (_ & Hedge & _);
    [reflexivity | reflexivity | reflexivity
    | intros s' Hs'; discriminate Hs' | ].
  destruct Hedge as [_ Hdismissed]; [reflexivity | reflexivity |].
  destruct (card_dismissed_on_stage_edge_only 1 2
              [Snapshot idle; ClickUnload] idle loading idle idle
              [idle; idle; idle] initialSection ClickUnload)
    as (_ & _ & _ & Hnever & _);
    [reflexivity | reflexivity | reflexivity
    | intros s' Hs'; discriminate Hs' | ].
  destruct Hnever as [_ Hstays]; [reflexivity | by repeat constructor |].
  split_and!; [exact Hshown | exact Hhidden | reflexivity | exact Hdismissed
              | reflexivity | exact (eq_trans Hkept eq_refl) | exact Hclosed
              | exact (eq_trans Hstays eq_refl)].
Defined.

(** The claim C2 read for every snapshot fails: a marker set while the
    device already reports stage 24 outlives the next snapshot with that
    stage, and the card then reads "unloading" while the device loads. *)
Lemma active_stage_every_snapshot_counterexample :
  ¬ (∀ (es : list Event) (s : option PrinterStatus),
       isFilamentChangeStage (stageOf s) = true →
       let st' := fst (run 1 2 (es ++ [Snapshot s]) initialSection) in
       userFilamentChange st' = None
       ∧ isFilamentLoading st'
         = (stageOf s =? STAGE_FILAMENT_LOADING)
           || (stageOf s =? STAGE_HEATING_NOZZLE)).
Proof.
  intros Hclaim.
  specialize (Hclaim [Snapshot (statusWith (Some 24) (Some 37)); ClickUnload]
                     (statusWith (Some 24) (Some 37)) eq_refl).
  vm_compute in Hclaim. destruct Hclaim as [Hmarker _]. discriminate Hmarker.
Qed.

(** C2, amended. Whenever a snapshot brings a stage of the active set that
    differs from the stage of the previous render (the first render counts:
    before it the stage is -1), the user's pending marker is cleared, the card
    is shown, and the kind it displays is read from the device stage: loading
    exactly for stages 24 and 7. This lasts until the next click on Load or
    Unload: through any events that hold neither, the marker stays cleared,
    the kind is read from the stage of the latest snapshot, and the card is
    shown exactly while that stage is active. A marker that is set while the
    device already reports a stage is kept by later snapshots that carry that
    same stage, and with it the kind the user's action gave. *)
Theorem device_stage_clears_pending_marker
  (printerId nozzleCount : Z) (es later : list Event)
  (s : option PrinterStatus) (ss : list (option PrinterStatus)) :
  let st := fst (run printerId nozzleCount es initialSection) in
  let st' := fst (step printerId nozzleCount (Snapshot s) st) in
  let st'' := fst (run printerId nozzleCount later st') in
  let kept := fst (run printerId nozzleCount (Snapshot <$> ss) st) in
  (isFilamentChangeStage (stageOf s) = true →
   currentStage st ≠ stageOf s →
   userFilamentChange st' = None
   ∧ showFilamentChangeCard st' = true
   ∧ isFilamentLoading st'
     = (stageOf s =? STAGE_FILAMENT_LOADING)
       || (stageOf s =? STAGE_HEATING_NOZZLE)
   ∧ (noUserOperation later = true →
      userFilamentChange st'' = None
      ∧ isFilamentLoading st''
        = (currentStage st'' =? STAGE_FILAMENT_LOADING)
          || (currentStage st'' =? STAGE_HEATING_NOZZLE)
      ∧ showFilamentChangeCard st''
        = isFilamentChangeStage (currentStage st'')))
  ∧ (Forall (λ s0, stageOf s0 = currentStage st) ss →
     userFilamentChange kept = userFilamentChange st
     ∧ currentStage kept = currentStage st
     ∧ ∀ b, userFilamentChange st = Some b →
            isFilamentLoading kept = b ∧ showFilamentChangeCard kept = true).
Proof.
  intros st st' st'' kept.
  pose proof (run_stageEffectSettled printerId nozzleCount es) as Hinv.
  fold st in Hinv. split.
  - intros Hactive Hchanged.
    assert (userFilamentChange st' = None) as Hcleared.
    { subst st'. rewrite step_Snapshot, receiveStatus_userFilamentChange.
      rewrite bool_decide_eq_false_2; [by rewrite Hactive |].
      by apply settled_stage_changed. }
    split_and!.
    + exact Hcleared.
    + subst st'. rewrite step_Snapshot, showFilamentChangeCard_receiveStatus.
      by rewrite Hactive.
    + unfold isFilamentLoading. rewrite Hcleared. unfold currentStage.
      subst st'. by rewrite step_Snapshot, receiveStatus_status.
    + intros Hquiet.
      assert (userFilamentChange st'' = None) as Hstill
        by (by apply run_marker_stays_clear).
      unfold isFilamentLoading, showFilamentChangeCard,
        isMqttFilamentChangeActive.
      rewrite Hstill. split_and!; [done | done |]. by rewrite orb_false_r.
  - intros Hss.
    destruct (run_same_stage_keeps_marker printerId nozzleCount ss st Hinv Hss)
      as [Hkeep Hcur].
    fold kept in Hkeep, Hcur. split_and!; [done | done |].
    intros b Hb. unfold isFilamentLoading, showFilamentChangeCard.
    rewrite Hkeep, Hb. split; [done | by rewrite orb_true_r].
Qed.

Lemma device_stage_clears_pending_marker_witness :
  let es := [Snapshot (statusWith (Some (-1)) (Some 37)); ClickUnload] in
  let s := statusWith (Some 22) (Some 37) in
  let later := [Snapshot (statusWith (Some 24) (Some 37)); SelectAms LeftPanel 1;
                UnloadSettled true] in
  let during := [Snapshot (statusWith (Some 24) (Some 37)); ClickUnload] in
  let same := [statusWith (Some 24) (Some 37); statusWith (Some 24) (Some 255)]
  in
  userFilamentChange (fst (run 1 2 es initialSection)) = Some false
  ∧ userFilamentChange (fst (run 1 2 (es ++ [Snapshot s]) initialSection))
    = None
  ∧ isFilamentLoading (fst (run 1 2 (es ++ [Snapshot s]) initialSection))
    = false
  ∧ isFilamentLoading
      (fst (run 1 2 (es ++ [Snapshot s] ++ later) initialSection)) = true
  ∧ userFilamentChange (fst (run 1 2 during initialSection)) = Some false
  ∧ isFilamentLoading
      (fst (run 1 2 (during ++ (Snapshot <$> same)) initialSection)) = false
  ∧ currentStage
      (fst (run 1 2 (during ++ (Snapshot <$> same)) initialSection)) = 24.
Proof.
  intros es s later during same.
  destruct (device_stage_clears_pending_marker 1 2 es later s [])
    as [Hdevice _].
  destruct Hdevice as (Hcleared & _ & Hkind & Hlasting);
    [reflexivity | vm_compute; discriminate |].
  destruct (Hlasting eq_refl) as (_ & Hlater & _).
  destruct (device_stage_clears_pending_marker 1 2 during [] s same)
    as [_ Hsame].
  destruct Hsame as (_ & Hstage & Hkept); [by repeat constructor |].
  destruct (Hkept false eq_refl) as [Huser _].
  split_and!; [reflexivity | exact (eq_trans Hcleared eq_refl)
              | exact (eq_trans Hkind eq_refl)
              | exact (eq_trans Hlater eq_refl) | reflexivity
              | exact (eq_trans Huser eq_refl)
              | exact (eq_trans Hstage eq_refl)].
Defined.

(** C3. Initial sync from the loaded tray. A snapshot whose [tray_now] is
    255 or 254 raises no selection event and leaves the selection and the
    load-triggered flag as they were, in every state. As long as no snapshot
    has reported a loaded tray (the status or its [tray_now] was null), and
    whatever the user did meanwhile, the first snapshot with a tray id [t]
    that is no sentinel (37 for one) raises exactly one selection event, for
    [t], and sets load-triggered once. After that, whatever events follow, a
    snapshot carrying the same value raises no selection event and writes
    neither cell. *)
Theorem initial_sync_seeds_once
  (printerId nozzleCount : Z) (es0 es : list Event)
  (s s' : option PrinterStatus) (t : Z) (st : AMSSection) :
  s ≫= tray_now = Some t → s' ≫= tray_now = Some t →
  forallb reportsNoTray es0 = true →
  let step := step printerId nozzleCount in
  let st0 := fst (run printerId nozzleCount es0 initialSection) in
  (t = 255 ∨ t = 254 →
     selectionEvents (snd (step (Snapshot s) st)) = []
     ∧ selectedTray (fst (step (Snapshot s) st)) = selectedTray st
     ∧ loadTriggered (fst (step (Snapshot s) st)) = loadTriggered st)
  ∧ (t ≠ 255 → t ≠ 254 →
     let seeded := step (Snapshot s) st0 in
     let between := fst (run printerId nozzleCount es (fst seeded)) in
     let again := step (Snapshot s') between in
     let twice := run printerId nozzleCount [Snapshot s; Snapshot s'] st0 in
     selectionEvents (snd seeded) = [Some t]
     ∧ loadTriggeredWrites (snd seeded) = [true]
     ∧ selectedTray (fst seeded) = Some t
     ∧ loadTriggered (fst seeded) = true
     ∧ selectionEvents (snd again) = []
     ∧ loadTriggeredWrites (snd again) = []
     ∧ selectedTray (fst again) = selectedTray between
     ∧ loadTriggered (fst again) = loadTriggered between
     ∧ selectionEvents (snd twice) = [Some t]
     ∧ selectedTray (fst twice) = Some t
     ∧ loadTriggered (fst twice) = true).
Proof.
  intros Hs Hs' Hes0 step0 st0. subst step0. split.
  - intros Hsentinel. rewrite step_Snapshot.
    destruct (receiveStatus_no_seed s st) as (He & _ & Hsel & Hlt).
    { destruct Hsentinel as [-> | ->]; rewrite Hs; auto. }
    done.
  - intros H255 H254 seeded between again twice.
    subst seeded between again twice.
    destruct (run_sync_pending printerId nozzleCount es0 initialSection Hes0)
      as [Hpending Hdeps]; [done | done |]. fold st0 in Hpending, Hdeps.
    rewrite !run_cons, !run_actions_cons, !step_Snapshot. cbn [run fst snd].
    destruct (receiveStatus_seed s t st0 Hs H255 H254 Hpending (Hdeps t))
      as (He & Hw & Hsel & Hlt & Hdone).
    pose proof (run_initialSyncDone printerId nozzleCount es _ Hdone)
      as Hdone'.
    destruct (receiveStatus_after_sync s' _ Hdone')
      as (He' & Hw' & Hsel' & Hlt' & _).
    destruct (receiveStatus_after_sync s' _ Hdone)
      as (He2 & _ & Hsel2 & Hlt2 & _).
    rewrite app_nil_r, selectionEvents_app.
    rewrite He', Hw', Hsel', Hlt', He2, Hsel2, Hlt2, He, Hw, Hsel, Hlt. done.
Qed.

Lemma initial_sync_seeds_once_witness :
  let loaded := statusWith None (Some 37) in
  let none := statusWith None (Some 255) in
  let late := [Snapshot None; Snapshot (statusWith (Some 24) None); ClickLoad]
  in
  let step := step 1 2 in
  selectionEvents (snd (step (Snapshot none) initialSection)) = []
  ∧ selectedTray (fst (step (Snapshot loaded) initialSection)) = Some 37
  ∧ loadTriggered (fst (step (Snapshot loaded) initialSection)) = true
  ∧ selectionEvents
      (snd (run 1 2 [Snapshot loaded; Snapshot loaded] initialSection))
    = [Some 37]
  ∧ selectedTray (fst (run 1 2 (late ++ [Snapshot loaded]) initialSection))
    = Some 37
  ∧ loadTriggered (fst (run 1 2 (late ++ [Snapshot loaded]) initialSection))
    = true.
Proof.
  intros loaded none late step0.
  destruct (initial_sync_seeds_once 1 2 [] [] none none 255 initialSection
              eq_refl eq_refl eq_refl) as [Hsentinel _].
  destruct (initial_sync_seeds_once 1 2 [] [] loaded loaded 37 initialSection
              eq_refl eq_refl eq_refl) as [_ Hvalid].
  destruct (initial_sync_seeds_once 1 2 late [] loaded loaded 37
              initialSection eq_refl eq_refl eq_refl) as [_ Hlate].
  destruct (Hsentinel (or_introl eq_refl)) as (Hnone & _).
  destruct Hvalid as (_ & _ & Hsel & Hlt & _ & _ & _ & _ & Honce & _);
    [discriminate | discriminate |].
  destruct Hlate as (_ & _ & Hsel' & Hlt' & _);
    [discriminate | discriminate |].
  split_and!; [exact Hnone | exact Hsel | exact Hlt | exact Honce
              | exact (eq_trans Hsel' eq_refl)
              | exact (eq_trans Hlt' eq_refl)].
Defined.

(** Snapshots alone, after the sync was consumed, never write the selection
    or the load-triggered flag. *)
Lemma run_snapshots_after_sync
  (printerId nozzleCount : Z) (ss : list (option PrinterStatus))
  (st : AMSSection) :
  initialSyncDone st = true →
  selectionEvents (snd (run printerId nozzleCount (Snapshot <$> ss) st)) = []
  ∧ loadTriggeredWrites
      (snd (run printerId nozzleCount (Snapshot <$> ss) st)) = []
  ∧ selectedTray (fst (run printerId nozzleCount (Snapshot <$> ss) st))
    = selectedTray st
  ∧ loadTriggered (fst (run printerId nozzleCount (Snapshot <$> ss) st))
    = loadTriggered st.
Proof.
  revert st. induction ss as [| s ss IH]; intros st Hdone; [done |].
  rewrite fmap_cons, run_cons, run_actions_cons, step_Snapshot.
  destruct (receiveStatus_after_sync s st Hdone)
    as (He & Hw & Hsel & Hlt & Hdone').
  destruct (IH _ Hdone') as (He' & Hw' & Hsel' & Hlt').
  unfold loadTriggeredWrites in *. rewrite selectionEvents_app, omap_app.
  rewrite He, He', Hw, Hw', Hsel', Hlt', Hsel, Hlt. done.
Qed.

(** C9. The one sync opportunity is consumed by the first snapshot whose
    [tray_now] is not null, sentinel or not: whatever came before it, as long
    as no snapshot had reported a loaded tray, the sync is still pending
    before that snapshot and consumed after it. From then on, whatever events
    follow, no snapshot raises a selection event or writes the load-triggered
    flag; so when the first value was 254 or 255, later snapshots alone, with
    valid tray ids or not, leave the selection and the flag as they were
    before it, which is null and false when only snapshots came before. *)
Theorem sync_consumed_by_first_reported_tray
  (printerId nozzleCount : Z) (es0 : list Event)
  (s0 s : option PrinterStatus) (t0 : Z)
  (es : list Event) (ss : list (option PrinterStatus)) :
  forallb reportsNoTray es0 = true →
  s0 ≫= tray_now = Some t0 →
  let before := fst (run printerId nozzleCount es0 initialSection) in
  let st0 := fst (step printerId nozzleCount (Snapshot s0) before) in
  let st := fst (run printerId nozzleCount es st0) in
  let r := step printerId nozzleCount (Snapshot s) st in
  let later := run printerId nozzleCount (Snapshot <$> ss) st0 in
  initialSyncDone before = false
  ∧ initialSyncDone st0 = true
  ∧ selectionEvents (snd r) = []
  ∧ loadTriggeredWrites (snd r) = []
  ∧ selectedTray (fst r) = selectedTray st
  ∧ loadTriggered (fst r) = loadTriggered st
  ∧ (t0 = 255 ∨ t0 = 254 →
     selectedTray st0 = selectedTray before
     ∧ loadTriggered st0 = loadTriggered before
     ∧ selectionEvents (snd later) = []
     ∧ selectedTray (fst later) = selectedTray before
     ∧ loadTriggered (fst later) = loadTriggered before
     ∧ (forallb isSnapshot es0 = true →
        selectedTray (fst later) = None ∧ loadTriggered (fst later) = false)).
Proof.
  intros Hes0 Hs0 before st0 st r later.
  destruct (run_sync_pending printerId nozzleCount es0 initialSection Hes0)
    as [Hpending Hdeps]; [done | done |]. fold before in Hpending, Hdeps.
  assert (initialSyncDone st0 = true) as Hdone.
  { subst st0. rewrite step_Snapshot.
    by apply (receiveStatus_consumes s0 t0). }
  assert (initialSyncDone st = true) as Hdone'.
  { subst st. by apply run_initialSyncDone. }
  destruct (receiveStatus_after_sync s st Hdone')
    as (He & Hw & Hsel & Hlt & _).
  split_and!; try done.
  intros Hsentinel.
  destruct (receiveStatus_no_seed s0 before) as (_ & _ & Hsel0 & Hlt0).
  { rewrite Hs0. destruct Hsentinel as [-> | ->]; auto. }
  destruct (run_snapshots_after_sync printerId nozzleCount ss st0 Hdone)
    as (He' & _ & Hsel' & Hlt').
  subst later st0. rewrite step_Snapshot in *.
  rewrite Hsel', Hlt', Hsel0, Hlt0. split_and!; try done.
  intros Hsnap.
  destruct (run_null_snapshots printerId nozzleCount es0 initialSection
              Hes0 Hsnap) as [Hsel1 Hlt1].
  fold before in Hsel1, Hlt1. by rewrite Hsel1, Hlt1.
Qed.

Lemma sync_consumed_by_first_reported_tray_witness :
  let none := statusWith None (Some 255) in
  let loaded := statusWith None (Some 37) in
  let early := [Snapshot None; Snapshot (statusWith (Some 7) None)] in
  let later :=
    run 1 2 (early ++ [Snapshot none; Snapshot loaded; Snapshot loaded])
      initialSection in
  none ≫= tray_now = Some 255
  ∧ initialSyncDone (fst (run 1 2 early initialSection)) = false
  ∧ initialSyncDone (fst (run 1 2 (early ++ [Snapshot none]) initialSection))
    = true
  ∧ selectedTray (fst later) = None
  ∧ loadTriggered (fst later) = false.
Proof.
  intros none loaded early later.
  destruct (sync_consumed_by_first_reported_tray 1 2 early none loaded 255 []
              [loaded; loaded] eq_refl eq_refl)
    as (Hpending & Hconsumed & _ & _ & _ & _ & Hnever).
  destruct (Hnever (or_introl eq_refl)) as (_ & _ & _ & _ & _ & Hnull).
  destruct (Hnull eq_refl) as [Hsel Hlt].
  split_and!; [reflexivity | exact Hpending | exact (eq_trans Hconsumed eq_refl)
              | exact (eq_trans Hsel eq_refl) | exact (eq_trans Hlt eq_refl)].
Defined.

(** C10. A click on a slot changes the selection only if its tray has a
    filament type other than the empty text and "NONE" and the printer is not
    printing, and then the same update clears load-triggered before it
    writes the selection. On such a slot the click selects the tray's global
    id, or deselects when that id was selected. [handleTraySelect] writes the
    value it is given and clears load-triggered exactly when the value
    differs from the selection, deselection included. *)
Theorem slot_click_selection
  (printerId nozzleCount : Z) (st : AMSSection) (side : Side) (i : nat)
  (trayId : option Z) :
  let r := step printerId nozzleCount (ClickSlot side i) st in
  let st' := applyActions st (handleTraySelect trayId st) in
  (selectedTray (fst r) ≠ selectedTray st →
     ∃ u t ty,
       selectedUnit nozzleCount side st = Some u ∧ tray u !! i = Some t
       ∧ tray_type t = Some ty ∧ ty ≠ "" ∧ ty ≠ "NONE"
       ∧ isPrinting st = false
       ∧ snd r = [setLoadTriggered false; setSelectedTray (selectedTray (fst r))]
       ∧ loadTriggered (fst r) = false)
  ∧ (∀ u t,
       selectedUnit nozzleCount side st = Some u → tray u !! i = Some t →
       isEmpty t = false → isPrinting st = false →
       let g := globalTrayId (unit_id u) (tray_id t) in
       selectedTray (fst r) = (if bool_decide (selectedTray st = Some g)
                               then None else Some g)
       ∧ selectedTray (fst r) ≠ selectedTray st
       ∧ loadTriggered (fst r) = false)
  ∧ selectedTray st' = trayId
  ∧ (trayId ≠ selectedTray st → loadTriggered st' = false)
  ∧ (trayId = selectedTray st → loadTriggered st' = loadTriggered st).
Proof.
  intros r st'.
  assert (∀ v, selectedTray (applyActions st (handleTraySelect v st)) = v
               ∧ (v ≠ selectedTray st →
                  loadTriggered (applyActions st (handleTraySelect v st))
                  = false
                  ∧ handleTraySelect v st
                    = [setLoadTriggered false; setSelectedTray v])
               ∧ (v = selectedTray st →
                  applyActions st (handleTraySelect v st) = st)) as Hselect.
  { intros v. unfold handleTraySelect. destruct st. cbn.
    case_bool_decide; cbn; split_and!; try done. by intros ->. }
  split_and!.
  - subst r. unfold step.
    destruct (selectedUnit nozzleCount side st) as [u |] eqn:Hu; [| done].
    destruct (tray u !! i) as [t |] eqn:Ht; [| done].
    unfold slotOnClick.
    destruct (isEmpty t) eqn:Hempty; [done |].
    destruct (isPrinting st) eqn:Hprinting; [done |].
    cbn [negb andb fst snd]. intros Hchanged.
    unfold isEmpty in Hempty. destruct (tray_type t) as [ty |] eqn:Hty; [| done].
    apply orb_false_elim in Hempty as [Hne1 Hne2].
    apply bool_decide_eq_false in Hne1, Hne2.
    exists u, t, ty. split_and!; try done.
    + destruct (Hselect (if bool_decide
                              (selectedTray st
                               = Some (globalTrayId (unit_id u) (tray_id t)))
                         then None
                         else Some (globalTrayId (unit_id u) (tray_id t))))
        as (Hv & Hne & _).
      rewrite Hv. apply Hne. intros Heq. apply Hchanged. by rewrite Hv.
    + destruct (Hselect (if bool_decide
                              (selectedTray st
                               = Some (globalTrayId (unit_id u) (tray_id t)))
                         then None
                         else Some (globalTrayId (unit_id u) (tray_id t))))
        as (Hv & Hne & _).
      apply Hne. intros Heq. apply Hchanged. by rewrite Hv.
  - intros u t Hu Ht Hempty Hprinting g. subst r. unfold step.
    rewrite Hu, Ht. unfold slotOnClick. rewrite Hempty, Hprinting.
    cbn [negb andb fst snd]. fold g.
    destruct (Hselect (if bool_decide (selectedTray st = Some g)
                       then None else Some g)) as (Hv & Hne & _).
    assert ((if bool_decide (selectedTray st = Some g) then None else Some g)
            ≠ selectedTray st) as Hdiff.
    { case_bool_decide as Hsel; [by rewrite Hsel | congruence]. }
    rewrite Hv. split_and!; [done | done | by apply Hne].
  - apply Hselect.
  - intros Hne. by apply Hselect.
  - intros Heq. subst st'. by rewrite (proj2 (proj2 (Hselect trayId)) Heq).
Qed.

Lemma slot_click_selection_witness :
  let pla := trayWith 1 (Some "PLA") None 50 in
  let u := unitWith 0 [trayWith 0 (Some "NONE") None 0; pla] in
  let st := fst (step 1 1 (Snapshot (routedStatus [u] ∅)) initialSection) in
  let clicked := fst (step 1 1 (ClickSlot LeftPanel 1) st) in
  selectedUnit 1 LeftPanel st = Some u
  ∧ isEmpty pla = false
  ∧ selectedTray clicked = Some 1
  ∧ loadTriggered clicked = false
  ∧ selectedTray (fst (step 1 1 (ClickSlot LeftPanel 0) st)) = None.
Proof.
  intros pla u st clicked.
  destruct (slot_click_selection 1 1 st LeftPanel 1 None)
    as (_ & Hclick & _).
  destruct (Hclick u pla) as (Hsel & _ & Hlt);
    [reflexivity | reflexivity | reflexivity | reflexivity |].
  destruct (slot_click_selection 1 1 st LeftPanel 0 None)
    as (Honly & _).
  split_and!; [reflexivity | reflexivity | exact Hsel | exact Hlt |].
  destruct (decide (selectedTray (fst (step 1 1 (ClickSlot LeftPanel 0) st))
                    = selectedTray st)) as [Heq | Hne]; [exact Heq |].
  destruct (Honly Hne) as (u' & t' & ty & Hu' & Ht' & Hty & _ & Hnone & _).
  vm_compute in Hu'. injection Hu' as <-.
  vm_compute in Ht'. injection Ht' as <-.
  vm_compute in Hty. injection Hty as <-. by destruct Hnone.
Defined.

(** ** Routing and addressing *)

Lemma mod2_cases (r i : nat) :
  (r < 2)%nat →
  ((i mod 2 = r ∧ (r + i) mod 2 = 0 ∧ (r + S i) mod 2 = 1)
   ∨ (i mod 2 ≠ r ∧ (r + i) mod 2 = 1 ∧ (r + S i) mod 2 = 0))%nat.
Proof.
  intros Hr.
  pose proof (Nat.div_mod_eq i 2). pose proof (Nat.mod_upper_bound i 2).
  pose proof (Nat.div_mod_eq (r + i) 2).
  pose proof (Nat.mod_upper_bound (r + i) 2).
  pose proof (Nat.div_mod_eq (r + S i) 2).
  pose proof (Nat.mod_upper_bound (r + S i) 2).
  lia.
Qed.

(** The filter by index parity, read by position: with the head at index
    [i], the [k]-th element kept is the [k]-th of the wanted parity. *)
Lemma filterIndexParity_lookup (r i k : nat) (l : list AMSUnit) :
  (r < 2)%nat →
  filterIndexParity r i l !! k = l !! (2 * k + (r + i) mod 2)%nat.
Proof.
  intros Hr. revert i k. induction l as [| u l IH]; intros i k; [done |].
  cbn [filterIndexParity].
  destruct (mod2_cases r i Hr) as [(Heq & H0 & HS) | (Hne & H1 & HS)].
  - rewrite (proj2 (Nat.eqb_eq _ _) Heq), H0.
    destruct k as [| k]; [done |].
    cbn [lookup list_lookup]. rewrite IH, HS.
    by replace (2 * S k + 0)%nat with (S (2 * k + 1)) by lia.
  - rewrite (proj2 (Nat.eqb_neq _ _) Hne), H1, IH, HS.
    by replace (2 * k + 1)%nat with (S (2 * k + 0)) by lia.
Qed.

Lemma mapReported_true (s : option PrinterStatus) :
  amsExtruderMap s ≠ ∅ → mapReported s = true.
Proof.
  intros Hne. unfold mapReported. apply bool_decide_eq_true.
  apply map_size_non_empty_iff in Hne. lia.
Qed.

Lemma mapReported_false (s : option PrinterStatus) :
  amsExtruderMap s = ∅ → mapReported s = false.
Proof. intros Heq. unfold mapReported. rewrite Heq. done. Qed.

(** C4. Routing of the units. On a single-nozzle machine the left group is
    the whole collection and the right group is empty. On a dual-nozzle
    machine with a non-empty assignment map, the left group holds exactly the
    units whose id maps to 1 and the right group exactly those whose id maps
    to 0, so a unit whose id is absent from the map is in neither group; with
    an empty map the right group is the units at the even indices of the
    snapshot and the left group those at the odd indices, in order. *)
Theorem units_routed_by_map_or_parity
  (nozzleCount : Z) (s : option PrinterStatus) (u : AMSUnit) (k : nat) :
  (nozzleCount ≤ 1 →
     leftUnits nozzleCount s = amsUnits s ∧ rightUnits nozzleCount s = [])
  ∧ (1 < nozzleCount → amsExtruderMap s ≠ ∅ →
     (u ∈ leftUnits nozzleCount s ↔ u ∈ amsUnits s ∧ extruderOf s u = Some 1)
     ∧ (u ∈ rightUnits nozzleCount s
        ↔ u ∈ amsUnits s ∧ extruderOf s u = Some 0)
     ∧ (extruderOf s u = None →
        (u ∉ leftUnits nozzleCount s) ∧ (u ∉ rightUnits nozzleCount s)))
  ∧ (1 < nozzleCount → amsExtruderMap s = ∅ →
     rightUnits nozzleCount s !! k = amsUnits s !! (2 * k)%nat
     ∧ leftUnits nozzleCount s !! k = amsUnits s !! (2 * k + 1)%nat).
Proof.
  unfold leftUnits, rightUnits, isDualNozzle. split_and!.
  - intros Hsingle. destruct (Z.gtb_spec nozzleCount 1); [lia | done].
  - intros Hdual Hmap. destruct (Z.gtb_spec nozzleCount 1); [| lia].
    rewrite (mapReported_true s Hmap). cbn [negb].
    rewrite !list_elem_of_filter. split_and!; [tauto | tauto |].
    intros Hnone. rewrite Hnone. split; intros [? _]; done.
  - intros Hdual Hmap. destruct (Z.gtb_spec nozzleCount 1); [| lia].
    rewrite (mapReported_false s Hmap). cbn [negb].
    rewrite !filterIndexParity_lookup by lia. cbn.
    by rewrite Nat.add_0_r.
Qed.

Lemma units_routed_by_map_or_parity_witness :
  let a := unitWith 0 [] in
  let b := unitWith 1 [] in
  let ht := unitWith 128 [] in
  let mapped := routedStatus [a; b; ht] {[ "0" := 0; "128" := 1 ]} in
  let unmapped := routedStatus [a; b; ht] ∅ in
  leftUnits 1 mapped = [a; b; ht]
  ∧ rightUnits 1 mapped = []
  ∧ ht ∈ leftUnits 2 mapped
  ∧ a ∈ rightUnits 2 mapped
  ∧ (b ∉ leftUnits 2 mapped)
  ∧ (b ∉ rightUnits 2 mapped)
  ∧ rightUnits 2 unmapped !! 1%nat = Some ht
  ∧ leftUnits 2 unmapped !! 0%nat = Some b.
Proof.
  intros a b ht mapped unmapped.
  assert (amsExtruderMap mapped ≠ ∅) as Hmap.
  { intros Hempty.
    assert (amsExtruderMap mapped !! "0" = Some 0) as Hl by reflexivity.
    rewrite Hempty in Hl. discriminate Hl. }
  destruct (units_routed_by_map_or_parity 1 mapped a 0) as (Hsingle & _).
  destruct (units_routed_by_map_or_parity 2 mapped ht 0) as (_ & Hht & _).
  destruct (units_routed_by_map_or_parity 2 mapped a 0) as (_ & Ha & _).
  destruct (units_routed_by_map_or_parity 2 mapped b 0) as (_ & Hb & _).
  destruct (units_routed_by_map_or_parity 2 unmapped a 1) as (_ & _ & Heven).
  destruct (units_routed_by_map_or_parity 2 unmapped a 0) as (_ & _ & Hodd).
  destruct Hsingle as [Hl1 Hr1]; [lia |].
  destruct (Hht ltac:(lia) Hmap) as (Hleft & _ & _).
  destruct (Ha ltac:(lia) Hmap) as (_ & Hright & _).
  destruct (Hb ltac:(lia) Hmap) as (_ & _ & Habsent).
  destruct (Habsent eq_refl) as [Hbl Hbr].
  destruct (Heven ltac:(lia) eq_refl) as [Hr2 _].
  destruct (Hodd ltac:(lia) eq_refl) as [_ Hl2].
  split_and!; [exact Hl1 | exact Hr1 | | | exact Hbl | exact Hbr
              | exact Hr2 | exact Hl2].
  - apply Hleft. split; [| reflexivity].
    apply list_elem_of_lookup. by exists 2%nat.
  - apply Hright. split; [| reflexivity].
    apply list_elem_of_lookup. by exists 0%nat.
Defined.

Lemma slotsInUnit_bound (u : AMSUnit) : 0 < slotsInUnit u ≤ 4.
Proof. unfold slotsInUnit. destruct (unit_id u >=? 128); lia. Qed.

(** The loop finds a unit by its own block when no earlier unit has the
    same id. *)
Lemma findOwningUnit_round_trip (units : list AMSUnit) (u : AMSUnit)
  (slot : Z) :
  NoDup (unit_id <$> units) → u ∈ units → 0 ≤ slot < slotsInUnit u →
  findOwningUnit units (globalTrayId (unit_id u) slot) = Some (u, slot).
Proof.
  intros Hnodup Hin Hslot. unfold globalTrayId.
  pose proof (slotsInUnit_bound u) as Hu.
  induction units as [| v rest IH]; [by apply elem_of_nil in Hin |].
  rewrite fmap_cons in Hnodup. apply NoDup_cons in Hnodup as [Hfresh Hnodup].
  cbn [findOwningUnit]. apply elem_of_cons in Hin as [<- | Hin].
  - replace ((unit_id u * 4 + slot >=? unit_id u * 4)
             && (unit_id u * 4 + slot <? unit_id u * 4 + slotsInUnit u))
      with true by (symmetry; apply andb_true_intro; split; lia).
    f_equal. f_equal. lia.
  - assert (unit_id v ≠ unit_id u) as Hne.
    { intros Heq. apply Hfresh. rewrite Heq.
      by apply list_elem_of_fmap_2. }
    pose proof (slotsInUnit_bound v) as Hv.
    replace ((unit_id u * 4 + slot >=? unit_id v * 4)
             && (unit_id u * 4 + slot <? unit_id v * 4 + slotsInUnit v))
      with false by (symmetry; apply andb_false_iff; lia).
    by apply IH.
Qed.

(** C5. The global tray id round-trips through the inverse lookup. With
    unique unit ids, for a unit of the collection and a local slot index
    below its slot count (2 from id 128 on, 4 otherwise), the loop over the
    collection finds that unit and that slot index for the id
    [unit.id * 4 + slot]; [getExtruderIdForTray] on a dual-nozzle machine
    therefore answers with the extruder of that unit, and
    [getLoadedTrayInfo], when the id is the loaded tray (so not a sentinel)
    and the left panel shows that unit, mapped to extruder 1, reports that
    slot index. *)
Theorem global_tray_id_round_trip
  (nozzleCount : Z) (st : AMSSection) (u : AMSUnit) (slot : Z) :
  let units := amsUnits (status st) in
  let g := globalTrayId (unit_id u) slot in
  NoDup (unit_id <$> units) → u ∈ units → 0 ≤ slot < slotsInUnit u →
  findOwningUnit units g = Some (u, slot)
  ∧ (1 < nozzleCount →
     getExtruderIdForTray nozzleCount (status st) g = extruderOf (status st) u)
  ∧ (status st ≫= tray_now = Some g → g ≠ 255 → g ≠ 254 →
     extruderOf (status st) u = Some 1 →
     selectedUnit nozzleCount LeftPanel st = Some u →
     leftActiveSlot (getLoadedTrayInfo nozzleCount st) = Some slot
     ∧ leftFilamentColor (getLoadedTrayInfo nozzleCount st)
       = (tray u !! Z.to_nat slot) ≫= tray_color).
Proof.
  intros units g Hnodup Hin Hslot.
  pose proof (findOwningUnit_round_trip units u slot Hnodup Hin Hslot)
    as Hfound.
  fold g in Hfound. split_and!; [exact Hfound | |].
  - intros Hdual. unfold getExtruderIdForTray, isDualNozzle.
    destruct (Z.gtb_spec nozzleCount 1); [| lia]. cbn [negb].
    fold units. by rewrite Hfound.
  - intros Hnow H255 H254 Hleft Hshown. unfold getLoadedTrayInfo.
    rewrite Hnow. cbn [default from_option id].
    destruct (Z.eqb_spec g 255); [done |].
    destruct (Z.eqb_spec g 254); [done |]. cbn [orb].
    fold units. rewrite Hfound, Hleft, Hshown.
    rewrite bool_decide_eq_true_2 by done. cbn. by rewrite Z.eqb_refl.
Qed.

Lemma global_tray_id_round_trip_witness :
  let a := unitWith 0 [] in
  let ht := unitWith 128 [] in
  let st := fst (step 1 2
                   (Snapshot (routedStatus [a; ht] {[ "128" := 1 ]}))
                   initialSection) in
  findOwningUnit [a; ht] (globalTrayId 128 1) = Some (ht, 1)
  ∧ getExtruderIdForTray 2 (status st) 513 = Some 1.
Proof.
  intros a ht st.
  destruct (global_tray_id_round_trip 2 st ht 1) as (Hfound & Hext & _).
  - apply (bool_decide_unpack _). vm_compute. exact I.
  - apply list_elem_of_lookup. exists 1%nat. vm_compute. reflexivity.
  - unfold slotsInUnit. cbn. lia.
  - split; [exact Hfound | exact (Hext eq_refl)].
Defined.

(** ** The confirmation gate *)

Lemma jogpad_enabled (status : option PrinterStatus) (disabled : bool)
  (st : JogPad.State) :
  JogPad.isDisabled status disabled st = false →
  Mutation.isPending (JogPad.homeMutation st) = false
  ∧ Mutation.isPending (JogPad.moveMutation st) = false.
Proof.
  unfold JogPad.isDisabled, JogPad.isLoading. intros Hen.
  apply orb_false_elim in Hen as [_ Hen].
  by apply orb_false_elim in Hen.
Qed.

(** C6. Confirmation round trip of the gated commands: the XY move and the
    homing of the jog pad, the extrusion, and the bed move, each from any
    state in which that control is enabled (the jog pad and the bed also
    while the printer works, the extrusion only while it does not). A click
    issues the command without a token; when the answer to that call is
    [ConfirmationRequired] with token [T] and warning [W] the warning is put
    up; approving issues the same call again, equal in every argument (axis,
    distance, feed rate, or G-code text), with [Some T] as its token, and
    takes the warning down; cancelling issues nothing more and leaves the
    control as it was before the click, with no warning and nothing pending.
    The answer, the approval and the cancellation do so whatever the props
    of their renders. *)
Theorem confirmation_round_trip
  (printerId : Z) (status later : option PrinterStatus) (disabled off : bool)
  (axis : string) (distance : Z) (T W : string)
  (jog : JogPad.State) (ext bed : Gate.DistanceState) :
  let asked := Some (ConfirmationRequired T W) in
  let move := moveAxis printerId axis distance 3000 None in
  let home := homeAxes printerId "XY" None in
  let extrude :=
    sendGcode printerId (ExtruderControls.gcode distance) None in
  let bedMove := moveAxis printerId "Z" distance 1000 None in
  let jogRun click es :=
    JogPad.runWith ((status, disabled, click) :: ((λ e, (later, off, e)) <$> es)) jog
  in
  let extRun es :=
    ExtruderControls.runWith
      ((status, disabled, Gate.Click distance) :: ((λ e, (later, off, e)) <$> es))
      ext in
  let bedRun es :=
    BedControls.runWith
      ((status, disabled, Gate.Click distance) :: ((λ e, (later, off, e)) <$> es))
      bed in
  (JogPad.isDisabled status disabled jog = false →
   (let click := JogPad.ClickMove axis distance in
    JogPad.warning <$> JogPad.confirmModal
      (fst (jogRun click [JogPad.MoveSettled 0 asked]))
    = Some W
    ∧ JogPad.issued printerId
        (snd (jogRun click [JogPad.MoveSettled 0 asked; JogPad.Confirm]))
      = [move; withToken T move]
    ∧ JogPad.confirmModal
        (fst (jogRun click [JogPad.MoveSettled 0 asked; JogPad.Confirm]))
      = None
    ∧ JogPad.issued printerId
        (snd (jogRun click [JogPad.MoveSettled 0 asked; JogPad.Cancel]))
      = [move]
    ∧ fst (jogRun click [JogPad.MoveSettled 0 asked; JogPad.Cancel])
      = jogWithoutModal jog
    ∧ JogPad.isLoading (jogWithoutModal jog) = false)
   ∧ (let click := JogPad.ClickHome in
      JogPad.warning <$> JogPad.confirmModal
        (fst (jogRun click [JogPad.HomeSettled 0 asked]))
      = Some W
      ∧ JogPad.issued printerId
          (snd (jogRun click [JogPad.HomeSettled 0 asked; JogPad.Confirm]))
        = [home; withToken T home]
      ∧ JogPad.confirmModal
          (fst (jogRun click [JogPad.HomeSettled 0 asked; JogPad.Confirm]))
        = None
      ∧ JogPad.issued printerId
          (snd (jogRun click [JogPad.HomeSettled 0 asked; JogPad.Cancel]))
        = [home]
      ∧ fst (jogRun click [JogPad.HomeSettled 0 asked; JogPad.Cancel])
        = jogWithoutModal jog))
  ∧ (ExtruderControls.isDisabled status disabled ext = false →
     Gate.warning <$> Gate.confirmModal
       (fst (extRun [Gate.Settled 0 asked])) = Some W
     ∧ ExtruderControls.issued printerId
         (snd (extRun [Gate.Settled 0 asked; Gate.Confirm]))
       = [extrude; withToken T extrude]
     ∧ Gate.confirmModal (fst (extRun [Gate.Settled 0 asked; Gate.Confirm]))
       = None
     ∧ ExtruderControls.issued printerId
         (snd (extRun [Gate.Settled 0 asked; Gate.Cancel]))
       = [extrude]
     ∧ fst (extRun [Gate.Settled 0 asked; Gate.Cancel]) = gateWithoutModal ext
     ∧ Mutation.isPending (Gate.mutation (gateWithoutModal ext)) = false)
  ∧ (BedControls.isDisabled status disabled bed = false →
     Gate.warning <$> Gate.confirmModal
       (fst (bedRun [Gate.Settled 0 asked])) = Some W
     ∧ BedControls.issued printerId
         (snd (bedRun [Gate.Settled 0 asked; Gate.Confirm]))
       = [bedMove; withToken T bedMove]
     ∧ Gate.confirmModal (fst (bedRun [Gate.Settled 0 asked; Gate.Confirm]))
       = None
     ∧ BedControls.issued printerId
         (snd (bedRun [Gate.Settled 0 asked; Gate.Cancel]))
       = [bedMove]
     ∧ fst (bedRun [Gate.Settled 0 asked; Gate.Cancel]) = gateWithoutModal bed
     ∧ Mutation.isPending (Gate.mutation (gateWithoutModal bed)) = false).
Proof.
  intros asked move home extrude bedMove jogRun extRun bedRun.
  subst jogRun extRun bedRun. split; [| split].
  - intros Hjog.
    destruct (jogpad_enabled status disabled jog Hjog) as [Hh Hm].
    destruct jog as [modal [hs hp] [ms mp]]. cbn in Hh, Hm. subst hp mp.
    cbn [fmap list_fmap JogPad.runWith].
    unfold JogPad.step, JogPad.handleMove, JogPad.handleHome.
    rewrite Hjog. cbn. done.
  - intros Hext.
    unfold ExtruderControls.runWith, ExtruderControls.withProps.
    cbn [fmap list_fmap Gate.distanceRunWith]. unfold Gate.distanceStep.
    rewrite Hext. unfold ExtruderControls.isDisabled in Hext.
    apply orb_false_elim in Hext as [_ Hp].
    destruct ext as [modal [vs p]]. cbn in Hp. subst p. cbn. done.
  - intros Hbed.
    unfold BedControls.runWith, BedControls.withProps.
    cbn [fmap list_fmap Gate.distanceRunWith]. unfold Gate.distanceStep.
    rewrite Hbed. unfold BedControls.isDisabled in Hbed.
    apply orb_false_elim in Hbed as [_ Hp].
    destruct bed as [modal [vs p]]. cbn in Hp. subst p. cbn. done.
Qed.

Lemma confirmation_round_trip_witness :
  let resting := statusWith None None in
  let asked := Some (ConfirmationRequired "T" "W") in
  JogPad.isDisabled runningStatus false idleJog = false
  ∧ JogPad.issued 7
      (snd (JogPad.runWith
              [(runningStatus, false, JogPad.ClickMove "X" 10);
               (None, true, JogPad.MoveSettled 0 asked);
               (None, true, JogPad.Confirm)] idleJog))
    = [moveAxis 7 "X" 10 3000 None; moveAxis 7 "X" 10 3000 (Some "T")]
  ∧ BedControls.isDisabled runningStatus false idleGate = false
  ∧ BedControls.issued 7
      (snd (BedControls.runWith
              [(runningStatus, false, Gate.Click 10);
               (None, true, Gate.Settled 0 asked);
               (None, true, Gate.Confirm)] idleGate))
    = [moveAxis 7 "Z" 10 1000 None; moveAxis 7 "Z" 10 1000 (Some "T")]
  ∧ ExtruderControls.isDisabled runningStatus false idleGate = true
  ∧ ExtruderControls.isDisabled resting false idleGate = false
  ∧ ExtruderControls.issued 7
      (snd (ExtruderControls.runWith
              [(resting, false, Gate.Click 10);
               (None, true, Gate.Settled 0 asked);
               (None, true, Gate.Cancel)] idleGate))
    = [sendGcode 7 (ExtruderControls.gcode 10) None].
Proof.
  intros resting asked.
  destruct (confirmation_round_trip 7 runningStatus None false true "X" 10
              "T" "W" idleJog idleGate idleGate) as (Hjog & _ & Hbed).
  destruct (confirmation_round_trip 7 resting None false true "X" 10 "T" "W"
              idleJog idleGate idleGate) as (_ & Hext & _).
  destruct (Hjog eq_refl) as ((_ & Hmove & _) & _).
  destruct (Hbed eq_refl) as (_ & Hbedmove & _).
  destruct (Hext eq_refl) as (_ & _ & _ & Hcancel & _).
  split_and!; [reflexivity | exact Hmove | reflexivity | exact Hbedmove
              | reflexivity | reflexivity | exact Hcancel].
Defined.

(** ** The extrusion command text *)

Lemma append_cons (x : ascii) (a b : string) :
  String x a +:+ b = String x (a +:+ b).
Proof. reflexivity. Qed.

Lemma append_assoc (a b c : string) : (a +:+ b) +:+ c = a +:+ (b +:+ c).
Proof.
  induction a as [| x a IH]; [done |]. by rewrite !append_cons, IH.
Qed.

Lemma occursIn_app (c : ascii) (a b : string) :
  occursIn c (a +:+ b) = occursIn c a || occursIn c b.
Proof.
  induction a as [| x a IH]; [done |].
  rewrite append_cons. cbn [occursIn]. by rewrite IH, orb_assoc.
Qed.

Lemma lines_single (a : string) : occursIn LF a = false → lines a = [a].
Proof.
  induction a as [| x a IH]; [done |]. cbn [occursIn lines].
  intros Hno. apply orb_false_elim in Hno as [Hx Ha].
  by rewrite Hx, (IH Ha).
Qed.

Lemma lines_before_LF (a b : string) :
  occursIn LF a = false → lines (a +:+ String LF b) = a :: lines b.
Proof.
  induction a as [| x a IH]; [done |].
  rewrite append_cons. cbn [occursIn lines].
  intros Hno. apply orb_false_elim in Hno as [Hx Ha].
  by rewrite Hx, (IH Ha).
Qed.

(** The decimal text of an integer holds digits and a sign only. *)
Lemma numberToString_no_LF (n : Z) : occursIn LF (numberToString n) = false.
Proof.
  assert (∀ d, occursIn LF (NilEmpty.string_of_uint d) = false) as Hdigits.
  { induction d; cbn [NilEmpty.string_of_uint occursIn]; [done | ..];
      by rewrite IHd. }
  assert (∀ d, occursIn LF (NilZero.string_of_uint d) = false) as Huint.
  { intros d. unfold NilZero.string_of_uint. destruct d; try apply Hdigits.
    done. }
  unfold numberToString, NilZero.string_of_int.
  destruct (Z.to_int n); [apply Huint |].
  cbn [occursIn]. by rewrite Huint.
Qed.

(** C7. The text of the extrusion command for a distance [d] is exactly
    three lines: the relative-mode marker [G91], the one move [G1 E<d> F300]
    of [d] units at feed rate 300, and the absolute-mode marker [G90]; for 5
    it is [G91], [G1 E5 F300], [G90], and for -5 the move retracts. It is
    sent without a token. *)
Theorem extrude_gcode_three_lines (printerId distance : Z) :
  lines (ExtruderControls.gcode distance)
  = ["G91"; "G1 E" +:+ numberToString distance +:+ " F300"; "G90"]
  ∧ ExtruderControls.gcode 5
    = "G91" +:+ String LF ("G1 E5 F300" +:+ String LF "G90")
  ∧ lines (ExtruderControls.gcode 5) = ["G91"; "G1 E5 F300"; "G90"]
  ∧ lines (ExtruderControls.gcode (-5)) = ["G91"; "G1 E-5 F300"; "G90"]
  ∧ ExtruderControls.issued printerId
      (ExtruderControls.handleExtrude distance)
    = [sendGcode printerId (ExtruderControls.gcode distance) None].
Proof.
  split_and!; try reflexivity.
  unfold ExtruderControls.gcode.
  rewrite (lines_before_LF "G91") by reflexivity.
  replace ("G1 E" +:+ numberToString distance +:+ " F300" +:+ String LF "G90")
    with (("G1 E" +:+ numberToString distance +:+ " F300")
          +:+ String LF "G90")
    by (by rewrite !append_assoc).
  rewrite lines_before_LF.
  - by rewrite lines_single by reflexivity.
  - rewrite !occursIn_app, numberToString_no_LF. reflexivity.
Qed.

(** ** Fallback rendering of missing telemetry *)

(** A channel is never printed as 0: [NaN] and 0 both give way to 128. *)
Lemma numberOr_nonzero (n : option Z) (d : Z) : d ≠ 0 → numberOr n d ≠ 0.
Proof.
  intros Hd. unfold numberOr. destruct n as [v |]; [| done].
  by destruct (Z.eqb_spec v 0).
Qed.

(** The claim C8 as it stands fails twice. A colour that does not parse as
    a whole is not rendered gray: of [FF00zz] only the blue channel is not a
    number, and it renders as [rgb(255, 128, 128)]. And for an empty slot
    with a null unique-id the fill bar is hidden, but no full-colour
    background is drawn in its place; the slot shows the striped pattern. *)
Lemma telemetry_fallback_counterexample :
  ¬ (∀ hex : string,
       None ∈ colorChannels hex →
       hexToRgb (Some hex) = "rgb(128, 128, 128)")
  ∧ ¬ (∀ t : AMSTray,
         tray_uuid t = None ∨ remain t < 0 →
         existsb isFillLevel (slotLayers t) = false
         ∧ existsb isFullColor (slotLayers t) = true).
Proof.
  split; intros Hclaim.
  - assert (None ∈ colorChannels "FF00zz") as Hbad
      by (vm_compute; repeat constructor).
    specialize (Hclaim "FF00zz" Hbad). vm_compute in Hclaim.
    discriminate Hclaim.
  - destruct (Hclaim (trayWith 0 (Some "") None (-1)) (or_introl eq_refl))
      as [_ Hfull].
    vm_compute in Hfull. discriminate Hfull.
Qed.

(** C8, amended. Missing telemetry renders as a fallback. A null or empty
    colour, and a colour none of whose three channels parses as a
    hexadecimal number, render as [rgb(128, 128, 128)]. A tray with a null
    unique-id or a negative remaining quantity never gets the fill bar: when
    it is not empty its only layer is the full-colour background, and when it
    is empty its only layer is the striped pattern. The rendering functions
    are defined on every input: every colour, null included, renders as a
    text [rgb(r, g, b)] of three integers none of which is 0, and every tray
    gets exactly one of the three layers. *)
Theorem malformed_telemetry_fallbacks (hex : string) (color : option string)
  (t : AMSTray) :
  hexToRgb None = "rgb(128, 128, 128)"
  ∧ hexToRgb (Some "") = "rgb(128, 128, 128)"
  ∧ (unparseableColor hex → hexToRgb (Some hex) = "rgb(128, 128, 128)")
  ∧ (∃ r g b, hexToRgb color = rgb r g b ∧ r ≠ 0 ∧ g ≠ 0 ∧ b ≠ 0)
  ∧ (∃ layer, slotLayers t = [layer])
  ∧ (tray_uuid t = None ∨ remain t < 0 →
     existsb isFillLevel (slotLayers t) = false
     ∧ (isEmpty t = false →
        slotLayers t = [FullColor (hexToRgb (tray_color t))])
     ∧ (isEmpty t = true → slotLayers t = [Striped])).
Proof.
  split_and!; [reflexivity | reflexivity | | | |].
  - intros (Hr & Hg & Hb). destruct hex as [| c hex]; [reflexivity |].
    unfold hexToRgb. rewrite Hr, Hg, Hb. reflexivity.
  - destruct color as [[| c hex'] |];
      [by exists 128, 128, 128 | | by exists 128, 128, 128].
    unfold hexToRgb. eexists _, _, _. split; [reflexivity |].
    split_and!; by apply numberOr_nonzero.
  - unfold slotLayers.
    destruct (isEmpty t), (truthy (tray_uuid t)),
      (Z.ltb_spec (remain t) 0), (Z.geb_spec (remain t) 0);
      cbn; try lia; by eexists.
  - intros Hmissing. unfold slotLayers.
    assert (truthy (tray_uuid t) && (remain t >=? 0) = false) as Hfill.
    { destruct Hmissing as [-> | Hneg]; [done |].
      apply andb_false_iff. right. rewrite Z.geb_leb. by apply Z.leb_gt. }
    assert (negb (truthy (tray_uuid t)) || (remain t <? 0) = true) as Hfull.
    { destruct Hmissing as [-> | Hneg]; [done |].
      apply orb_true_iff. right. by apply Z.ltb_lt. }
    rewrite <- andb_assoc, Hfill, Hfull, andb_false_r, andb_true_r.
    destruct (isEmpty t); cbn; done.
Qed.

Lemma malformed_telemetry_fallbacks_witness :
  let spool := trayWith 2 (Some "PLA") None 40 in
  let nbsp := String (ascii_of_N 160) "F" in
  unparseableColor "#zzzzzz"
  ∧ hexToRgb (Some "#zzzzzz") = "rgb(128, 128, 128)"
  ∧ hexToRgb (Some (nbsp +:+ nbsp +:+ nbsp)) = "rgb(15, 15, 15)"
  ∧ tray_uuid spool = None
  ∧ slotLayers spool = [FullColor "rgb(255, 128, 128)"]
  ∧ slotLayers (trayWith 3 (Some "NONE") (Some "A1") (-1)) = [Striped].
Proof.
  intros spool nbsp.
  assert (unparseableColor "#zzzzzz") as Hbad
    by (vm_compute; split_and!; reflexivity).
  destruct (malformed_telemetry_fallbacks "#zzzzzz" None spool)
    as (_ & _ & Hgray & _ & _ & Hspool).
  destruct (malformed_telemetry_fallbacks "#zzzzzz" None
              (trayWith 3 (Some "NONE") (Some "A1") (-1)))
    as (_ & _ & _ & _ & _ & Hempty).
  destruct (Hspool (or_introl eq_refl)) as (_ & Hfull & _).
  destruct (Hempty (or_intror (eq_refl : (-1 ?= 0) = Lt)))
    as (_ & _ & Hstripes).
  split_and!; [exact Hbad | exact (Hgray Hbad) | reflexivity | reflexivity
              | exact (Hfull eq_refl) | exact (Hstripes eq_refl)].
Defined.

(** * Further properties *)

(** ** The inverse lookup, read backwards *)

(** What the loop returns is a member of the collection together with a
    slot index of that unit, and the pair encodes back to the tray id. *)
Lemma findOwningUnit_found (units : list AMSUnit) (trayId : Z)
  (u : AMSUnit) (slot : Z) :
  findOwningUnit units trayId = Some (u, slot) →
  u ∈ units ∧ 0 ≤ slot < slotsInUnit u
  ∧ globalTrayId (unit_id u) slot = trayId.
Proof.
  induction units as [| v rest IH]; [done |].
  cbn [findOwningUnit].
  destruct (Z.geb_spec trayId (unit_id v * 4)) as [Hlo | Hlo];
    destruct (Z.ltb_spec trayId (unit_id v * 4 + slotsInUnit v))
      as [Hhi | Hhi]; cbn [andb].
  - intros [= <- <-].
    split_and!; [apply elem_of_cons; by left | lia | lia |].
    unfold globalTrayId. lia.
  - intros (Hin & Hslot & Henc)%IH.
    split_and!; [apply elem_of_cons; by right | lia | lia | done].
  - intros (Hin & Hslot & Henc)%IH.
    split_and!; [apply elem_of_cons; by right | lia | lia | done].
  - intros (Hin & Hslot & Henc)%IH.
    split_and!; [apply elem_of_cons; by right | lia | lia | done].
Qed.

(** X1. What the lookup loop finds is right, and it misses nothing: a
    found unit is a member of the collection, the slot index lies within
    the unit's slot count and the pair encodes back to the tray id; when
    nothing is found, the id lies in the block of no unit. *)
Theorem owning_unit_lookup_sound (units : list AMSUnit) (trayId : Z) :
  match findOwningUnit units trayId with
  | Some (u, slot) =>
      u ∈ units ∧ 0 ≤ slot < slotsInUnit u
      ∧ globalTrayId (unit_id u) slot = trayId
  | None =>
      ∀ u, u ∈ units →
           trayId < unit_id u * 4 ∨ unit_id u * 4 + slotsInUnit u ≤ trayId
  end.
Proof.
  destruct (findOwningUnit units trayId) as [[u slot] |] eqn:Hfind;
    [by apply findOwningUnit_found |].
  induction units as [| v rest IH]; [by intros u Hu%elem_of_nil |].
  cbn [findOwningUnit] in Hfind.
  destruct (Z.geb_spec trayId (unit_id v * 4)) as [Hlo | Hlo];
    destruct (Z.ltb_spec trayId (unit_id v * 4 + slotsInUnit v))
      as [Hhi | Hhi]; cbn [andb] in Hfind; [done | | |];
    intros u [-> | Hu]%elem_of_cons; first [lia | by apply IH].
Qed.

(** ** Wire colouring *)

(** X2. The highlight of the wiring is sound. At most one side has an
    active slot, and a side has a colour only with a slot. When a side
    reports slot [k], the loaded tray is no sentinel, the unit shown in that
    panel owns it ([tray_now] is its id times 4 plus [k]), [k] is below the
    slot count of the layout drawn for that panel (2 for an HT panel, else 4,
    so the slot position read by the wiring layer exists), and the owning
    unit maps to extruder 1 exactly on the left. *)
Theorem loaded_tray_highlight_sound (nozzleCount : Z) (st : AMSSection) :
  let info := getLoadedTrayInfo nozzleCount st in
  let owns side k :=
    ∃ u, selectedUnit nozzleCount side st = Some u
         ∧ status st ≫= tray_now = Some (globalTrayId (unit_id u) k)
         ∧ globalTrayId (unit_id u) k ≠ 255
         ∧ globalTrayId (unit_id u) k ≠ 254
         ∧ 0 ≤ k < (if panelIsHT nozzleCount side st then 2 else 4)
         ∧ (panelIsHT nozzleCount side st = false →
            is_Some (slotX side !! Z.to_nat k))
         ∧ (extruderOf (status st) u = Some 1 ↔ side = LeftPanel) in
  (leftActiveSlot info = None ∨ rightActiveSlot info = None)
  ∧ (leftActiveSlot info = None → leftFilamentColor info = None)
  ∧ (rightActiveSlot info = None → rightFilamentColor info = None)
  ∧ (∀ k, leftActiveSlot info = Some k → owns LeftPanel k)
  ∧ (∀ k, rightActiveSlot info = Some k → owns RightPanel k).
Proof.
  intros info owns. subst info. unfold getLoadedTrayInfo.
  destruct (status st ≫= tray_now) as [trayNow |] eqn:Hnow;
    cbn [default from_option id]; [| by split_and!; auto].
  destruct (Z.eqb_spec trayNow 255) as [| H255]; [by split_and!; auto |].
  destruct (Z.eqb_spec trayNow 254) as [| H254]; [by split_and!; auto |].
  cbn [orb].
  destruct (findOwningUnit (amsUnits (status st)) trayNow)
    as [[u slot] |] eqn:Hfound; [| by split_and!; auto].
  apply findOwningUnit_found in Hfound as (_ & Hslot & Henc).
  assert (∀ side c, selectedUnit nozzleCount side st = Some c →
            (unit_id c =? unit_id u) = true →
            (extruderOf (status st) u = Some 1 ↔ side = LeftPanel) →
            owns side slot) as Howns.
  { intros side c Hc Hid%Z.eqb_eq Hside. exists c.
    assert (panelIsHT nozzleCount side st = isAmsHT (unit_id u)) as Hht
      by (unfold panelIsHT; rewrite Hc; cbn; by rewrite Hid).
    assert (extruderOf (status st) c = extruderOf (status st) u) as Hext
      by (unfold extruderOf; by rewrite Hid).
    rewrite Hid, Henc, Hht, Hext.
    change (slotsInUnit u) with (if isAmsHT (unit_id u) then 2 else 4)
      in Hslot.
    split_and!; try done; try lia.
    intros Hreg. rewrite Hreg in Hslot. apply lookup_lt_is_Some.
    destruct side; cbn; lia. }
  case_bool_decide as Hext.
  - destruct (selectedUnit nozzleCount LeftPanel st) as [c |] eqn:Hc;
      cbn [fmap option_fmap option_map default from_option id];
      [| by split_and!; auto].
    destruct (unit_id c =? unit_id u) eqn:Hid; cbn; [| by split_and!; auto].
    split_and!; auto; try done.
    intros k [= <-]. by apply (Howns LeftPanel c).
  - destruct (selectedUnit nozzleCount RightPanel st) as [c |] eqn:Hc;
      cbn [fmap option_fmap option_map default from_option id];
      [| by split_and!; auto].
    destruct (unit_id c =? unit_id u) eqn:Hid; cbn; [| by split_and!; auto].
    split_and!; auto; try done.
    intros k [= <-]. apply (Howns RightPanel c); [done | done |].
    split; [done | discriminate].
Qed.

Lemma owning_unit_lookup_sound_witness :
  let a := unitWith 0 [] in
  let ht := unitWith 128 [] in
  findOwningUnit [a; ht] 513 = Some (ht, 1)
  ∧ ht ∈ [a; ht]
  ∧ findOwningUnit [a; ht] 514 = None
  ∧ (514 < unit_id ht * 4 ∨ unit_id ht * 4 + slotsInUnit ht ≤ 514).
Proof.
  intros a ht.
  pose proof (owning_unit_lookup_sound [a; ht] 513) as Hfound.
  pose proof (owning_unit_lookup_sound [a; ht] 514) as Hmissing.
  change (findOwningUnit [a; ht] 513) with (Some (ht, 1)) in Hfound.
  change (findOwningUnit [a; ht] 514) with (@None (AMSUnit * Z)) in Hmissing.
  cbn beta iota in Hfound, Hmissing.
  destruct Hfound as (Hin & _ & _).
  split_and!; [reflexivity | exact Hin | reflexivity | exact (Hmissing ht Hin)].
Defined.

Lemma loaded_tray_highlight_sound_witness :
  let ht := unitWith 128 [trayWith 0 (Some "PLA") None 10;
                          trayWith 1 (Some "ABS") None 20] in
  let st := fst (step 1 2
                   (Snapshot
                      (Some {| connected := true; state := "IDLE";
                               stg_cur := None; tray_now := Some 513;
                               ams := Some [unitWith 0 []; ht];
                               ams_extruder_map :=
                                 Some {[ "0" := 0; "128" := 1 ]} |}))
                   initialSection) in
  leftActiveSlot (getLoadedTrayInfo 2 st) = Some 1
  ∧ selectedUnit 2 LeftPanel st = Some ht
  ∧ panelIsHT 2 LeftPanel st = true.
Proof.
  intros ht st.
  destruct (loaded_tray_highlight_sound 2 st) as (_ & _ & _ & Hleft & _).
  assert (leftActiveSlot (getLoadedTrayInfo 2 st) = Some 1) as Hslot
    by (vm_compute; reflexivity).
  destruct (Hleft 1 Hslot) as (u & Hu & _).
  split_and!; [exact Hslot | | vm_compute; reflexivity].
  rewrite Hu. vm_compute in Hu. injection Hu as <-. reflexivity.
Defined.

Lemma unit_ids_differ (units : list AMSUnit) (i j : nat) (a b : AMSUnit) :
  NoDup (unit_id <$> units) → units !! i = Some a → units !! j = Some b →
  i ≠ j → unit_id a ≠ unit_id b.
Proof.
  intros Hnodup Ha Hb Hij Hid. apply Hij.
  apply (NoDup_lookup (unit_id <$> units) i j (unit_id a)); [done | |].
  - by rewrite list_lookup_fmap, Ha.
  - by rewrite list_lookup_fmap, Hb, Hid.
Qed.

(** X3. The positional fallback and the wire colouring disagree. On a
    dual-nozzle machine with an empty assignment map and unique unit ids, a
    unit at an odd index is shown in the left panel, but when the loaded tray
    belongs to it no slot and no colour is highlighted on either side,
    whichever tabs are selected: the colouring treats every unit that is not
    mapped to extruder 1 as a right-hand unit. A unit at an even index is
    highlighted on the right when its tab is the selected one. *)
Theorem fallback_left_unit_never_highlighted
  (nozzleCount : Z) (st : AMSSection) (u : AMSUnit) (i : nat) (slot : Z) :
  let units := amsUnits (status st) in
  let info := getLoadedTrayInfo nozzleCount st in
  1 < nozzleCount → amsExtruderMap (status st) = ∅ →
  NoDup (unit_id <$> units) → 0 ≤ slot < slotsInUnit u →
  status st ≫= tray_now = Some (globalTrayId (unit_id u) slot) →
  (units !! (2 * i + 1)%nat = Some u →
     leftUnits nozzleCount (status st) !! i = Some u ∧ info = noLoadedTray)
  ∧ (units !! (2 * i)%nat = Some u → rightAmsIndex st = i →
     globalTrayId (unit_id u) slot ≠ 255 →
     globalTrayId (unit_id u) slot ≠ 254 →
     rightActiveSlot info = Some slot ∧ leftActiveSlot info = None).
Proof.
  intros units info Hdual Hmap Hnodup Hslot Hnow.
  assert (isDualNozzle nozzleCount = true) as Hd
    by (unfold isDualNozzle; apply Z.gtb_lt; lia).
  assert (∀ k, rightUnits nozzleCount (status st) !! k
               = units !! (2 * k)%nat) as Hright.
  { intros k. unfold rightUnits. rewrite Hd, (mapReported_false _ Hmap).
    cbn [negb]. rewrite filterIndexParity_lookup by lia.
    cbn. by rewrite Nat.add_0_r. }
  assert (∀ k, leftUnits nozzleCount (status st) !! k
               = units !! (2 * k + 1)%nat) as Hleft.
  { intros k. unfold leftUnits. rewrite Hd, (mapReported_false _ Hmap).
    cbn [negb]. by rewrite filterIndexParity_lookup by lia. }
  assert (extruderOf (status st) u = None) as Hext
    by (unfold extruderOf; by rewrite Hmap, lookup_empty).
  assert (∀ j, units !! j = Some u →
     info = if (globalTrayId (unit_id u) slot =? 255)
               || (globalTrayId (unit_id u) slot =? 254)
            then noLoadedTray
            else let shown :=
                   default false
                     ((λ c, unit_id c =? unit_id u)
                        <$> selectedUnit nozzleCount RightPanel st) in
                 {| leftActiveSlot := None;
                    rightActiveSlot := if shown then Some slot else None;
                    leftFilamentColor := None;
                    rightFilamentColor :=
                      if shown
                      then (tray u !! Z.to_nat slot) ≫= tray_color
                      else None |}) as Hinfo.
  { intros j Hj. subst info. unfold getLoadedTrayInfo.
    rewrite Hnow. cbn [default from_option id].
    destruct ((globalTrayId (unit_id u) slot =? 255)
              || (globalTrayId (unit_id u) slot =? 254)); [done |].
    fold units. rewrite (findOwningUnit_round_trip units u slot); try done.
    - by rewrite Hext, bool_decide_eq_false_2.
    - apply list_elem_of_lookup. eauto. }
  split.
  - intros Hu. split; [by rewrite Hleft |]. rewrite (Hinfo _ Hu).
    destruct ((globalTrayId (unit_id u) slot =? 255)
              || (globalTrayId (unit_id u) slot =? 254)); [done |].
    unfold selectedUnit, panelUnits. rewrite Hright.
    destruct (units !! (2 * rightAmsIndex st)%nat) as [c |] eqn:Hc; [| done].
    cbn. replace (unit_id c =? unit_id u) with false; [done |].
    symmetry. apply Z.eqb_neq.
    apply (unit_ids_differ units (2 * rightAmsIndex st) (2 * i + 1));
      [done | done | done | lia].
  - intros Hu Hidx H255 H254. rewrite (Hinfo _ Hu).
    destruct (Z.eqb_spec (globalTrayId (unit_id u) slot) 255); [done |].
    destruct (Z.eqb_spec (globalTrayId (unit_id u) slot) 254); [done |].
    cbn [orb]. unfold selectedUnit, panelUnits.
    rewrite Hright, Hidx, Hu. cbn. by rewrite Z.eqb_refl.
Qed.

Lemma fallback_left_unit_never_highlighted_witness :
  let b := unitWith 1 [] in
  let st := fst (step 1 2
                   (Snapshot
                      (Some {| connected := true; state := "IDLE";
                               stg_cur := None; tray_now := Some 6;
                               ams := Some [unitWith 0 []; b];
                               ams_extruder_map := None |}))
                   initialSection) in
  leftUnits 2 (status st) !! 0%nat = Some b
  ∧ status st ≫= tray_now = Some (globalTrayId 1 2)
  ∧ getLoadedTrayInfo 2 st = noLoadedTray.
Proof.
  intros b st.
  destruct (fallback_left_unit_never_highlighted 2 st b 0 2) as [Hodd _].
  - lia.
  - reflexivity.
  - apply (bool_decide_unpack _). vm_compute. exact I.
  - unfold slotsInUnit. cbn. lia.
  - reflexivity.
  - destruct (Hodd eq_refl) as [Hshown Hnone].
    split_and!; [exact Hshown | reflexivity | exact Hnone].
Defined.

(** ** Load and unload requests *)

Section FilamentRequests.

Variable printerId : Z.
Variable nozzleCount : Z.

Local Opaque stageOf isFilamentChangeStage.

(** A snapshot issues no command and leaves the request flags and the
    load-triggered flag's truth alone. *)
Lemma receiveStatus_requests s st :
  issuedCalls (snd (receiveStatus s st)) = []
  ∧ loadPending (fst (receiveStatus s st)) = loadPending st
  ∧ unloadPending (fst (receiveStatus s st)) = unloadPending st
  ∧ (loadTriggered st = true →
     loadTriggered (fst (receiveStatus s st)) = true).
Proof.
  destruct st.
  unfold receiveStatus, runSyncEffect, runStageEffect, initialSyncEffect,
    stageEffect, isMqttFilamentChangeActive, currentStage.
  cbn [fst snd withStatus withSyncDeps withStageDeps withPrevStage
       withInitialSyncDone applyActions applyAction foldl app status
       stageDeps syncDeps prevStageRef userFilamentChange initialSyncDone
       selectedTray loadTriggered loadPending unloadPending].
  repeat first [ progress simplify_eq/= | case_bool_decide | case_match ];
    done.
Qed.

(** X4. At most one filament request is in flight: in every state reached
    from the first render, the load and the unload mutation are never pending
    together, because both buttons are disabled while either is. *)
Theorem one_filament_request_in_flight (es : list Event) :
  let st := fst (run printerId nozzleCount es initialSection) in
  loadPending st && unloadPending st = false.
Proof.
  assert (∀ e st, loadPending st && unloadPending st = false →
            loadPending (fst (step printerId nozzleCount e st))
            && unloadPending (fst (step printerId nozzleCount e st)) = false)
    as Hstep.
  { intros e st Hinv. destruct e as [s | [] i | side i | | | ok | ok | side i].
    - rewrite step_Snapshot.
      destruct (receiveStatus_requests s st) as (_ & -> & -> & _). done.
    - by destruct st.
    - by destruct st.
    - unfold step.
      destruct (selectedUnit _ _ _) as [u |]; [| done].
      destruct (tray u !! i) as [t |]; [| done].
      unfold slotOnClick, handleTraySelect.
      destruct (negb (isEmpty t) && negb (isPrinting st)); [| done].
      destruct st; cbn in *. repeat case_bool_decide; done.
    - unfold step. destruct (loadDisabled st) eqn:Hdis; [done |].
      unfold loadDisabled, isLoading in Hdis.
      apply orb_false_elim in Hdis as [Hdis _].
      apply orb_false_elim in Hdis as [_ Hidle].
      apply orb_false_elim in Hidle as [Hl Hu].
      unfold handleLoad. destruct st as [? ? ? [sel |] ? ? ? ? ? ? ? ?];
        cbn in *; by subst.
    - unfold step. destruct (unloadDisabled st) eqn:Hdis; [done |].
      unfold unloadDisabled, isLoading in Hdis.
      apply orb_false_elim in Hdis as [Hdis _].
      apply orb_false_elim in Hdis as [_ Hidle].
      apply orb_false_elim in Hidle as [Hl Hu].
      destruct st; cbn in *; by subst.
    - unfold step. destruct (loadPending st) eqn:Hp;
        [| by cbn; rewrite Hp].
      destruct st, ok; cbn in *; done.
    - unfold step. destruct (unloadPending st) eqn:Hp;
        [| by cbn; rewrite Hp, andb_false_r].
      destruct st, ok; cbn in *; subst; by rewrite ?andb_false_r.
    - unfold step.
      destruct (selectedUnit _ _ _) as [u |]; [| done].
      destruct (tray u !! i) as [t |]; [| done]. by destruct st. }
  intros st. subst st.
  assert (∀ st0, loadPending st0 && unloadPending st0 = false →
            loadPending (fst (run printerId nozzleCount es st0))
            && unloadPending (fst (run printerId nozzleCount es st0)) = false)
    as Hrun.
  { induction es as [| e es' IH]; intros st0 Hinv; [done |].
    rewrite run_cons. apply IH. by apply Hstep. }
  by apply Hrun.
Qed.

(** X5. A filament command is only ever sent from an enabled button, and
    the only other command of the section is the refresh of a tray. If an
    event makes the section issue a call, then either the event is a click
    on Load or Unload, the printer is connected and not running, no load or
    unload is pending, and the call is the load of the tray selected at that
    moment, with the extruder looked up for it, sent while load-triggered is
    false, or the unload, sent while load-triggered is true; or the event is
    a click on the label of a slot of the unit a panel shows and the call is
    the refresh of that tray. The refresh is sent in every state, connected
    or not, printing or not, and changes no cell. Snapshots, slot clicks,
    tab changes and settled mutations issue nothing. *)
Theorem filament_call_only_when_enabled (e : Event) (st : AMSSection)
  (c : ApiCall) :
  (c ∈ issuedCalls (snd (step printerId nozzleCount e st)) →
   (isConnected st = true ∧ isPrinting st = false
    ∧ loadPending st = false ∧ unloadPending st = false
    ∧ (e = ClickLoad ∧ loadTriggered st = false
       ∧ (∃ t, selectedTray st = Some t
               ∧ c = amsLoadFilament printerId t
                       (getExtruderIdForTray nozzleCount (status st) t))
       ∨ e = ClickUnload ∧ loadTriggered st = true
         ∧ c = amsUnloadFilament printerId))
   ∨ (∃ side i u t,
        e = ClickRefresh side i
        ∧ selectedUnit nozzleCount side st = Some u ∧ tray u !! i = Some t
        ∧ c = refreshAmsTray printerId (unit_id u) (tray_id t)))
  ∧ (∀ side i u t,
       selectedUnit nozzleCount side st = Some u → tray u !! i = Some t →
       step printerId nozzleCount (ClickRefresh side i) st
       = (st, [mutate (refreshAmsTray printerId (unit_id u) (tray_id t))])).
Proof.
  split.
  - destruct e as [s | [] i | side i | | | ok | ok | side i].
    + rewrite step_Snapshot.
      destruct (receiveStatus_requests s st) as (-> & _).
      by intros ?%elem_of_nil.
    + by intros ?%elem_of_nil.
    + by intros ?%elem_of_nil.
    + unfold step.
      destruct (selectedUnit _ _ _) as [u |]; [| by intros ?%elem_of_nil].
      destruct (tray u !! i) as [t |]; [| by intros ?%elem_of_nil].
      unfold slotOnClick, handleTraySelect.
      destruct (negb (isEmpty t) && negb (isPrinting st));
        [| by intros ?%elem_of_nil].
      cbn [snd]. case_bool_decide; by intros ?%elem_of_nil.
    + unfold step. destruct (loadDisabled st) eqn:Hdis;
        [by intros ?%elem_of_nil |].
      unfold loadDisabled, isLoading in Hdis.
      apply orb_false_elim in Hdis as [Hdis Hlt].
      apply orb_false_elim in Hdis as [Hdis Hidle].
      apply orb_false_elim in Hdis as [Hdis _].
      apply orb_false_elim in Hdis as [Hconn Hprint].
      apply orb_false_elim in Hidle as [Hl Hu].
      apply negb_false_iff in Hconn.
      unfold handleLoad. destruct (selectedTray st) as [t |] eqn:Hsel;
        [| by intros ?%elem_of_nil].
      cbn. intros ->%list_elem_of_singleton. left.
      split_and!; try done. left. split_and!; try done. by exists t.
    + unfold step. destruct (unloadDisabled st) eqn:Hdis;
        [by intros ?%elem_of_nil |].
      unfold unloadDisabled, isLoading in Hdis.
      apply orb_false_elim in Hdis as [Hdis Hlt].
      apply orb_false_elim in Hdis as [Hdis Hidle].
      apply orb_false_elim in Hdis as [Hconn Hprint].
      apply orb_false_elim in Hidle as [Hl Hu].
      apply negb_false_iff in Hconn, Hlt.
      cbn. intros ->%list_elem_of_singleton. left.
      split_and!; try done. by right.
    + unfold step. destruct (loadPending st); [| by intros ?%elem_of_nil].
      destruct ok; by intros ?%elem_of_nil.
    + unfold step. destruct (unloadPending st); [| by intros ?%elem_of_nil].
      destruct ok; by intros ?%elem_of_nil.
    + unfold step.
      destruct (selectedUnit _ _ _) as [u |] eqn:Hu;
        [| by intros ?%elem_of_nil].
      destruct (tray u !! i) as [t |] eqn:Ht; [| by intros ?%elem_of_nil].
      cbn. intros ->%list_elem_of_singleton. right. by exists side, i, u, t.
  - intros side i u t Hu Ht. unfold step. rewrite Hu, Ht. by destruct st.
Qed.

Lemma issuedCalls_app a b :
  issuedCalls (a ++ b) = issuedCalls a ++ issuedCalls b.
Proof. apply omap_app. Qed.

(** X6. A load is one-shot. Once load-triggered is true it stays true, and
    no load command is issued, through any sequence of events that holds
    neither a click on a slot nor a successful unload: snapshots (the initial
    sync can only set the flag), tab changes, clicks on Load or Unload and
    failed requests do not re-enable Load. *)
Theorem load_stays_disabled_until_unload_or_reselect
  (es : list Event) (st : AMSSection) :
  loadTriggered st = true →
  forallb leavesLoadTriggered es = true →
  loadTriggered (fst (run printerId nozzleCount es st)) = true
  ∧ forallb (λ c, negb (isLoadCall c))
      (issuedCalls (snd (run printerId nozzleCount es st))) = true.
Proof.
  revert st. induction es as [| e es IH]; intros st Hlt Hquiet; [done |].
  cbn [forallb] in Hquiet. apply andb_prop in Hquiet as [He Hes].
  rewrite run_cons, run_actions_cons, issuedCalls_app, forallb_app.
  assert (loadTriggered (fst (step printerId nozzleCount e st)) = true
          ∧ forallb (λ c, negb (isLoadCall c))
              (issuedCalls (snd (step printerId nozzleCount e st))) = true)
    as [Hlt' Hnone].
  { destruct e as [s | [] i | side i | | | ok | ok | side i];
      try discriminate He.
    - rewrite step_Snapshot.
      destruct (receiveStatus_requests s st) as (-> & _ & _ & Hkeep).
      by split; [apply Hkeep |].
    - by destruct st.
    - by destruct st.
    - unfold step, loadDisabled. rewrite Hlt, !orb_true_r. done.
    - unfold step. destruct (unloadDisabled st); [done |].
      destruct st; cbn in *. done.
    - unfold step. destruct (loadPending st); [| done].
      destruct st, ok; cbn in *; done.
    - unfold step. destruct (unloadPending st); [| done].
      destruct ok; [discriminate He |]. destruct st; cbn in *. done.
    - unfold step.
      destruct (selectedUnit _ _ _) as [u |]; [| done].
      destruct (tray u !! i) as [t |]; [| done]. by destruct st. }
  destruct (IH _ Hlt' Hes) as [Hfinal Hrest].
  by rewrite Hfinal, Hnone, Hrest.
Qed.

(** X7. A failed load leaves the progress card open. From a reachable
    state with the Load button enabled and no active device stage, a click on
    Load followed by the failure of the request leaves the user's marker set;
    as long as the snapshots that follow carry no stage of the active set, the
    card stays shown as a loading card, however many of them arrive. *)
Theorem failed_load_keeps_card_open
  (es : list Event) (ss : list (option PrinterStatus)) :
  let st := fst (run printerId nozzleCount es initialSection) in
  let st' := fst (run printerId nozzleCount
                    ([ClickLoad; LoadSettled false] ++ (Snapshot <$> ss))
                    st) in
  loadDisabled st = false →
  isFilamentChangeStage (currentStage st) = false →
  Forall (λ s, isFilamentChangeStage (stageOf s) = false) ss →
  userFilamentChange st' = Some true
  ∧ showFilamentChangeCard st' = true
  ∧ isFilamentLoading st' = true
  ∧ loadPending st' = false.
Proof.
  intros st st' Hen Hidle Hss.
  pose proof (run_stageEffectSettled printerId nozzleCount es) as Hinv.
  fold st in Hinv.
  set (st1 := fst (run printerId nozzleCount [ClickLoad; LoadSettled false]
                     st)).
  assert (userFilamentChange st1 = Some true ∧ loadPending st1 = false
          ∧ stageEffectSettled st1
          ∧ isFilamentChangeStage (currentStage st1) = false)
    as (Hu1 & Hp1 & Hinv1 & Hidle1).
  { assert (stageEffectSettled st1 ∧ currentStage st1 = currentStage st)
      as [Hs1 Hc1].
    { subst st1. rewrite !run_cons. cbn [run fst].
      destruct (step_refs printerId nozzleCount ClickLoad st)
        as (Hs & _); [done |].
      destruct (step_refs printerId nozzleCount (LoadSettled false)
                  (fst (step printerId nozzleCount ClickLoad st)))
        as (Hs' & _); [done |].
      split; [by do 2 apply step_stageEffectSettled |].
      unfold currentStage. by rewrite Hs', Hs. }
    split_and!; [| | done | by rewrite Hc1].
    - subst st1. rewrite !run_cons. cbn [run fst]. unfold step.
      rewrite Hen. unfold loadDisabled in Hen.
      apply orb_false_elim in Hen as [Hen _].
      apply orb_false_elim in Hen as [Hen _].
      apply orb_false_elim in Hen as [_ Hsel].
      apply bool_decide_eq_false in Hsel.
      unfold handleLoad.
      destruct st as [? ? ? [sel |] ? ? ? ? ? ? ? ?]; [done | by destruct Hsel].
    - subst st1. rewrite !run_cons. cbn [run fst]. unfold step.
      rewrite Hen. unfold loadDisabled in Hen.
      apply orb_false_elim in Hen as [Hen _].
      apply orb_false_elim in Hen as [Hen _].
      apply orb_false_elim in Hen as [_ Hsel].
      apply bool_decide_eq_false in Hsel.
      unfold handleLoad.
      destruct st as [? ? ? [sel |] ? ? ? ? ? ? ? ?]; [done | by destruct Hsel]. }
  assert (∀ st0, userFilamentChange st0 = Some true → loadPending st0 = false →
            stageEffectSettled st0 →
            isFilamentChangeStage (currentStage st0) = false →
            let stn := fst (run printerId nozzleCount (Snapshot <$> ss) st0) in
            userFilamentChange stn = Some true ∧ loadPending stn = false)
    as Hrun.
  { clear -Hss. induction Hss as [| s ss Hs Hss IH];
      intros st0 Hu Hp Hinv Hidle; [done |].
    cbn zeta. rewrite fmap_cons, run_cons, step_Snapshot. apply IH.
    - rewrite receiveStatus_absent_stage; [done | | done].
      destruct Hinv as [-> _]. done.
    - by destruct (receiveStatus_requests s st0) as (_ & -> & _).
    - by apply (step_stageEffectSettled printerId nozzleCount (Snapshot s)).
    - unfold currentStage. by rewrite receiveStatus_status. }
  assert (st' = fst (run printerId nozzleCount (Snapshot <$> ss) st1)) as ->.
  { subst st' st1. cbn [app]. by rewrite !run_cons. }
  destruct (Hrun st1 Hu1 Hp1 Hinv1 Hidle1) as [Hu Hp].
  unfold showFilamentChangeCard, isFilamentLoading. rewrite Hu.
  split_and!; [done | by rewrite orb_true_r | done | done].
Qed.

End FilamentRequests.

Transparent stageOf isFilamentChangeStage.

Lemma filament_call_only_when_enabled_witness :
  let st := fst (step 1 2 (Snapshot (statusWith None (Some 37)))
                   initialSection) in
  let u := unitWith 0 [trayWith 0 (Some "PLA") None 50;
                       trayWith 1 (Some "PLA") None 50] in
  let printing :=
    Some {| connected := false; state := "RUNNING"; stg_cur := None;
            tray_now := None; ams := Some [u]; ams_extruder_map := None |} in
  let busy := fst (step 1 1 (Snapshot printing) initialSection) in
  amsUnloadFilament 1 ∈ issuedCalls (snd (step 1 2 ClickUnload st))
  ∧ isConnected st = true
  ∧ isPrinting st = false
  ∧ loadTriggered st = true
  ∧ isConnected busy = false
  ∧ isPrinting busy = true
  ∧ issuedCalls (snd (step 1 1 (ClickRefresh LeftPanel 1) busy))
    = [refreshAmsTray 1 0 1].
Proof.
  intros st u printing busy.
  assert (amsUnloadFilament 1 ∈ issuedCalls (snd (step 1 2 ClickUnload st)))
    as Hsent by (vm_compute; apply list_elem_of_singleton; reflexivity).
  destruct (filament_call_only_when_enabled 1 2 ClickUnload st
              (amsUnloadFilament 1)) as [Hgated _].
  destruct (Hgated Hsent)
    as [(Hconn & Hprint & _ & _ & [(Hload & _) | (_ & Hlt & _)])
       | (side & i & u' & t' & Hrefresh & _)];
    [discriminate Hload | | discriminate Hrefresh].
  destruct (filament_call_only_when_enabled 1 1 ClickUnload busy
              (amsUnloadFilament 1)) as [_ Hrefresh].
  specialize (Hrefresh LeftPanel 1%nat u (trayWith 1 (Some "PLA") None 50)
                eq_refl eq_refl).
  split_and!; [exact Hsent | exact Hconn | exact Hprint | exact Hlt
              | reflexivity | reflexivity |].
  rewrite Hrefresh. reflexivity.
Defined.

Lemma load_stays_disabled_until_unload_or_reselect_witness :
  let loaded := statusWith None (Some 37) in
  let st := fst (step 1 2 (Snapshot loaded) initialSection) in
  let es := [ClickLoad; Snapshot (statusWith (Some 24) (Some 255));
             ClickUnload; UnloadSettled false; ClickLoad] in
  loadTriggered st = true
  ∧ loadTriggered (fst (run 1 2 es st)) = true
  ∧ forallb (λ c, negb (isLoadCall c)) (issuedCalls (snd (run 1 2 es st)))
    = true.
Proof.
  intros loaded st es.
  destruct (load_stays_disabled_until_unload_or_reselect 1 2 es st)
    as [Hkept Hnone]; [reflexivity | reflexivity |].
  split_and!; [reflexivity | exact Hkept | exact Hnone].
Defined.

Lemma failed_load_keeps_card_open_witness :
  let s := Some {| connected := true; state := "IDLE"; stg_cur := None;
                   tray_now := Some 255;
                   ams := Some [unitWith 0 [trayWith 0 (Some "PLA") None 50]];
                   ams_extruder_map := None |} in
  let es := [Snapshot s; ClickSlot LeftPanel 0] in
  let st := fst (run 1 1 es initialSection) in
  loadDisabled st = false
  ∧ showFilamentChangeCard st = false
  ∧ showFilamentChangeCard
      (fst (run 1 1 ([ClickLoad; LoadSettled false] ++ (Snapshot <$> [s; s]))
              st)) = true.
Proof.
  intros s es st.
  destruct (failed_load_keeps_card_open 1 1 es [s; s])
    as (_ & Hshown & _).
  - reflexivity.
  - reflexivity.
  - repeat constructor.
  - split_and!; [reflexivity | reflexivity | exact Hshown].
Defined.

(** ** Where confirmation tokens come from *)

#[local] Set Warnings "-clear-no-such-hyp".

Section JogPadTokens.

Variable printerId : Z.

Lemma jogApprovalKnown_mono offered offered' calls calls' v :
  offered ⊆ offered' → calls ⊆ calls' →
  jogApprovalKnown printerId offered calls v →
  jogApprovalKnown printerId offered' calls' v.
Proof.
  intros Ho Hc (Htok & Hcall & Haxes). split_and!; [| by apply Hc | done].
  intros t Heq. destruct (Htok t Heq) as (c' & Hin & Hsent & Hsame).
  exists c'. split_and!; [by apply Ho | by apply Hc | done].
Qed.

Lemma jogCallKnown_mono calls calls' v :
  calls ⊆ calls' →
  jogCallKnown printerId calls v → jogCallKnown printerId calls' v.
Proof. intros Hc [Hsent Hplain]. split; by apply Hc. Qed.

Lemma jogStateKnown_mono offered offered' calls calls' st :
  offered ⊆ offered' → calls ⊆ calls' →
  jogStateKnown printerId offered calls st →
  jogStateKnown printerId offered' calls' st.
Proof.
  intros Ho Hc (Hmodal & Hhome & Hmove). split_and!.
  - intros m Hm. by eapply jogApprovalKnown_mono, Hmodal.
  - eapply Forall_impl; [exact Hhome |]. intros v [Hknown Hshape].
    split; [by eapply jogCallKnown_mono | done].
  - eapply Forall_impl; [exact Hmove |]. intros v [Hknown Hshape].
    split; [by eapply jogCallKnown_mono | done].
Qed.

(** A [mutate] keeps everything known, once the call it makes is counted
    and the same call without its token is among the calls then. *)
Lemma jog_known_mutate offered calls st v :
  jogStateKnown printerId offered calls st →
  withoutToken (JogPad.mutationFn printerId v)
  ∈ calls ++ [JogPad.mutationFn printerId v] →
  (∀ axes tok, v = JogPad.homeVars axes tok → axes = "XY") →
  jogStateKnown printerId offered
    (calls ++ [JogPad.mutationFn printerId v])
    (JogPad.applyAction st (JogPad.mutate v)).
Proof.
  intros Hst Hplain Haxes.
  assert (calls ⊆ calls ++ [JogPad.mutationFn printerId v]) as Hsub
    by (intros c Hc; apply elem_of_app; by left).
  assert (jogCallKnown printerId (calls ++ [JogPad.mutationFn printerId v]) v)
    as Hnew.
  { split; [| done].
    apply elem_of_app. right. by apply list_elem_of_singleton. }
  destruct (jogStateKnown_mono offered offered calls _ st
              (reflexivity _) Hsub Hst) as (Hmodal & Hhome & Hmove).
  destruct v as [axes tok | axis d tok]; split_and!; cbn; try done.
  - apply Forall_cons. split; [| done]. split; [done |].
    rewrite (Haxes axes tok eq_refl). by exists tok.
  - apply Forall_cons. split; [| done]. split; [done |]. by exists axis, d, tok.
Qed.

(** A response settles a call that was sent, and leaves the rest known. *)
Lemma jog_known_settle offered calls st k :
  jogStateKnown printerId offered calls st →
  (∀ v settled,
     Mutation.settle k (JogPad.homeMutation st) = Some (v, settled) →
     Mutation.inFlight (JogPad.homeMutation st) !! k = Some v
     ∧ jogCallKnown printerId calls v ∧ (∃ tok, v = JogPad.homeVars "XY" tok)
     ∧ jogStateKnown printerId offered calls
         {| JogPad.confirmModal := JogPad.confirmModal st;
            JogPad.homeMutation := settled;
            JogPad.moveMutation := JogPad.moveMutation st |})
  ∧ (∀ v settled,
       Mutation.settle k (JogPad.moveMutation st) = Some (v, settled) →
       Mutation.inFlight (JogPad.moveMutation st) !! k = Some v
       ∧ jogCallKnown printerId calls v
       ∧ (∃ axis d tok, v = JogPad.moveVars axis d tok)
       ∧ jogStateKnown printerId offered calls
           {| JogPad.confirmModal := JogPad.confirmModal st;
              JogPad.homeMutation := JogPad.homeMutation st;
              JogPad.moveMutation := settled |}).
Proof.
  intros (Hmodal & Hhome & Hmove).
  split; intros v settled; unfold Mutation.settle.
  - destruct (Mutation.inFlight (JogPad.homeMutation st) !! k) as [v' |] eqn:Hk;
      [| done].
    intros [= <- <-].
    destruct (Forall_lookup_1 _ _ _ _ Hhome Hk) as [Hknown Hshape].
    split_and!; [done | done | done |].
    split_and!; cbn; [done | by apply Forall_delete | done].
  - destruct (Mutation.inFlight (JogPad.moveMutation st) !! k) as [v' |] eqn:Hk;
      [| done].
    intros [= <- <-].
    destruct (Forall_lookup_1 _ _ _ _ Hmove Hk) as [Hknown Hshape].
    split_and!; [done | done | done |].
    split_and!; cbn; [done | done | by apply Forall_delete].
Qed.

(** Putting up or taking down a warning whose approval is known. *)
Lemma jog_known_modal offered calls st v :
  jogStateKnown printerId offered calls st →
  (∀ m, v = Some m →
        jogApprovalKnown printerId offered calls (JogPad.onConfirm m)) →
  jogStateKnown printerId offered calls
    (JogPad.applyAction st (JogPad.setConfirmModal v)).
Proof. intros (_ & Hhome & Hmove) Hv. split_and!; cbn; done. Qed.

(** One event keeps everything known; a call it issues with a token is an
    approval, of a command that was sent before and answered with that
    token. *)
Lemma jog_step_known status disabled offered calls e st :
  jogStateKnown printerId offered calls st →
  let r := JogPad.step status disabled e st in
  jogStateKnown printerId (offered ++ JogPad.answer printerId e st)
    (calls ++ JogPad.issued printerId (snd r)) (fst r)
  ∧ ∀ c t, c ∈ JogPad.issued printerId (snd r) → tokenOf c = Some t →
           e = JogPad.Confirm
           ∧ (∃ c', (t, c') ∈ offered ∧ c' ∈ calls
                    ∧ withoutToken c' = withoutToken c)
           ∧ withoutToken c ∈ calls.
Proof.
  intros Hst r. subst r.
  assert (∀ v, jogStateKnown printerId offered calls st →
            JogPad.isDisabled status disabled st = false →
            tokenOf (JogPad.mutationFn printerId v) = None →
            (∀ axes tok, v = JogPad.homeVars axes tok → axes = "XY") →
            jogStateKnown printerId (offered ++ [])
              (calls ++ JogPad.issued printerId [JogPad.mutate v])
              (JogPad.applyActions st [JogPad.mutate v])
            ∧ ∀ c t, c ∈ JogPad.issued printerId [JogPad.mutate v] →
                     tokenOf c = Some t →
                     e = JogPad.Confirm
                     ∧ (∃ c', (t, c') ∈ offered ∧ c' ∈ calls
                              ∧ withoutToken c' = withoutToken c)
                     ∧ withoutToken c ∈ calls) as Hclick.
  { intros v Hknown _ Hplain Haxes. rewrite app_nil_r. split.
    - assert (withoutToken (JogPad.mutationFn printerId v)
              = JogPad.mutationFn printerId v) as Hsame
        by (by destruct v; cbn in *; subst).
      apply jog_known_mutate; [done | | done].
      rewrite Hsame. apply elem_of_app. right.
      by apply list_elem_of_singleton.
    - intros c t ->%list_elem_of_singleton Htok. congruence. }
  assert (jogStateKnown printerId (offered ++ []) (calls ++ []) st
          ∧ ∀ c t, c ∈ JogPad.issued printerId [] → tokenOf c = Some t →
                   e = JogPad.Confirm
                   ∧ (∃ c', (t, c') ∈ offered ∧ c' ∈ calls
                            ∧ withoutToken c' = withoutToken c)
                   ∧ withoutToken c ∈ calls) as Hnothing.
  { rewrite !app_nil_r. split; [done | by intros c t ?%elem_of_nil]. }
  pose proof Hst as (Hmodal & Hhome & Hmove).
  destruct e as [| axis d | k result | k result | |];
    cbn [JogPad.step JogPad.answer].
  - unfold JogPad.handleHome.
    destruct (JogPad.isDisabled status disabled st) eqn:Hdis; [done |].
    apply Hclick; [done | done | done |]. by intros ? ? [= <- _].
  - unfold JogPad.handleMove.
    destruct (JogPad.isDisabled status disabled st) eqn:Hdis; [done |].
    apply Hclick; done.
  - destruct (jog_known_settle offered calls st k Hst) as [Hsettle _].
    destruct (Mutation.settle k (JogPad.homeMutation st))
      as [[v settled] |] eqn:Hk.
    2: { assert (Mutation.inFlight (JogPad.homeMutation st) !! k = None)
           as -> by (unfold Mutation.settle in Hk; by destruct (_ !! k)).
         by destruct result as [[| t w] |]. }
    destruct (Hsettle v settled eq_refl)
      as (-> & [Hsent Hplain] & [tok ->] & Hrest).
    destruct result as [[| t w] |]; cbn; rewrite ?app_nil_r;
      (split; [| by intros c t' ?%elem_of_nil]); [done | | done].
    destruct Hrest as (_ & Hhome' & Hmove').
    split_and!; [| exact Hhome' | exact Hmove'].
    intros m [= <-]. cbn. split_and!; [| done | by intros ? ? [= <- _]].
    intros t' [= <-]. exists (homeAxes printerId "XY" tok).
    split_and!; [| done | done].
    apply elem_of_app. right. by apply list_elem_of_singleton.
  - destruct (jog_known_settle offered calls st k Hst) as [_ Hsettle].
    destruct (Mutation.settle k (JogPad.moveMutation st))
      as [[v settled] |] eqn:Hk.
    2: { assert (Mutation.inFlight (JogPad.moveMutation st) !! k = None)
           as -> by (unfold Mutation.settle in Hk; by destruct (_ !! k)).
         by destruct result as [[| t w] |]. }
    destruct (Hsettle v settled eq_refl)
      as (-> & [Hsent Hplain] & (axis & d & tok & ->) & Hrest).
    destruct result as [[| t w] |]; cbn; rewrite ?app_nil_r;
      (split; [| by intros c t' ?%elem_of_nil]); [done | | done].
    destruct Hrest as (_ & Hhome' & Hmove').
    split_and!; [| exact Hhome' | exact Hmove'].
    intros m [= <-]. cbn. split_and!; [| done | done].
    intros t' [= <-]. exists (moveAxis printerId axis d 3000 tok).
    split_and!; [| done | done].
    apply elem_of_app. right. by apply list_elem_of_singleton.
  - unfold JogPad.handleConfirm.
    destruct (JogPad.confirmModal st) as [m |] eqn:Hm; [| done].
    destruct (Hmodal m eq_refl) as (Htok & Hplain & Haxes).
    cbn [fst snd JogPad.applyActions foldl]. rewrite app_nil_r. split.
    + apply (jog_known_modal _ _ _ None); [| done].
      replace (JogPad.issued printerId
                 [JogPad.mutate (JogPad.onConfirm m);
                  JogPad.setConfirmModal None])
        with [JogPad.mutationFn printerId (JogPad.onConfirm m)]
        by reflexivity.
      apply jog_known_mutate; [done | | done].
      apply elem_of_app. by left.
    + intros c t ->%list_elem_of_singleton Heq.
      split_and!; [done | by apply Htok | done].
  - destruct (JogPad.confirmModal st) as [m |] eqn:Hm; [| done].
    cbn. rewrite !app_nil_r. split; [| by intros c t ?%elem_of_nil].
    by apply (jog_known_modal _ _ _ None).
Qed.

Lemma jog_issued_app a b :
  JogPad.issued printerId (a ++ b)
  = JogPad.issued printerId a ++ JogPad.issued printerId b.
Proof. apply omap_app. Qed.

Lemma jog_run_known es : ∀ offered calls st,
  jogStateKnown printerId offered calls st →
  jogStateKnown printerId
    (offered ++ JogPad.answersWith printerId es st)
    (calls ++ JogPad.issued printerId (snd (JogPad.runWith es st)))
    (fst (JogPad.runWith es st)).
Proof.
  induction es as [| [[status disabled] e] es IH]; intros offered calls st Hknown;
    [by rewrite !app_nil_r |].
  cbn [JogPad.runWith JogPad.answersWith].
  destruct (jog_step_known status disabled offered calls e st Hknown)
    as [Hnext _].
  destruct (JogPad.step status disabled e st) as [st1 a1].
  specialize (IH _ _ st1 Hnext).
  destruct (JogPad.runWith es st1) as [st2 a2].
  cbn [fst snd] in *. by rewrite jog_issued_app, !app_assoc.
Qed.

(** X8. The jog pad never invents a confirmation token. After any sequence
    of clicks, responses, approvals and cancellations from the control at
    rest, whatever the props of the render of each event, with any number of
    calls in flight and their responses in any order, an event that sends a
    call with a token is an approval; the token was handed out earlier in
    that run, in answer to a call of the same command (same axis, distance and
    feed rate, or the same axes) that the run had sent; and the call without
    the token is among the calls sent before. *)
Theorem jogpad_tokens_come_from_responses
  (es : list (option PrinterStatus * bool * JogPad.Event))
  (status : option PrinterStatus) (disabled : bool) (e : JogPad.Event)
  (c : ApiCall) (t : string) :
  let before := JogPad.runWith es idleJog in
  let sent := JogPad.issued printerId (snd before) in
  c ∈ JogPad.issued printerId
        (snd (JogPad.step status disabled e (fst before))) →
  tokenOf c = Some t →
  e = JogPad.Confirm
  ∧ (∃ c', (t, c') ∈ JogPad.answersWith printerId es idleJog
           ∧ c' ∈ sent ∧ withoutToken c' = withoutToken c)
  ∧ withoutToken c ∈ sent.
Proof.
  intros before sent Hc Htok.
  assert (jogStateKnown printerId [] [] idleJog) as Hidle
    by (split_and!; [by intros ? [=] | by apply Forall_nil
                    | by apply Forall_nil]).
  pose proof (jog_run_known es [] [] idleJog Hidle) as Hknown.
  cbn [app] in Hknown. fold before in Hknown. fold sent in Hknown.
  destruct (jog_step_known status disabled _ _ e _ Hknown) as [_ Hstep].
  by apply Hstep.
Qed.

End JogPadTokens.

Lemma jogpad_tokens_come_from_responses_witness :
  let ready := statusWith None None in
  let es := [(ready, false, JogPad.ClickMove "X" 10);
             (ready, false,
              JogPad.MoveSettled 0 (Some (ConfirmationRequired "T1" "W")));
             (runningStatus, false, JogPad.ClickMove "Y" 5);
             (None, false, JogPad.Confirm);
             (None, true,
              JogPad.MoveSettled 1 (Some (ConfirmationRequired "T2" "W")))] in
  let before := JogPad.runWith es idleJog in
  JogPad.issued 7 (snd before)
  = [moveAxis 7 "X" 10 3000 None; moveAxis 7 "Y" 5 3000 None;
     moveAxis 7 "X" 10 3000 (Some "T1")]
  ∧ Mutation.inFlight (JogPad.moveMutation (fst before))
    = [JogPad.moveVars "X" 10 (Some "T1")]
  ∧ JogPad.issued 7 (snd (JogPad.step None true JogPad.Confirm (fst before)))
    = [moveAxis 7 "Y" 5 3000 (Some "T2")]
  ∧ (∃ c', ("T2", c') ∈ JogPad.answersWith 7 es idleJog
           ∧ withoutToken c' = moveAxis 7 "Y" 5 3000 None)
  ∧ moveAxis 7 "Y" 5 3000 None ∈ JogPad.issued 7 (snd before).
Proof.
  intros ready es before.
  assert (moveAxis 7 "Y" 5 3000 (Some "T2")
          ∈ JogPad.issued 7
              (snd (JogPad.step None true JogPad.Confirm (fst before))))
    as Hsent by (apply list_elem_of_singleton; reflexivity).
  destruct (jogpad_tokens_come_from_responses 7 es None true
              JogPad.Confirm (moveAxis 7 "Y" 5 3000 (Some "T2")) "T2"
              Hsent eq_refl)
    as (_ & (c' & Hanswer & _ & Hsame) & Hplain).
  split_and!; [reflexivity | reflexivity | reflexivity | | exact Hplain].
  exists c'. split; [exact Hanswer | exact Hsame].
Defined.

Section GateTokens.

Variable callOf : Gate.DistanceVars → ApiCall.

Hypothesis tokenOf_callOf : ∀ v, tokenOf (callOf v) = Gate.var_token v.

Let handleClick (d : Z) : list Gate.DistanceAction :=
  [Gate.mutate {| Gate.var_distance := d; Gate.var_token := None |}].

Let issued : list Gate.DistanceAction → list ApiCall :=
  issuedWith (λ a, match a with
                   | Gate.mutate v => Some (callOf v)
                   | _ => None
                   end).

Let plain (d : Z) : ApiCall :=
  callOf {| Gate.var_distance := d; Gate.var_token := None |}.

Lemma gateStateKnown_mono offered offered' calls calls' st :
  offered ⊆ offered' → calls ⊆ calls' →
  gateStateKnown callOf offered calls st →
  gateStateKnown callOf offered' calls' st.
Proof.
  intros Ho Hc [Hmodal Hflight]. split.
  - intros m Hm. destruct (Hmodal m Hm). split; [by apply Ho | by apply Hc].
  - eapply Forall_impl; [exact Hflight |]. intros v Hv. by apply Hc.
Qed.

(** One event keeps everything known; a call it issues with a token is an
    approval, of a distance that was sent before and answered with that
    token. *)
Lemma gate_step_known isDisabled offered calls e st :
  gateStateKnown callOf offered calls st →
  let r := Gate.distanceStep isDisabled handleClick e st in
  gateStateKnown callOf (offered ++ Gate.answer e st)
    (calls ++ issued (snd r)) (fst r)
  ∧ ∀ c t, c ∈ issued (snd r) → tokenOf c = Some t →
           e = Gate.Confirm
           ∧ ∃ d, (t, d) ∈ offered
                  ∧ c = callOf {| Gate.var_distance := d;
                                  Gate.var_token := Some t |}
                  ∧ plain d ∈ calls.
Proof.
  intros Hst r. subst r. pose proof Hst as [Hmodal Hflight].
  assert (∀ x, calls ⊆ calls ++ x) as Hleft
    by (intros x c Hc; apply elem_of_app; by left).
  assert (∀ x, offered ⊆ offered ++ x) as Hleft'
    by (intros x c Hc; apply elem_of_app; by left).
  destruct e as [d | k result | |]; cbn [Gate.distanceStep Gate.answer].
  - destruct (isDisabled st); cbn; rewrite !app_nil_r.
    + split; [done | by intros c t ?%elem_of_nil].
    + split.
      * split; cbn.
        -- intros m Hm. destruct (Hmodal m Hm). split; [done | by apply Hleft].
        -- apply Forall_cons. split.
           ++ apply elem_of_app. right. by apply list_elem_of_singleton.
           ++ eapply Forall_impl; [exact Hflight |]. intros v Hv.
              by apply Hleft.
      * intros c t ->%list_elem_of_singleton.
        by rewrite tokenOf_callOf.
  - unfold Mutation.settle.
    destruct (Mutation.inFlight (Gate.mutation st) !! k) as [v |] eqn:Hk.
    + pose proof (Forall_lookup_1 _ _ _ _ Hflight Hk) as Hplain.
      pose proof (Forall_delete _ _ k Hflight) as Hrest.
      destruct result as [[| t w] |]; cbn; rewrite !app_nil_r;
        (split; [| by intros c t' ?%elem_of_nil]); split; cbn; try done.
      intros m [= <-]. cbn. split; [| done].
      apply elem_of_app. right. by apply list_elem_of_singleton.
    + destruct result as [[| t w] |]; cbn; rewrite !app_nil_r;
        (split; [done | by intros c t' ?%elem_of_nil]).
  - unfold Gate.handleConfirm.
    destruct (Gate.confirmModal st) as [m |] eqn:Hm.
    + destruct (Hmodal m eq_refl) as [Htok Hcall].
      cbn. rewrite app_nil_r. split.
      * split; cbn; [done |]. apply Forall_cons. split.
        -- by apply Hleft.
        -- eapply Forall_impl; [exact Hflight |]. intros v Hv. by apply Hleft.
      * intros c t ->%list_elem_of_singleton.
        rewrite tokenOf_callOf. cbn. intros [= <-].
        split; [done |]. by exists (Gate.distance m).
    + cbn. rewrite !app_nil_r. split; [done | by intros c t ?%elem_of_nil].
  - destruct (Gate.confirmModal st) as [m |] eqn:Hm.
    + cbn. rewrite !app_nil_r. split; [| by intros c t ?%elem_of_nil].
      split; cbn; done.
    + cbn. rewrite !app_nil_r. split; [done | by intros c t ?%elem_of_nil].
Qed.

Lemma gate_run_known es : ∀ offered calls st,
  gateStateKnown callOf offered calls st →
  gateStateKnown callOf
    (offered ++ Gate.answersWith handleClick es st)
    (calls ++ issued (snd (Gate.distanceRunWith handleClick es st)))
    (fst (Gate.distanceRunWith handleClick es st)).
Proof.
  induction es as [| [isDisabled e] es IH]; intros offered calls st Hknown;
    [by rewrite !app_nil_r |].
  cbn [Gate.distanceRunWith Gate.answersWith].
  destruct (gate_step_known isDisabled offered calls e st Hknown)
    as [Hnext _].
  destruct (Gate.distanceStep isDisabled handleClick e st) as [st1 a1].
  specialize (IH _ _ st1 Hnext).
  destruct (Gate.distanceRunWith handleClick es st1) as [st2 a2].
  cbn [fst snd] in *. unfold issued, issuedWith in *.
  by rewrite omap_app, !app_assoc.
Qed.

Lemma gate_tokens_known es isDisabled e c t :
  let before := Gate.distanceRunWith handleClick es idleGate in
  c ∈ issued (snd (Gate.distanceStep isDisabled handleClick e (fst before))) →
  tokenOf c = Some t →
  e = Gate.Confirm
  ∧ ∃ d, (t, d) ∈ Gate.answersWith handleClick es idleGate
         ∧ c = callOf {| Gate.var_distance := d; Gate.var_token := Some t |}
         ∧ plain d ∈ issued (snd before).
Proof.
  intros before Hc Htok.
  assert (gateStateKnown callOf [] [] idleGate) as Hidle
    by (split; [by intros ? [=] | by apply Forall_nil]).
  pose proof (gate_run_known es [] [] idleGate Hidle) as Hknown.
  cbn [app] in Hknown.
  destruct (gate_step_known isDisabled _ _ e _ Hknown) as [_ Hstep].
  by apply Hstep.
Qed.

End GateTokens.

(** X9. The extruder and bed controls never invent a confirmation token.
    After any sequence of clicks, responses, approvals and cancellations from
    a control at rest, whatever the props of the render of each event, with
    any number of calls in flight and their responses in any order, an event
    that sends a G-code or Z-move call with a token is an approval; the token
    was handed out earlier in that run, in answer to a call with the very
    distance the approved call carries; and the call for that distance
    without a token is among the calls sent before. *)
Theorem gate_tokens_come_from_responses
  (printerId : Z)
  (es : list (option PrinterStatus * bool * Gate.DistanceEvent))
  (status : option PrinterStatus) (disabled : bool)
  (e : Gate.DistanceEvent) (c : ApiCall) (t : string) :
  let ext := ExtruderControls.runWith es idleGate in
  let bed := BedControls.runWith es idleGate in
  tokenOf c = Some t →
  (c ∈ ExtruderControls.issued printerId
         (snd (ExtruderControls.step status disabled e (fst ext))) →
   e = Gate.Confirm
   ∧ ∃ d, (t, d) ∈ ExtruderControls.answersWith es idleGate
          ∧ c = sendGcode printerId (ExtruderControls.gcode d) (Some t)
          ∧ sendGcode printerId (ExtruderControls.gcode d) None
            ∈ ExtruderControls.issued printerId (snd ext))
  ∧ (c ∈ BedControls.issued printerId
           (snd (BedControls.step status disabled e (fst bed))) →
     e = Gate.Confirm
     ∧ ∃ d, (t, d) ∈ BedControls.answersWith es idleGate
            ∧ c = moveAxis printerId "Z" d 1000 (Some t)
            ∧ moveAxis printerId "Z" d 1000 None
              ∈ BedControls.issued printerId (snd bed)).
Proof.
  intros ext bed Htok. split; intros Hc.
  - by apply (gate_tokens_known (ExtruderControls.mutationFn printerId)
                (λ _, eq_refl) (ExtruderControls.withProps es)
                (ExtruderControls.isDisabled status disabled)).
  - by apply (gate_tokens_known (BedControls.mutationFn printerId)
                (λ _, eq_refl) (BedControls.withProps es)
                (BedControls.isDisabled status disabled)).
Qed.

Lemma gate_tokens_come_from_responses_witness :
  let ready := statusWith None None in
  let es := [(ready, false, Gate.Click 5);
             (ready, false,
              Gate.Settled 0 (Some (ConfirmationRequired "T1" "W")));
             (ready, false, Gate.Click (-10));
             (runningStatus, false, Gate.Confirm);
             (None, true,
              Gate.Settled 1 (Some (ConfirmationRequired "T2" "W")))] in
  let before := ExtruderControls.runWith es idleGate in
  ExtruderControls.issued 7 (snd before)
  = [sendGcode 7 (ExtruderControls.gcode 5) None;
     sendGcode 7 (ExtruderControls.gcode (-10)) None;
     sendGcode 7 (ExtruderControls.gcode 5) (Some "T1")]
  ∧ ExtruderControls.issued 7
      (snd (ExtruderControls.step None true Gate.Confirm (fst before)))
    = [sendGcode 7 (ExtruderControls.gcode (-10)) (Some "T2")]
  ∧ ("T2", -10) ∈ ExtruderControls.answersWith es idleGate
  ∧ sendGcode 7 (ExtruderControls.gcode (-10)) None
    ∈ ExtruderControls.issued 7 (snd before).
Proof.
  intros ready es before.
  assert (sendGcode 7 (ExtruderControls.gcode (-10)) (Some "T2")
          ∈ ExtruderControls.issued 7
              (snd (ExtruderControls.step None true Gate.Confirm
                      (fst before))))
    as Hsent by (apply list_elem_of_singleton; reflexivity).
  destruct (gate_tokens_come_from_responses 7 es None true Gate.Confirm
              (sendGcode 7 (ExtruderControls.gcode (-10)) (Some "T2")) "T2"
              eq_refl) as [Hext _].
  destruct (Hext Hsent) as (_ & d & Hanswer & Hcall & Hplain).
  assert (d = -10) as ->.
  { vm_compute in Hanswer.
    apply elem_of_cons in Hanswer as [[=] | Hanswer].
    apply list_elem_of_singleton in Hanswer as [= ->]. reflexivity. }
  split_and!; [reflexivity | reflexivity | exact Hanswer | exact Hplain].
Defined.

(** X10. An approval is single-use and is not gated by the control's
    state. While a warning is up, approving sends the stored command even when
    the control is disabled (printer disconnected or, for the extrusion,
    printing, or another command pending), takes the warning down and leaves
    the command pending, so the control is disabled whatever the props of the
    next render: right after it a second approval, a cancellation and a click
    on any button of the control, for any axis and distance, send nothing.
    This holds for the jog pad, the extruder and the bed. *)
Theorem approval_is_single_use
  (printerId : Z) (status next : option PrinterStatus) (disabled off : bool)
  (jog : JogPad.State) (m : JogPad.ConfirmModal)
  (gate : Gate.DistanceState) (g : Gate.DistanceConfirm)
  (axis : string) (d : Z) :
  JogPad.confirmModal jog = Some m →
  Gate.confirmModal gate = Some g →
  let jog' := fst (JogPad.step status disabled JogPad.Confirm jog) in
  let jogStep := JogPad.step next off in
  let ext' := fst (ExtruderControls.step status disabled Gate.Confirm gate) in
  let extStep := ExtruderControls.step next off in
  let bed' := fst (BedControls.step status disabled Gate.Confirm gate) in
  let bedStep := BedControls.step next off in
  (JogPad.issued printerId
     (snd (JogPad.step status disabled JogPad.Confirm jog))
   = [JogPad.mutationFn printerId (JogPad.onConfirm m)]
   ∧ JogPad.confirmModal jog' = None
   ∧ JogPad.isDisabled next off jog' = true
   ∧ snd (jogStep JogPad.Confirm jog') = []
   ∧ snd (jogStep JogPad.Cancel jog') = []
   ∧ snd (jogStep JogPad.ClickHome jog') = []
   ∧ snd (jogStep (JogPad.ClickMove axis d) jog') = [])
  ∧ (ExtruderControls.issued printerId
       (snd (ExtruderControls.step status disabled Gate.Confirm gate))
     = [sendGcode printerId (ExtruderControls.gcode (Gate.distance g))
          (Some (Gate.token g))]
     ∧ Gate.confirmModal ext' = None
     ∧ ExtruderControls.isDisabled next off ext' = true
     ∧ snd (extStep Gate.Confirm ext') = []
     ∧ snd (extStep Gate.Cancel ext') = []
     ∧ snd (extStep (Gate.Click d) ext') = [])
  ∧ (BedControls.issued printerId
       (snd (BedControls.step status disabled Gate.Confirm gate))
     = [moveAxis printerId "Z" (Gate.distance g) 1000 (Some (Gate.token g))]
     ∧ Gate.confirmModal bed' = None
     ∧ BedControls.isDisabled next off bed' = true
     ∧ snd (bedStep Gate.Confirm bed') = []
     ∧ snd (bedStep Gate.Cancel bed') = []
     ∧ snd (bedStep (Gate.Click d) bed') = []).
Proof.
  intros Hm Hg jog' jogStep ext' extStep bed' bedStep.
  subst jog' jogStep ext' extStep bed' bedStep. split; [| split].
  - destruct jog as [modal hm mm]. cbn in Hm. subst modal.
    unfold JogPad.step, JogPad.handleConfirm, JogPad.handleHome,
      JogPad.handleMove, JogPad.isDisabled, JogPad.isLoading.
    destruct (JogPad.onConfirm m) as [axes tok | axis' d' tok] eqn:Hon; cbn;
      rewrite Hon; cbn; rewrite ?orb_true_r; cbn; split_and!; done.
  - destruct gate as [modal p]. cbn in Hg. subst modal.
    unfold ExtruderControls.step, Gate.distanceStep, Gate.handleConfirm,
      ExtruderControls.isDisabled. cbn. rewrite ?orb_true_r. done.
  - destruct gate as [modal p]. cbn in Hg. subst modal.
    unfold BedControls.step, Gate.distanceStep, Gate.handleConfirm,
      BedControls.isDisabled. cbn. rewrite ?orb_true_r. done.
Qed.

Lemma approval_is_single_use_witness :
  let status := statusWith None None in
  let m := {| JogPad.action := "move"; JogPad.token := "T";
              JogPad.warning := "W";
              JogPad.onConfirm := JogPad.moveVars "Y" (-1) (Some "T") |} in
  let jog := {| JogPad.confirmModal := Some m;
                JogPad.homeMutation := Mutation.idle;
                JogPad.moveMutation := Mutation.idle |} in
  let g := {| Gate.token := "T"; Gate.warning := "W"; Gate.distance := 5 |} in
  let gate := {| Gate.confirmModal := Some g;
                 Gate.mutation := Mutation.idle |} in
  JogPad.isDisabled status true jog = true
  ∧ JogPad.issued 7 (snd (JogPad.step status true JogPad.Confirm jog))
    = [moveAxis 7 "Y" (-1) 3000 (Some "T")]
  ∧ snd (JogPad.step status false JogPad.Confirm
           (fst (JogPad.step status true JogPad.Confirm jog))) = []
  ∧ snd (JogPad.step status false (JogPad.ClickMove "X" 10)
           (fst (JogPad.step status true JogPad.Confirm jog))) = []
  ∧ snd (JogPad.step status false (JogPad.ClickMove "X" 10) jog)
    = [JogPad.mutate (JogPad.moveVars "X" 10 None)].
Proof.
  intros status m jog g gate.
  destruct (approval_is_single_use 7 status status true false jog m gate g
              "X" 10 eq_refl eq_refl)
    as [(Hsent & _ & _ & Hagain & _ & _ & Hclick) _].
  split_and!; [reflexivity | exact Hsent | exact Hagain | exact Hclick
              | reflexivity].
Defined.

(** ** Colours *)

Lemma removeFirst_absent (c : ascii) (s : string) :
  occursIn c s = false → removeFirst c s = s.
Proof.
  induction s as [| a s IH]; [done |]. cbn [occursIn removeFirst].
  intros [Ha Hs]%orb_false_elim. by rewrite Ha, (IH Hs).
Qed.

Lemma removeFirst_head (c : ascii) (s : string) :
  removeFirst c (String c s) = s.
Proof. cbn [removeFirst]. by rewrite Ascii.eqb_refl. Qed.

Lemma hexToRgb_of_clean (hex : string) :
  hexToRgb (Some hex)
  = let cleanHex := jsSubstring 0 6 (removeFirst "#" hex) in
    rgb (numberOr (parseInt16 (jsSubstring 0 2 cleanHex)) 128)
        (numberOr (parseInt16 (jsSubstring 2 4 cleanHex)) 128)
        (numberOr (parseInt16 (jsSubstring 4 6 cleanHex)) 128).
Proof. by destruct hex. Qed.

(** X11. The leading [#] of a colour is optional, and only the first [#]
    is dropped: for a text without [#], the colour with one [#] in front
    renders the same as the text alone, while a second [#] in front is kept
    and makes the red channel unreadable. *)
Theorem hex_prefix_is_optional (s : string) :
  occursIn "#" s = false →
  hexToRgb (Some ("#" +:+ s)) = hexToRgb (Some s)
  ∧ hexToRgb (Some "##FF8000") = "rgb(128, 248, 128)"
  ∧ hexToRgb (Some "#FF8000") = "rgb(255, 128, 128)".
Proof.
  intros Habsent. split_and!; [| reflexivity | reflexivity].
  rewrite !hexToRgb_of_clean, append_cons, removeFirst_head.
  change ("" +:+ s) with s.
  by rewrite (removeFirst_absent _ _ Habsent).
Qed.

Lemma hex_prefix_is_optional_witness :
  occursIn "#" "00AEEF" = false
  ∧ hexToRgb (Some "#00AEEF") = hexToRgb (Some "00AEEF").
Proof.
  split; [reflexivity |].
  exact (proj1 (hex_prefix_is_optional "00AEEF" eq_refl)).
Defined.

Lemma hex_digit_cases (c : ascii) (h : Z) :
  hexDigitValue c = Some h →
  (c, h) ∈ [("0"%char, 0); ("1"%char, 1); ("2"%char, 2); ("3"%char, 3);
            ("4"%char, 4); ("5"%char, 5); ("6"%char, 6); ("7"%char, 7);
            ("8"%char, 8); ("9"%char, 9); ("A"%char, 10); ("B"%char, 11);
            ("C"%char, 12); ("D"%char, 13); ("E"%char, 14); ("F"%char, 15);
            ("a"%char, 10); ("b"%char, 11); ("c"%char, 12); ("d"%char, 13);
            ("e"%char, 14); ("f"%char, 15)].
Proof.
  destruct c as [[] [] [] [] [] [] [] []]; intros H; vm_compute in H;
    try discriminate H; injection H as <-;
    repeat first [ apply list_elem_of_here | apply list_elem_of_further ].
Qed.

(** Two hexadecimal digits are read as one byte. *)
Lemma parse_two_hex_digits (c1 c2 : ascii) (h l : Z) :
  hexDigitValue c1 = Some h → hexDigitValue c2 = Some l →
  parseInt16 (String c1 (String c2 EmptyString)) = Some (16 * h + l).
Proof.
  intros H1%hex_digit_cases H2%hex_digit_cases.
  repeat (apply elem_of_cons in H1 as [[= -> ->] | H1]);
    [.. | by apply elem_of_nil in H1];
    repeat (apply elem_of_cons in H2 as [[= -> ->] | H2]);
    try (by apply elem_of_nil in H2); vm_compute; reflexivity.
Qed.

(** X12. What a colour renders as. For six hexadecimal digits, with or
    without a leading [#] and whatever follows them (an alpha part for one),
    each channel is the byte its two digits spell, except that a byte of 0 is
    drawn as 128. For every colour at all, no channel of the result is 0: the
    black [000000] renders as [rgb(128, 128, 128)]. *)
Theorem hex_channels
  (hex : option string) (c1 c2 c3 c4 c5 c6 : ascii) (rest : string)
  (r1 r2 g1 g2 b1 b2 : Z) :
  let six :=
    String c1 (String c2 (String c3 (String c4 (String c5 (String c6 rest)))))
  in
  let channel h l := if 16 * h + l =? 0 then 128 else 16 * h + l in
  hexDigitValue c1 = Some r1 → hexDigitValue c2 = Some r2 →
  hexDigitValue c3 = Some g1 → hexDigitValue c4 = Some g2 →
  hexDigitValue c5 = Some b1 → hexDigitValue c6 = Some b2 →
  hexToRgb (Some six) = rgb (channel r1 r2) (channel g1 g2) (channel b1 b2)
  ∧ hexToRgb (Some ("#" +:+ six)) = hexToRgb (Some six)
  ∧ (∃ r g b, hexToRgb hex = rgb r g b ∧ r ≠ 0 ∧ g ≠ 0 ∧ b ≠ 0)
  ∧ hexToRgb (Some "000000") = "rgb(128, 128, 128)".
Proof.
  intros six channel Hr1 Hr2 Hg1 Hg2 Hb1 Hb2.
  assert (occursIn "#" (String c1 (String c2 (String c3 (String c4
            (String c5 (String c6 EmptyString)))))) = false) as Hclean.
  { assert (∀ c h, hexDigitValue c = Some h → Ascii.eqb c "#" = false)
      as Hdigit.
    { intros c h Hc%hex_digit_cases.
      repeat (apply elem_of_cons in Hc as [[= -> ->] | Hc]);
        [reflexivity .. | by apply elem_of_nil in Hc]. }
    cbn [occursIn].
    by rewrite (Hdigit _ _ Hr1), (Hdigit _ _ Hr2), (Hdigit _ _ Hg1),
      (Hdigit _ _ Hg2), (Hdigit _ _ Hb1), (Hdigit _ _ Hb2). }
  assert (jsSubstring 0 6 (removeFirst "#" six)
          = String c1 (String c2 (String c3 (String c4
              (String c5 (String c6 EmptyString)))))) as Hsix.
  { subst six. cbn [occursIn] in Hclean.
    repeat (apply orb_false_elim in Hclean as [? Hclean]).
    cbn [removeFirst]. repeat match goal with H : Ascii.eqb _ _ = false |- _ =>
      rewrite H; clear H end. by destruct (removeFirst "#" rest). }
  assert (hexToRgb (Some six)
          = rgb (channel r1 r2) (channel g1 g2) (channel b1 b2)) as Hsame.
  { rewrite hexToRgb_of_clean. cbn zeta. rewrite Hsix.
    change (jsSubstring 0 2 (String c1 (String c2 (String c3 (String c4
              (String c5 (String c6 EmptyString)))))))
      with (String c1 (String c2 EmptyString)).
    change (jsSubstring 2 4 (String c1 (String c2 (String c3 (String c4
              (String c5 (String c6 EmptyString)))))))
      with (String c3 (String c4 EmptyString)).
    change (jsSubstring 4 6 (String c1 (String c2 (String c3 (String c4
              (String c5 (String c6 EmptyString)))))))
      with (String c5 (String c6 EmptyString)).
    by rewrite (parse_two_hex_digits _ _ _ _ Hr1 Hr2),
      (parse_two_hex_digits _ _ _ _ Hg1 Hg2),
      (parse_two_hex_digits _ _ _ _ Hb1 Hb2). }
  split_and!; [exact Hsame | | | reflexivity].
  - assert (jsSubstring 0 6 six
            = String c1 (String c2 (String c3 (String c4
                (String c5 (String c6 EmptyString)))))) as Hplain
      by (subst six; by destruct rest).
    clearbody six.
    rewrite (hexToRgb_of_clean ("#" +:+ six)), (hexToRgb_of_clean six).
    cbn zeta. rewrite Hsix, append_cons, removeFirst_head.
    change ("" +:+ six) with six. by rewrite Hplain.
  - destruct hex as [[| c s] |];
      [by exists 128, 128, 128 | | by exists 128, 128, 128].
    rewrite hexToRgb_of_clean. cbn zeta.
    eexists _, _, _. split; [reflexivity |].
    split_and!; by apply numberOr_nonzero.
Qed.

Lemma hex_channels_witness :
  hexDigitValue "A" = Some 10
  ∧ hexToRgb (Some "00AEEFFF") = "rgb(128, 174, 239)"
  ∧ hexToRgb (Some "#00AEEFFF") = hexToRgb (Some "00AEEFFF").
Proof.
  destruct (hex_channels None "0" "0" "A" "E" "E" "F" "FF" 0 0 10 14 14 15
              eq_refl eq_refl eq_refl eq_refl eq_refl eq_refl)
    as (Hvalue & Hhash & _).
  split_and!; [reflexivity | exact Hvalue | exact Hhash].
Defined.

(** ** Slot labels *)

Lemma to_int_not_nil (n : Z) : Z.to_int n ≠ Decimal.Pos Decimal.Nil
                               ∧ Z.to_int n ≠ Decimal.Neg Decimal.Nil.
Proof.
  destruct n as [| p | p]; cbn; split; try discriminate;
    intros [= H]; by apply (Unsigned.to_uint_nonnil p).
Qed.

(** The decimal text determines the number. *)
Lemma numberToString_inj (a b : Z) :
  numberToString a = numberToString b → a = b.
Proof.
  unfold numberToString. intros Heq. apply DecimalZ.to_int_inj.
  apply (f_equal NilZero.int_of_string) in Heq.
  destruct (to_int_not_nil a), (to_int_not_nil b).
  rewrite !NilZero.isi in Heq by done. by injection Heq.
Qed.

(** The decimal text of a number that is not negative is a digit followed
    by digits. *)
Lemma numberToString_digits (n : Z) :
  0 ≤ n →
  ∃ d rest, numberToString n = String d rest
            ∧ isDigit d = true ∧ allDigits rest = true.
Proof.
  assert (∀ u, allDigits (NilEmpty.string_of_uint u) = true) as Hdigits.
  { induction u; cbn [NilEmpty.string_of_uint allDigits]; [done | ..];
      by rewrite IHu. }
  intros Hn. unfold numberToString.
  destruct n as [| p | p]; [by exists "0"%char, EmptyString | | lia].
  cbn. pose proof (Unsigned.to_uint_nonnil p) as Hnil.
  pose proof (Hdigits (Pos.to_uint p)) as Hall.
  destruct (Pos.to_uint p) eqn:Hp; [done | ..]; cbn in *;
    eexists _, _; (split; [reflexivity |]); split; first [done | exact Hall].
Qed.

Lemma digits_before_dash (a b x y : string) :
  allDigits a = true → allDigits b = true →
  a +:+ String "-" x = b +:+ String "-" y → a = b ∧ x = y.
Proof.
  revert b. induction a as [| c a IH]; intros [| d b] Ha Hb Heq.
  - by injection Heq as ->.
  - rewrite append_cons in Heq. injection Heq as <- _.
    cbn in Hb. discriminate Hb.
  - rewrite append_cons in Heq. injection Heq as -> _.
    cbn in Ha. discriminate Ha.
  - rewrite !append_cons in Heq. injection Heq as -> Heq.
    cbn [allDigits] in Ha, Hb.
    apply andb_prop in Ha as [_ Ha]. apply andb_prop in Hb as [_ Hb].
    destruct (IH b Ha Hb Heq) as [-> ->]. done.
Qed.

Lemma fromCharCode_inj (a b : Z) :
  0 ≤ a < 256 → 0 ≤ b < 256 → fromCharCode a = fromCharCode b → a = b.
Proof.
  unfold fromCharCode. intros Ha Hb Heq.
  apply (f_equal N_of_ascii) in Heq.
  rewrite !N_ascii_embedding in Heq by lia. lia.
Qed.

(** X13. Slot labels tell slots apart. [getSlotLabel(0, 0)] is [A1],
    [getSlotLabel(128, 1)] is [HT-B] and [getSlotLabel(129, 0)] is [HT2-A];
    and for unit ids that are not negative and slot indices from 0 to 3, two
    slots with the same label are the same slot of the same unit, HT units
    and standard units included. *)
Theorem slot_labels_distinct (a i b j : Z) :
  0 ≤ a → 0 ≤ b → 0 ≤ i < 4 → 0 ≤ j < 4 →
  (getSlotLabel a i = getSlotLabel b j → a = b ∧ i = j)
  ∧ getSlotLabel 0 0 = "A1"
  ∧ getSlotLabel 128 1 = "HT-B"
  ∧ getSlotLabel 129 0 = "HT2-A"
  ∧ getSlotLabel 1 3 = "B4".
Proof.
  intros Ha Hb Hi Hj. split_and!; try reflexivity.
  unfold getSlotLabel.
  destruct (numberToString_digits (i + 1)) as (di & ri & Hdi & Hisd & Hri);
    [lia |].
  destruct (numberToString_digits (j + 1)) as (dj & rj & Hdj & Hjsd & Hrj);
    [lia |].
  destruct (Z.geb_spec a 128) as [Hha | Hra];
    destruct (Z.geb_spec b 128) as [Hhb | Hrb].
  - destruct (numberToString_digits (a - 128 + 1))
      as (da & ra & Hda & Hasd & Hrad); [lia |].
    destruct (numberToString_digits (b - 128 + 1))
      as (db & rb & Hdb & Hbsd & Hrbd); [lia |].
    destruct (Z.eqb_spec (a - 128) 0) as [Ha0 | Ha0];
      destruct (Z.eqb_spec (b - 128) 0) as [Hb0 | Hb0].
    + intros [= Heq]. apply fromCharCode_inj in Heq; lia.
    + rewrite Hdb. intros [= <-]. discriminate Hbsd.
    + rewrite Hda. intros [= ->]. discriminate Hasd.
    + intros [= Heq].
      apply digits_before_dash in Heq as [Hnum [= Hletter]].
      * apply numberToString_inj in Hnum.
        apply fromCharCode_inj in Hletter; lia.
      * rewrite Hda. cbn. by rewrite Hasd.
      * rewrite Hdb. cbn. by rewrite Hbsd.
  - destruct (Z.eqb_spec (a - 128) 0); rewrite Hdj.
    + intros [= _ <-]. discriminate Hjsd.
    + intros [= _ <-]. discriminate Hjsd.
  - destruct (Z.eqb_spec (b - 128) 0); rewrite Hdi.
    + intros [= _ ->]. discriminate Hisd.
    + intros [= _ ->]. discriminate Hisd.
  - intros [= Hletter Hnum].
    apply fromCharCode_inj in Hletter; [| lia | lia].
    apply numberToString_inj in Hnum. lia.
Qed.

Lemma slot_labels_distinct_witness :
  getSlotLabel 2 1 = "C2"
  ∧ (getSlotLabel 2 1 = getSlotLabel 2 1 → 2 = 2 ∧ 1 = 1)
  ∧ getSlotLabel 129 0 = "HT2-A".
Proof.
  destruct (slot_labels_distinct 2 1 2 1) as (Hsame & _ & _ & Hht & _);
    [lia | lia | lia | lia |].
  split_and!; [reflexivity | exact Hsame | exact Hht].
Defined.

(** ** Keys of the assignment map *)

(** X14. Units do not alias in the assignment map. The map is keyed by the
    decimal text of the unit id, so an entry stored for id [a] is read back
    for a unit exactly when its id is [a]; adding or changing the entry of
    one id on a dual-nozzle machine that already reports a map moves no unit
    with another id into or out of either panel. *)
Theorem extruder_map_keys_do_not_alias
  (nozzleCount : Z) (units : list AMSUnit) (m : gmap string Z) (a e : Z)
  (u : AMSUnit) :
  let old := routedStatus units m in
  let new := routedStatus units (<[numberToString a := e]> m) in
  extruderOf new u
  = (if bool_decide (unit_id u = a) then Some e else extruderOf old u)
  ∧ (1 < nozzleCount → m ≠ ∅ → unit_id u ≠ a →
     (u ∈ leftUnits nozzleCount new ↔ u ∈ leftUnits nozzleCount old)
     ∧ (u ∈ rightUnits nozzleCount new ↔ u ∈ rightUnits nozzleCount old)).
Proof.
  intros old new.
  assert (extruderOf new u
          = if bool_decide (unit_id u = a) then Some e else extruderOf old u)
    as Hread.
  { unfold extruderOf, amsExtruderMap. cbn.
    case_bool_decide as Hid; [by rewrite Hid, lookup_insert_eq |].
    rewrite lookup_insert_ne; [done |].
    intros Heq. by apply Hid, numberToString_inj. }
  split; [exact Hread |]. intros Hdual Hmap Hother.
  rewrite bool_decide_eq_false_2 in Hread by done.
  assert (isDualNozzle nozzleCount = true) as Hd
    by (unfold isDualNozzle; apply Z.gtb_lt; lia).
  unfold leftUnits, rightUnits. rewrite Hd. cbn [negb].
  rewrite (mapReported_true old), (mapReported_true new).
  - rewrite !list_elem_of_filter, Hread. done.
  - unfold amsExtruderMap. cbn. apply insert_non_empty.
  - done.
Qed.

Lemma extruder_map_keys_do_not_alias_witness :
  let a := unitWith 1 [] in
  let ht := unitWith 128 [] in
  let m : gmap string Z := {[ "1" := 0 ]} in
  a ∈ rightUnits 2 (routedStatus [a; ht] m)
  ∧ a ∈ rightUnits 2 (routedStatus [a; ht] (<["128" := 1]> m))
  ∧ extruderOf (routedStatus [a; ht] (<["128" := 1]> m)) ht = Some 1.
Proof.
  intros a ht m.
  destruct (extruder_map_keys_do_not_alias 2 [a; ht] m 128 1 a)
    as [_ Hsides].
  destruct (extruder_map_keys_do_not_alias 2 [a; ht] m 128 1 ht)
    as [Hread _].
  assert (a ∈ rightUnits 2 (routedStatus [a; ht] m)) as Hold.
  { apply list_elem_of_lookup. exists 0%nat. vm_compute. reflexivity. }
  destruct Hsides as [_ Hright].
  - lia.
  - intros Hempty.
    assert (m !! "1" = Some 0) as Hl by reflexivity.
    rewrite Hempty in Hl. discriminate Hl.
  - cbn. lia.
  - split_and!; [exact Hold | by apply Hright | exact Hread].
Defined.

(** ** The humidity dialog *)

(** X15. The remaining drying time. An idle unit shows [Idle] whatever
    the time; while drying, a missing time and a time of 0 show [Drying...];
    a time below an hour shows as minutes alone; from 60 minutes on it shows
    as [<h>h <m>m] with [60 h + m] the time and [m] below 60. A negative
    time loses its hours: only the remainder of the division by 60, which is
    negative or zero, is shown. *)
Theorem remaining_time_format (rt : Z) :
  let format := AMSHumidityModal.formatRemainingTime in
  format AMSHumidityModal.idle (Some rt) = "Idle"
  ∧ format AMSHumidityModal.drying None = "Drying..."
  ∧ format AMSHumidityModal.drying (Some 0) = "Drying..."
  ∧ (0 < rt < 60 →
     format AMSHumidityModal.drying (Some rt) = numberToString rt +:+ "m")
  ∧ (60 ≤ rt →
     ∃ h m, format AMSHumidityModal.drying (Some rt)
            = numberToString h +:+ "h " +:+ numberToString m +:+ "m"
            ∧ rt = 60 * h + m ∧ 1 ≤ h ∧ 0 ≤ m < 60)
  ∧ (rt < 0 →
     ∃ h m, format AMSHumidityModal.drying (Some rt)
            = numberToString m +:+ "m"
            ∧ rt = 60 * h + m ∧ h ≤ 0 ∧ -60 < m ≤ 0)
  ∧ format AMSHumidityModal.drying (Some 135) = "2h 15m"
  ∧ format AMSHumidityModal.drying (Some (-90)) = "-30m".
Proof.
  intros format. subst format.
  split_and!; try reflexivity.
  - intros Hrt. unfold AMSHumidityModal.formatRemainingTime.
    destruct (Z.eqb_spec rt 0); [lia |].
    rewrite Z.div_small by lia. cbn [Z.gtb Z.compare].
    by rewrite Z.rem_small by lia.
  - intros Hrt. unfold AMSHumidityModal.formatRemainingTime.
    destruct (Z.eqb_spec rt 0); [lia |].
    pose proof (Z.div_mod rt 60 ltac:(lia)) as Hdiv.
    pose proof (Z.mod_pos_bound rt 60 ltac:(lia)) as Hmod.
    rewrite Z.rem_mod_nonneg by lia.
    destruct (Z.gtb_spec (rt / 60) 0); [| lia].
    exists (rt / 60), (rt mod 60). split_and!; first [done | lia].
  - intros Hrt. unfold AMSHumidityModal.formatRemainingTime.
    destruct (Z.eqb_spec rt 0); [lia |].
    pose proof (Z.div_mod rt 60 ltac:(lia)) as Hdiv.
    pose proof (Z.mod_pos_bound rt 60 ltac:(lia)) as Hmod.
    pose proof (Z.quot_rem' rt 60) as Hquot.
    pose proof (Z.rem_bound_pos_neg rt 60 ltac:(lia) ltac:(lia)) as Hrem.
    destruct (Z.gtb_spec (rt / 60) 0); [lia |].
    exists (rt ÷ 60), (Z.rem rt 60). split_and!; first [done | lia].
Qed.

Lemma remaining_time_format_witness :
  AMSHumidityModal.formatRemainingTime AMSHumidityModal.drying (Some 45)
  = "45m"
  ∧ ∃ h m,
      AMSHumidityModal.formatRemainingTime AMSHumidityModal.drying (Some 200)
      = numberToString h +:+ "h " +:+ numberToString m +:+ "m"
      ∧ 200 = 60 * h + m ∧ 0 ≤ m < 60.
Proof.
  destruct (remaining_time_format 45) as (_ & _ & _ & Hshort & _).
  destruct (remaining_time_format 200) as (_ & _ & _ & _ & Hlong & _).
  split; [exact (Hshort ltac:(lia)) |].
  destruct (Hlong ltac:(lia)) as (h & m & Htext & Hsum & _ & Hm).
  exists h, m. split_and!; [exact Htext | exact Hsum | lia | lia].
Defined.

(** ** The steps of the progress card *)

Lemma isFilamentChangeStage_cases (stage : Z) :
  isFilamentChangeStage stage = true →
  stage = 7 ∨ stage = 22 ∨ stage = 24 ∨ stage = 4.
Proof.
  intros Hactive%bool_decide_eq_true.
  repeat (apply elem_of_cons in Hactive as [-> | Hactive]); auto.
  by apply elem_of_nil in Hactive.
Qed.

(** X16. The step list of the progress card. Whatever the stage and the
    kind, the steps are numbered from 1 in order, no step is further along
    than a step before it (completed steps come first, then at most one step
    in progress, then pending ones), and the third step of a load, the purge,
    is never shown as in progress or completed. When the card is shown on the
    device's word alone (no pending user marker), exactly one step is in
    progress; with a user marker that disagrees with the device, as an unload
    marker during stage 24, every step is pending. *)
Theorem progress_steps_ordered
  (printerId nozzleCount : Z) (isLoading : bool) (stage : Z)
  (st : AMSSection) :
  let steps := FilamentChangeCard.steps isLoading stage in
  let inProgress := FilamentChangeCard.inProgress in
  FilamentChangeCard.stepNumber <$> steps
  = (if isLoading then [1; 2; 3] else [1; 2])
  ∧ StronglySorted
      (λ s1 s2, (FilamentChangeCard.progress (FilamentChangeCard.status s2)
                 ≤ FilamentChangeCard.progress (FilamentChangeCard.status s1))
                %nat)
      steps
  ∧ (length (inProgress steps) ≤ 1)%nat
  ∧ FilamentChangeCard.status
      <$> FilamentChangeCard.getLoadingSteps stage !! 2%nat
    = Some FilamentChangeCard.pending
  ∧ (showFilamentChangeCard st = true → userFilamentChange st = None →
     length (inProgress
               (FilamentChangeCard.steps (isFilamentLoading st)
                  (currentStage st))) = 1%nat)
  ∧ inProgress (FilamentChangeCard.steps false 24) = []
  ∧ FilamentChangeCard.status <$> FilamentChangeCard.steps false 24
    = [FilamentChangeCard.pending; FilamentChangeCard.pending].
Proof.
  intros steps inProgress. subst steps inProgress.
  split_and!.
  - unfold FilamentChangeCard.steps, FilamentChangeCard.getLoadingSteps,
      FilamentChangeCard.getUnloadingSteps.
    destruct isLoading;
      destruct ((stage =? -1) || (stage =? STAGE_HEATING_NOZZLE)
                || (stage =? STAGE_CHANGING_FILAMENT));
      try destruct (stage =? STAGE_FILAMENT_LOADING);
      try destruct (stage =? STAGE_FILAMENT_UNLOADING); reflexivity.
  - unfold FilamentChangeCard.steps, FilamentChangeCard.getLoadingSteps,
      FilamentChangeCard.getUnloadingSteps.
    destruct isLoading;
      destruct ((stage =? -1) || (stage =? STAGE_HEATING_NOZZLE)
                || (stage =? STAGE_CHANGING_FILAMENT));
      try destruct (stage =? STAGE_FILAMENT_LOADING);
      try destruct (stage =? STAGE_FILAMENT_UNLOADING);
      repeat (constructor; cbn; try lia).
  - unfold FilamentChangeCard.steps, FilamentChangeCard.getLoadingSteps,
      FilamentChangeCard.getUnloadingSteps.
    destruct isLoading;
      destruct ((stage =? -1) || (stage =? STAGE_HEATING_NOZZLE)
                || (stage =? STAGE_CHANGING_FILAMENT));
      try destruct (stage =? STAGE_FILAMENT_LOADING);
      try destruct (stage =? STAGE_FILAMENT_UNLOADING);
      vm_compute; lia.
  - unfold FilamentChangeCard.getLoadingSteps.
    destruct ((stage =? -1) || (stage =? STAGE_HEATING_NOZZLE)
              || (stage =? STAGE_CHANGING_FILAMENT));
      try destruct (stage =? STAGE_FILAMENT_LOADING); reflexivity.
  - intros Hshown Hnone. unfold showFilamentChangeCard in Hshown.
    rewrite Hnone in Hshown. cbn in Hshown. rewrite orb_false_r in Hshown.
    unfold isFilamentLoading. rewrite Hnone.
    unfold isMqttFilamentChangeActive in Hshown.
    destruct (isFilamentChangeStage_cases _ Hshown) as [-> | [-> | [-> | ->]]];
      vm_compute; reflexivity.
  - vm_compute. reflexivity.
  - reflexivity.
Qed.

Lemma progress_steps_ordered_witness :
  let st := fst (step 1 2 (Snapshot (statusWith (Some 4) None))
                   initialSection) in
  showFilamentChangeCard st = true
  ∧ userFilamentChange st = None
  ∧ isFilamentLoading st = false
  ∧ length (FilamentChangeCard.inProgress
              (FilamentChangeCard.steps (isFilamentLoading st)
                 (currentStage st))) = 1%nat.
Proof.
  intros st.
  destruct (progress_steps_ordered 1 2 true 4 st)
    as (_ & _ & _ & _ & Hone & _).
  split_and!; [reflexivity | reflexivity | reflexivity |].
  exact (Hone eq_refl eq_refl).
Defined.

(** ** From a click on a slot to the load command *)

(** The unit a panel shows is a unit of the snapshot, and on a dual-nozzle
    machine that reports a map it is mapped to that panel's extruder. *)
Lemma selectedUnit_routed (nozzleCount : Z) (side : Side) (st : AMSSection)
  (u : AMSUnit) :
  selectedUnit nozzleCount side st = Some u →
  u ∈ amsUnits (status st)
  ∧ (1 < nozzleCount → amsExtruderMap (status st) ≠ ∅ →
     extruderOf (status st) u
     = Some (match side with LeftPanel => 1 | RightPanel => 0 end)).
Proof.
  intros Hshown.
  assert (u ∈ panelUnits nozzleCount side st) as Hin.
  { apply list_elem_of_lookup. destruct side; eauto. }
  assert (∀ r i, u ∈ filterIndexParity r i (amsUnits (status st)) →
                 u ∈ amsUnits (status st)) as Hparity.
  { intros r. induction (amsUnits (status st)) as [| v l IH]; intros i;
      [done |]. cbn [filterIndexParity].
    destruct (Nat.eqb (i mod 2) r).
    - intros [-> | Hu]%elem_of_cons; [by left | right; by eapply IH].
    - intros Hu. right. by eapply IH. }
  unfold panelUnits, leftUnits, rightUnits in Hin. split.
  - destruct side, (negb (isDualNozzle nozzleCount)),
      (mapReported (status st)); try done;
      try (by apply list_elem_of_filter in Hin as [_ ?]);
      try (by eapply Hparity); by apply elem_of_nil in Hin.
  - intros Hdual Hmap.
    assert (isDualNozzle nozzleCount = true) as Hd
      by (unfold isDualNozzle; apply Z.gtb_lt; lia).
    rewrite Hd, (mapReported_true _ Hmap) in Hin. cbn [negb] in Hin.
    destruct side; by apply list_elem_of_filter in Hin as [? _].
Qed.

(** X17. A load goes to the nozzle of the slot that was clicked. With
    unique unit ids, the printer connected and not running and no request
    pending, a click on a filled slot that is not the selected one, whose tray
    id lies below the slot count of its unit, followed by a click on Load,
    sends exactly one command: the load of the tray [unit.id * 4 + tray.id].
    Its extruder argument is that of the clicked unit on a dual-nozzle
    machine, which with a reported map is 1 for the left panel and 0 for the
    right panel, and it is left out on a single-nozzle machine. *)
Theorem load_targets_clicked_slot
  (printerId nozzleCount : Z) (st : AMSSection) (side : Side) (i : nat)
  (u : AMSUnit) (t : AMSTray) :
  let g := globalTrayId (unit_id u) (tray_id t) in
  let r := run printerId nozzleCount [ClickSlot side i; ClickLoad] st in
  selectedUnit nozzleCount side st = Some u → tray u !! i = Some t →
  isEmpty t = false → 0 ≤ tray_id t < slotsInUnit u →
  NoDup (unit_id <$> amsUnits (status st)) →
  isConnected st = true → isPrinting st = false → isLoading st = false →
  selectedTray st ≠ Some g →
  issuedCalls (snd r)
  = [amsLoadFilament printerId g
       (if nozzleCount >? 1 then extruderOf (status st) u else None)]
  ∧ selectedTray (fst r) = Some g
  ∧ userFilamentChange (fst r) = Some true
  ∧ (1 < nozzleCount → amsExtruderMap (status st) ≠ ∅ →
     extruderOf (status st) u
     = Some (match side with LeftPanel => 1 | RightPanel => 0 end)).
Proof.
  intros g r Hshown Htray Hfilled Hslot Hnodup Hconn Hprint Hidle Hother.
  destruct (selectedUnit_routed nozzleCount side st u Hshown) as [Hin Hside].
  assert (getExtruderIdForTray nozzleCount (status st) g
          = if nozzleCount >? 1 then extruderOf (status st) u else None)
    as Hext.
  { unfold getExtruderIdForTray, isDualNozzle.
    destruct (nozzleCount >? 1); [| done]. cbn [negb].
    by rewrite (findOwningUnit_round_trip _ u (tray_id t)). }
  set (st1 := fst (step printerId nozzleCount (ClickSlot side i) st)).
  assert (snd (step printerId nozzleCount (ClickSlot side i) st)
          = [setLoadTriggered false; setSelectedTray (Some g)]
          ∧ st1 = applyActions st
                    [setLoadTriggered false; setSelectedTray (Some g)])
    as [Hacts Hst1].
  { subst st1. unfold step. rewrite Hshown, Htray.
    unfold slotOnClick, handleTraySelect. rewrite Hfilled, Hprint.
    cbn [negb andb]. fold g.
    rewrite (bool_decide_eq_false_2 (selectedTray st = Some g)) by done.
    rewrite bool_decide_eq_true_2 by congruence. done. }
  assert (loadDisabled st1 = false ∧ selectedTray st1 = Some g
          ∧ status st1 = status st) as (Hen & Hsel & Hstatus).
  { rewrite Hst1. unfold loadDisabled, isConnected, isPrinting, isLoading in *.
    destruct st. cbn in *. rewrite Hconn, Hprint, Hidle. done. }
  assert (step printerId nozzleCount ClickLoad st1
          = (applyActions st1 (handleLoad printerId nozzleCount st1),
             handleLoad printerId nozzleCount st1)) as Hload
    by (unfold step; by rewrite Hen).
  assert (handleLoad printerId nozzleCount st1
          = [setUserFilamentChange (Some true);
             mutate (amsLoadFilament printerId g
                       (if nozzleCount >? 1 then extruderOf (status st) u
                        else None))]) as Hhandle
    by (unfold handleLoad; by rewrite Hsel, Hstatus, Hext).
  subst r. rewrite !run_cons, !run_actions_cons. cbn [run fst snd].
  fold st1. rewrite Hacts, Hload, Hhandle, app_nil_r. cbn [fst snd].
  split_and!; [done | | | done].
  - destruct st1; cbn in *. done.
  - destruct st1; cbn in *. done.
Qed.

Lemma load_targets_clicked_slot_witness :
  let pla := trayWith 1 (Some "PLA") None 50 in
  let ht := unitWith 128 [trayWith 0 (Some "ABS") None 10; pla] in
  let s := Some {| connected := true; state := "IDLE"; stg_cur := None;
                   tray_now := Some 255;
                   ams := Some [unitWith 0 []; ht];
                   ams_extruder_map := Some {[ "0" := 0; "128" := 1 ]} |} in
  let st := fst (step 1 2 (Snapshot s) initialSection) in
  selectedUnit 2 LeftPanel st = Some ht
  ∧ issuedCalls (snd (run 1 2 [ClickSlot LeftPanel 1; ClickLoad] st))
    = [amsLoadFilament 1 513 (Some 1)].
Proof.
  intros pla ht s st.
  destruct (load_targets_clicked_slot 1 2 st LeftPanel 1 ht pla)
    as (Hsent & _).
  - reflexivity.
  - reflexivity.
  - reflexivity.
  - unfold slotsInUnit. cbn. lia.
  - apply (bool_decide_unpack _). vm_compute. exact I.
  - reflexivity.
  - reflexivity.
  - reflexivity.
  - discriminate.
  - split; [reflexivity | exact Hsent].
Defined.
